(** * The proxy sender of the Wavefront Go SDK ([senders/proxy.go])

    A shallow embedding of [proxySender]: its constructor
    [NewProxySender], the five submission methods and the lifecycle
    methods [Start], [Close], [Flush] and [GetFailureCount].

    The sender talks to three kinds of collaborators that live in other
    packages: the connection handlers ([internal.ConnectionHandler]), the
    self-monitoring registry ([internal.MetricRegistry]) and the line
    encoders ([MetricLine], [HistoLine], ...).  Handlers are an interface
    in the source and a type class here; encoders and platform queries are
    the fields of [Externals]; the registry is a small record, and the
    report it makes when it is stopped goes back through the sender.

    Every method runs in a state monad over [World]: the sender object and
    the list of calls made so far on the collaborators.  A run that ends
    in a Go run-time panic (index out of range, nil receiver) is [None]. *)

From Stdlib Require Import ZArith String Ascii List DecimalString SpecFloat Lia.
From stdpp Require Import base list strings gmap.

Local Open Scope Z_scope.


(** ** Go base types and the standard-library functions the file uses *)

Module Go.

(** [error]: [errors.New msg] carries its message, [err.Error()] reads it
    back, and the [nil] error is [None] at type [option error]. *)
Definition error : Type := string.

(** [float64] as an IEEE 754 datum. *)
Definition float64 : Type := spec_float.

(** The untyped constant [0] converted to [float64]. *)
Definition float_zero : float64 := S754_zero false.

(** [a > b] on [float64]: false as soon as one side is a NaN. *)
Definition float_gt (a b : float64) : bool := SFltb b a.

(** [a <= b] on [float64]. *)
Definition float_le (a b : float64) : bool := SFleb a b.

(** Two's-complement reduction to the range of [int64] (and of [int] on
    a 64-bit platform). *)
Definition wrap64 (z : Z) : Z := (z + 2 ^ 63) mod 2 ^ 64 - 2 ^ 63.

(** [a + b] on [int64]. *)
Definition add64 (a b : Z) : Z := wrap64 (a + b).

(** [a * b] on [int64]. *)
Definition mul64 (a b : Z) : Z := wrap64 (a * b).

(** [time.Second], in nanoseconds. *)
Definition Second : Z := 1000000000.

(** [strconv.FormatInt(i, 10)]. *)
Definition FormatInt (i : Z) : string := NilZero.string_of_int (Z.to_int i).

(** [strconv.Itoa]. *)
Definition Itoa (i : Z) : string := FormatInt i.

(** [strings.trimLeftByte]. *)
Fixpoint trimLeftByte (s : string) (c : ascii) : string :=
  match s with
  | EmptyString => EmptyString
  | String a s' => if Ascii.eqb a c then trimLeftByte s' c else s
  end.

(** [strings.trimRightByte]. *)
Fixpoint trimRightByte (s : string) (c : ascii) : string :=
  match s with
  | EmptyString => EmptyString
  | String a s' =>
      match trimRightByte s' c with
      | EmptyString => if Ascii.eqb a c then EmptyString else String a EmptyString
      | t => String a t
      end
  end.

(** [strings.Trim(s, cutset)] for a cutset of one ASCII byte, the only
    way the sender calls it: the library then takes
    [trimLeftByte(trimRightByte(s, c), c)]. *)
Definition Trim (s : string) (c : ascii) : string :=
  trimLeftByte (trimRightByte s c) c.

(** The byte of the line feed. *)
Definition newline : ascii := ascii_of_nat 10.

(** The one-byte string that Go writes as a backslash followed by [n]. *)
Definition nl : string := String newline EmptyString.

End Go.

(** ** Package [internal]: what the sender consumes of it *)

Module internal.

(** The interface [internal.ConnectionHandler], with the methods that
    [proxy.go] calls.  A method that changes the handler returns the
    handler's next state; [Connected] and [GetFailureCount] only read it
    (the spec gives both as queries with no side effect), and
    [GetFailureCount] returns an [int64].  [NewProxyConnectionHandler] is
    the package's constructor of the implementation behind the interface;
    it never returns [nil]. *)
Class ConnectionHandler (H : Type) : Type := {
  NewProxyConnectionHandler : string -> Z -> H;
  Connect : H -> option Go.error * H;
  Connected : H -> bool;
  Close : H -> H;
  SendData : string -> H -> option Go.error * H;
  Start : H -> H;
  Flush : H -> option Go.error * H;
  GetFailureCount : H -> Z
}.

(** Modelled from the spec: a registered producer of the
    self-monitoring registry, a gauge with the value it gives when
    sampled, or a delta counter with the delta accumulated since the last
    report.  The spec lets an increment be fractional, so the delta is a
    [float64]. *)
Inductive Metric : Type :=
| GaugeFloat64 (value : Go.float64)
| DeltaCounter (delta : Go.float64).

(** Modelled from the spec: [internal.MetricRegistry] is not part of
    the sources.  The spec gives it a name prefix, a static tag set, an
    ordered collection of registered gauge and counter producers and a
    timer of its own; [running] says whether that timer is armed. *)
Record MetricRegistry : Type := mkRegistry {
  prefix : string;
  tags : list (string * string);
  metrics : list (string * Metric);
  running : bool
}.

(** [*internal.DeltaCounter]: a reference to the registry entry that
    holds the counter; the [nil] pointer is [None]. *)
Definition DeltaCounterRef : Type := nat.

(** Modelled from the spec: [internal.NewMetricRegistry] with the
    options [SetPrefix] and [SetTag]; the registry is created with no
    producer and with its timer not armed. *)
Definition NewMetricRegistry (pfx : string) (tgs : list (string * string))
  : MetricRegistry :=
  {| prefix := pfx; tags := tgs; metrics := []; running := false |}.

(** Modelled from the spec: [NewGaugeFloat64] registers a gauge
    producer at the end of the ordered collection. *)
Definition NewGaugeFloat64 (name : string) (v : Go.float64) (r : MetricRegistry)
  : MetricRegistry :=
  {| prefix := prefix r; tags := tags r;
     metrics := metrics r ++ [(name, GaugeFloat64 v)];
     running := running r |}.

(** Modelled from the spec: [NewDeltaCounter] creates a counter with an
    empty delta, registers it at the end of the ordered collection and
    returns the reference to it. *)
Definition NewDeltaCounter (name : string) (r : MetricRegistry)
  : DeltaCounterRef * MetricRegistry :=
  (length (metrics r),
   {| prefix := prefix r; tags := tags r;
      metrics := metrics r ++ [(name, DeltaCounter Go.float_zero)];
      running := running r |}).

(** Modelled from the spec: the registry's [Start] arms its timer. *)
Definition RegistryStart (r : MetricRegistry) : MetricRegistry :=
  {| prefix := prefix r; tags := tags r; metrics := metrics r; running := true |}.

(** Modelled from the spec: a point of a report of the registry.  The
    registry submits what it samples as ordinary metric points, marked
    with its prefix and carrying its tags: a point has the prefix and the
    tags of the registry, the name of the producer, the value sampled,
    and says whether the producer is a delta counter. *)
Record Point : Type := mkPoint {
  pointPrefix : string;
  pointTags : list (string * string);
  pointName : string;
  pointValue : Go.float64;
  pointDelta : bool
}.

(** Modelled from the spec: the value that sampling a producer gives. *)
Definition sampled (m : Metric) : Go.float64 :=
  match m with
  | GaugeFloat64 v => v
  | DeltaCounter d => d
  end.

(** Modelled from the spec: the producer once sampled.  A gauge is
    sampled again at each report; a delta counter is read and reset to
    zero in one step ([reportAndReset]). *)
Definition resampled (m : Metric) : Metric :=
  match m with
  | GaugeFloat64 v => GaugeFloat64 v
  | DeltaCounter _ => DeltaCounter Go.float_zero
  end.

(** Whether the producer is a delta counter. *)
Definition isDelta (m : Metric) : bool :=
  match m with
  | GaugeFloat64 _ => false
  | DeltaCounter _ => true
  end.

(** Modelled from the spec: one sampling pass of the registry.  Every
    registered producer gives one point, in the order of the collection,
    and the counters are reset. *)
Definition samplePass (r : MetricRegistry) : list Point * MetricRegistry :=
  (map (fun p => {| pointPrefix := prefix r; pointTags := tags r; pointName := fst p;
                    pointValue := sampled (snd p); pointDelta := isDelta (snd p) |})
       (metrics r),
   {| prefix := prefix r; tags := tags r;
      metrics := map (fun p => (fst p, resampled (snd p))) (metrics r);
      running := running r |}).

(** Modelled from the spec: the registry's [Stop] disarms its timer and
    takes one final sample, whose points are reported before [Stop]
    returns.  The points are reported through the sender the registry is
    attached to: see [senders.report]. *)
Definition RegistryStop (r : MetricRegistry) : list Point * MetricRegistry :=
  samplePass {| prefix := prefix r; tags := tags r; metrics := metrics r; running := false |}.

End internal.


(** ** Package [senders]: the proxy sender *)

Module senders.

(** The slots of [proxySender.handlers] ([iota] constants). *)
Definition metricHandler : nat := 0.
Definition histoHandler : nat := 1.
Definition spanHandler : nat := 2.
Definition eventHandler : nat := 3.
Definition handlersCount : nat := 4.

(** Modelled from the spec: the struct [ProxyConfiguration] is declared
    outside [proxy.go].  The spec's construction input is a target host,
    four port numbers (0 meaning disabled) and a flush interval; the field
    names and the type [int] are the ones [NewProxySender] and
    [makeConnHandler] use. *)
Record ProxyConfiguration : Type := mkConfig {
  Host : string;
  MetricsPort : Z;
  DistributionPort : Z;
  TracingPort : Z;
  EventsPort : Z;
  FlushIntervalSeconds : Z
}.

(** [cfg.FlushIntervalSeconds = v]. *)
Definition set_FlushIntervalSeconds (v : Z) (cfg : ProxyConfiguration)
  : ProxyConfiguration :=
  {| Host := Host cfg; MetricsPort := MetricsPort cfg;
     DistributionPort := DistributionPort cfg; TracingPort := TracingPort cfg;
     EventsPort := EventsPort cfg; FlushIntervalSeconds := v |}.

(** What [proxy.go] takes from the rest of the repository and from the
    platform, as parameters: the record types of the other packages, the
    five line encoders (each returns Go's pair of a line and an error),
    the delta-name helpers of package [internal], and the values read at
    construction.  The last three fields are what the spec leaves open
    about a point that the registry reports: how its name is made of the
    registry's prefix and the name of the producer, its timestamp and its
    source. *)
Class Externals : Type := {
  Centroid : Type;
  Granularities : Type;
  SpanTag : Type;
  SpanLog : Type;
  EventOption : Type;
  MetricLine : string -> Go.float64 -> Z -> string -> gmap string string ->
               string -> string * option Go.error;
  HistoLine : string -> list Centroid -> Granularities -> Z -> string ->
              gmap string string -> string -> string * option Go.error;
  SpanLine : string -> Z -> Z -> string -> string -> string -> list string ->
             list string -> list SpanTag -> list SpanLog -> string ->
             string * option Go.error;
  SpanLogJSON : string -> string -> list SpanLog -> string * option Go.error;
  EventLine : string -> Z -> Z -> string -> gmap string string ->
              list EventOption -> string * option Go.error;
  HasDeltaPrefix : string -> bool;
  DeltaCounterName : string -> string;
  GetHostname : string -> string;
  GetSemVer : string -> Go.float64 * option Go.error;
  Version : string;
  Getpid : Z;
  defaultProxyFlushInterval : Z;
  ReportName : string -> string -> string;
  ReportTime : Z;
  ReportSource : string
}.

(** A call on a collaborator, as the sender makes it.  Handler calls name
    the slot of the handler.  The two read-only handler methods,
    [Connected] and [GetFailureCount], are not recorded. *)
Inductive Call : Type :=
| CallNewProxyConnectionHandler (addr : string) (flushInterval : Z)
| CallConnect (slot : nat)
| CallSendData (slot : nat) (line : string)
| CallStart (slot : nat)
| CallFlush (slot : nat)
| CallClose (slot : nat)
| CallRegistryStart
| CallRegistryStop
| CallMetricLine
| CallHistoLine
| CallSpanLine
| CallSpanLogJSON
| CallEventLine.

Section Sender.

Context {H : Type} `{!internal.ConnectionHandler H} `{!Externals}.

(** The struct [proxySender].  A handler slot holds the handler's state
    ([None] is the [nil] interface value); the registry is held in place
    (its back reference to the sender is left out); a counter field holds
    a reference into the registry. *)
Record proxySender : Type := mkSender {
  handlers : list (option H);
  defaultSource : string;
  internalRegistry : option internal.MetricRegistry;
  pointsValid : option internal.DeltaCounterRef;
  pointsInvalid : option internal.DeltaCounterRef;
  pointsDropped : option internal.DeltaCounterRef;
  pointReportErrors : option internal.DeltaCounterRef;
  histogramsValid : option internal.DeltaCounterRef;
  histogramsInvalid : option internal.DeltaCounterRef;
  histogramsDropped : option internal.DeltaCounterRef;
  histogramReportErrors : option internal.DeltaCounterRef;
  spansValid : option internal.DeltaCounterRef;
  spansInvalid : option internal.DeltaCounterRef;
  spansDropped : option internal.DeltaCounterRef;
  spanReportErrors : option internal.DeltaCounterRef;
  spanLogsValid : option internal.DeltaCounterRef;
  spanLogsInvalid : option internal.DeltaCounterRef;
  spanLogsDropped : option internal.DeltaCounterRef;
  spanLogReportErrors : option internal.DeltaCounterRef
}.

(** [sender.handlers = v]. *)
Definition set_handlers (v : list (option H)) (s : proxySender)
  : proxySender :=
  {| handlers := v; defaultSource := defaultSource s; internalRegistry := internalRegistry s;
     pointsValid := pointsValid s; pointsInvalid := pointsInvalid s;
     pointsDropped := pointsDropped s; pointReportErrors := pointReportErrors s;
     histogramsValid := histogramsValid s; histogramsInvalid := histogramsInvalid s;
     histogramsDropped := histogramsDropped s; histogramReportErrors := histogramReportErrors s;
     spansValid := spansValid s; spansInvalid := spansInvalid s; spansDropped := spansDropped s;
     spanReportErrors := spanReportErrors s; spanLogsValid := spanLogsValid s;
     spanLogsInvalid := spanLogsInvalid s; spanLogsDropped := spanLogsDropped s;
     spanLogReportErrors := spanLogReportErrors s |}.

(** [sender.internalRegistry = v]. *)
Definition set_internalRegistry (v : option internal.MetricRegistry) (s : proxySender)
  : proxySender :=
  {| handlers := handlers s; defaultSource := defaultSource s; internalRegistry := v;
     pointsValid := pointsValid s; pointsInvalid := pointsInvalid s;
     pointsDropped := pointsDropped s; pointReportErrors := pointReportErrors s;
     histogramsValid := histogramsValid s; histogramsInvalid := histogramsInvalid s;
     histogramsDropped := histogramsDropped s; histogramReportErrors := histogramReportErrors s;
     spansValid := spansValid s; spansInvalid := spansInvalid s; spansDropped := spansDropped s;
     spanReportErrors := spanReportErrors s; spanLogsValid := spanLogsValid s;
     spanLogsInvalid := spanLogsInvalid s; spanLogsDropped := spanLogsDropped s;
     spanLogReportErrors := spanLogReportErrors s |}.

(** [sender.pointsValid = v]. *)
Definition set_pointsValid (v : option internal.DeltaCounterRef) (s : proxySender)
  : proxySender :=
  {| handlers := handlers s; defaultSource := defaultSource s;
     internalRegistry := internalRegistry s; pointsValid := v; pointsInvalid := pointsInvalid s;
     pointsDropped := pointsDropped s; pointReportErrors := pointReportErrors s;
     histogramsValid := histogramsValid s; histogramsInvalid := histogramsInvalid s;
     histogramsDropped := histogramsDropped s; histogramReportErrors := histogramReportErrors s;
     spansValid := spansValid s; spansInvalid := spansInvalid s; spansDropped := spansDropped s;
     spanReportErrors := spanReportErrors s; spanLogsValid := spanLogsValid s;
     spanLogsInvalid := spanLogsInvalid s; spanLogsDropped := spanLogsDropped s;
     spanLogReportErrors := spanLogReportErrors s |}.

(** [sender.pointsInvalid = v]. *)
Definition set_pointsInvalid (v : option internal.DeltaCounterRef) (s : proxySender)
  : proxySender :=
  {| handlers := handlers s; defaultSource := defaultSource s;
     internalRegistry := internalRegistry s; pointsValid := pointsValid s; pointsInvalid := v;
     pointsDropped := pointsDropped s; pointReportErrors := pointReportErrors s;
     histogramsValid := histogramsValid s; histogramsInvalid := histogramsInvalid s;
     histogramsDropped := histogramsDropped s; histogramReportErrors := histogramReportErrors s;
     spansValid := spansValid s; spansInvalid := spansInvalid s; spansDropped := spansDropped s;
     spanReportErrors := spanReportErrors s; spanLogsValid := spanLogsValid s;
     spanLogsInvalid := spanLogsInvalid s; spanLogsDropped := spanLogsDropped s;
     spanLogReportErrors := spanLogReportErrors s |}.

(** [sender.pointsDropped = v]. *)
Definition set_pointsDropped (v : option internal.DeltaCounterRef) (s : proxySender)
  : proxySender :=
  {| handlers := handlers s; defaultSource := defaultSource s;
     internalRegistry := internalRegistry s; pointsValid := pointsValid s;
     pointsInvalid := pointsInvalid s; pointsDropped := v;
     pointReportErrors := pointReportErrors s; histogramsValid := histogramsValid s;
     histogramsInvalid := histogramsInvalid s; histogramsDropped := histogramsDropped s;
     histogramReportErrors := histogramReportErrors s; spansValid := spansValid s;
     spansInvalid := spansInvalid s; spansDropped := spansDropped s;
     spanReportErrors := spanReportErrors s; spanLogsValid := spanLogsValid s;
     spanLogsInvalid := spanLogsInvalid s; spanLogsDropped := spanLogsDropped s;
     spanLogReportErrors := spanLogReportErrors s |}.

(** [sender.pointReportErrors = v]. *)
Definition set_pointReportErrors (v : option internal.DeltaCounterRef) (s : proxySender)
  : proxySender :=
  {| handlers := handlers s; defaultSource := defaultSource s;
     internalRegistry := internalRegistry s; pointsValid := pointsValid s;
     pointsInvalid := pointsInvalid s; pointsDropped := pointsDropped s; pointReportErrors := v;
     histogramsValid := histogramsValid s; histogramsInvalid := histogramsInvalid s;
     histogramsDropped := histogramsDropped s; histogramReportErrors := histogramReportErrors s;
     spansValid := spansValid s; spansInvalid := spansInvalid s; spansDropped := spansDropped s;
     spanReportErrors := spanReportErrors s; spanLogsValid := spanLogsValid s;
     spanLogsInvalid := spanLogsInvalid s; spanLogsDropped := spanLogsDropped s;
     spanLogReportErrors := spanLogReportErrors s |}.

(** [sender.histogramsValid = v]. *)
Definition set_histogramsValid (v : option internal.DeltaCounterRef) (s : proxySender)
  : proxySender :=
  {| handlers := handlers s; defaultSource := defaultSource s;
     internalRegistry := internalRegistry s; pointsValid := pointsValid s;
     pointsInvalid := pointsInvalid s; pointsDropped := pointsDropped s;
     pointReportErrors := pointReportErrors s; histogramsValid := v;
     histogramsInvalid := histogramsInvalid s; histogramsDropped := histogramsDropped s;
     histogramReportErrors := histogramReportErrors s; spansValid := spansValid s;
     spansInvalid := spansInvalid s; spansDropped := spansDropped s;
     spanReportErrors := spanReportErrors s; spanLogsValid := spanLogsValid s;
     spanLogsInvalid := spanLogsInvalid s; spanLogsDropped := spanLogsDropped s;
     spanLogReportErrors := spanLogReportErrors s |}.

(** [sender.histogramsInvalid = v]. *)
Definition set_histogramsInvalid (v : option internal.DeltaCounterRef) (s : proxySender)
  : proxySender :=
  {| handlers := handlers s; defaultSource := defaultSource s;
     internalRegistry := internalRegistry s; pointsValid := pointsValid s;
     pointsInvalid := pointsInvalid s; pointsDropped := pointsDropped s;
     pointReportErrors := pointReportErrors s; histogramsValid := histogramsValid s;
     histogramsInvalid := v; histogramsDropped := histogramsDropped s;
     histogramReportErrors := histogramReportErrors s; spansValid := spansValid s;
     spansInvalid := spansInvalid s; spansDropped := spansDropped s;
     spanReportErrors := spanReportErrors s; spanLogsValid := spanLogsValid s;
     spanLogsInvalid := spanLogsInvalid s; spanLogsDropped := spanLogsDropped s;
     spanLogReportErrors := spanLogReportErrors s |}.

(** [sender.histogramsDropped = v]. *)
Definition set_histogramsDropped (v : option internal.DeltaCounterRef) (s : proxySender)
  : proxySender :=
  {| handlers := handlers s; defaultSource := defaultSource s;
     internalRegistry := internalRegistry s; pointsValid := pointsValid s;
     pointsInvalid := pointsInvalid s; pointsDropped := pointsDropped s;
     pointReportErrors := pointReportErrors s; histogramsValid := histogramsValid s;
     histogramsInvalid := histogramsInvalid s; histogramsDropped := v;
     histogramReportErrors := histogramReportErrors s; spansValid := spansValid s;
     spansInvalid := spansInvalid s; spansDropped := spansDropped s;
     spanReportErrors := spanReportErrors s; spanLogsValid := spanLogsValid s;
     spanLogsInvalid := spanLogsInvalid s; spanLogsDropped := spanLogsDropped s;
     spanLogReportErrors := spanLogReportErrors s |}.

(** [sender.histogramReportErrors = v]. *)
Definition set_histogramReportErrors (v : option internal.DeltaCounterRef) (s : proxySender)
  : proxySender :=
  {| handlers := handlers s; defaultSource := defaultSource s;
     internalRegistry := internalRegistry s; pointsValid := pointsValid s;
     pointsInvalid := pointsInvalid s; pointsDropped := pointsDropped s;
     pointReportErrors := pointReportErrors s; histogramsValid := histogramsValid s;
     histogramsInvalid := histogramsInvalid s; histogramsDropped := histogramsDropped s;
     histogramReportErrors := v; spansValid := spansValid s; spansInvalid := spansInvalid s;
     spansDropped := spansDropped s; spanReportErrors := spanReportErrors s;
     spanLogsValid := spanLogsValid s; spanLogsInvalid := spanLogsInvalid s;
     spanLogsDropped := spanLogsDropped s; spanLogReportErrors := spanLogReportErrors s |}.

(** [sender.spansValid = v]. *)
Definition set_spansValid (v : option internal.DeltaCounterRef) (s : proxySender)
  : proxySender :=
  {| handlers := handlers s; defaultSource := defaultSource s;
     internalRegistry := internalRegistry s; pointsValid := pointsValid s;
     pointsInvalid := pointsInvalid s; pointsDropped := pointsDropped s;
     pointReportErrors := pointReportErrors s; histogramsValid := histogramsValid s;
     histogramsInvalid := histogramsInvalid s; histogramsDropped := histogramsDropped s;
     histogramReportErrors := histogramReportErrors s; spansValid := v;
     spansInvalid := spansInvalid s; spansDropped := spansDropped s;
     spanReportErrors := spanReportErrors s; spanLogsValid := spanLogsValid s;
     spanLogsInvalid := spanLogsInvalid s; spanLogsDropped := spanLogsDropped s;
     spanLogReportErrors := spanLogReportErrors s |}.

(** [sender.spansInvalid = v]. *)
Definition set_spansInvalid (v : option internal.DeltaCounterRef) (s : proxySender)
  : proxySender :=
  {| handlers := handlers s; defaultSource := defaultSource s;
     internalRegistry := internalRegistry s; pointsValid := pointsValid s;
     pointsInvalid := pointsInvalid s; pointsDropped := pointsDropped s;
     pointReportErrors := pointReportErrors s; histogramsValid := histogramsValid s;
     histogramsInvalid := histogramsInvalid s; histogramsDropped := histogramsDropped s;
     histogramReportErrors := histogramReportErrors s; spansValid := spansValid s;
     spansInvalid := v; spansDropped := spansDropped s; spanReportErrors := spanReportErrors s;
     spanLogsValid := spanLogsValid s; spanLogsInvalid := spanLogsInvalid s;
     spanLogsDropped := spanLogsDropped s; spanLogReportErrors := spanLogReportErrors s |}.

(** [sender.spansDropped = v]. *)
Definition set_spansDropped (v : option internal.DeltaCounterRef) (s : proxySender)
  : proxySender :=
  {| handlers := handlers s; defaultSource := defaultSource s;
     internalRegistry := internalRegistry s; pointsValid := pointsValid s;
     pointsInvalid := pointsInvalid s; pointsDropped := pointsDropped s;
     pointReportErrors := pointReportErrors s; histogramsValid := histogramsValid s;
     histogramsInvalid := histogramsInvalid s; histogramsDropped := histogramsDropped s;
     histogramReportErrors := histogramReportErrors s; spansValid := spansValid s;
     spansInvalid := spansInvalid s; spansDropped := v; spanReportErrors := spanReportErrors s;
     spanLogsValid := spanLogsValid s; spanLogsInvalid := spanLogsInvalid s;
     spanLogsDropped := spanLogsDropped s; spanLogReportErrors := spanLogReportErrors s |}.

(** [sender.spanReportErrors = v]. *)
Definition set_spanReportErrors (v : option internal.DeltaCounterRef) (s : proxySender)
  : proxySender :=
  {| handlers := handlers s; defaultSource := defaultSource s;
     internalRegistry := internalRegistry s; pointsValid := pointsValid s;
     pointsInvalid := pointsInvalid s; pointsDropped := pointsDropped s;
     pointReportErrors := pointReportErrors s; histogramsValid := histogramsValid s;
     histogramsInvalid := histogramsInvalid s; histogramsDropped := histogramsDropped s;
     histogramReportErrors := histogramReportErrors s; spansValid := spansValid s;
     spansInvalid := spansInvalid s; spansDropped := spansDropped s; spanReportErrors := v;
     spanLogsValid := spanLogsValid s; spanLogsInvalid := spanLogsInvalid s;
     spanLogsDropped := spanLogsDropped s; spanLogReportErrors := spanLogReportErrors s |}.

(** [sender.spanLogsValid = v]. *)
Definition set_spanLogsValid (v : option internal.DeltaCounterRef) (s : proxySender)
  : proxySender :=
  {| handlers := handlers s; defaultSource := defaultSource s;
     internalRegistry := internalRegistry s; pointsValid := pointsValid s;
     pointsInvalid := pointsInvalid s; pointsDropped := pointsDropped s;
     pointReportErrors := pointReportErrors s; histogramsValid := histogramsValid s;
     histogramsInvalid := histogramsInvalid s; histogramsDropped := histogramsDropped s;
     histogramReportErrors := histogramReportErrors s; spansValid := spansValid s;
     spansInvalid := spansInvalid s; spansDropped := spansDropped s;
     spanReportErrors := spanReportErrors s; spanLogsValid := v;
     spanLogsInvalid := spanLogsInvalid s; spanLogsDropped := spanLogsDropped s;
     spanLogReportErrors := spanLogReportErrors s |}.

(** [sender.spanLogsInvalid = v]. *)
Definition set_spanLogsInvalid (v : option internal.DeltaCounterRef) (s : proxySender)
  : proxySender :=
  {| handlers := handlers s; defaultSource := defaultSource s;
     internalRegistry := internalRegistry s; pointsValid := pointsValid s;
     pointsInvalid := pointsInvalid s; pointsDropped := pointsDropped s;
     pointReportErrors := pointReportErrors s; histogramsValid := histogramsValid s;
     histogramsInvalid := histogramsInvalid s; histogramsDropped := histogramsDropped s;
     histogramReportErrors := histogramReportErrors s; spansValid := spansValid s;
     spansInvalid := spansInvalid s; spansDropped := spansDropped s;
     spanReportErrors := spanReportErrors s; spanLogsValid := spanLogsValid s;
     spanLogsInvalid := v; spanLogsDropped := spanLogsDropped s;
     spanLogReportErrors := spanLogReportErrors s |}.

(** [sender.spanLogsDropped = v]. *)
Definition set_spanLogsDropped (v : option internal.DeltaCounterRef) (s : proxySender)
  : proxySender :=
  {| handlers := handlers s; defaultSource := defaultSource s;
     internalRegistry := internalRegistry s; pointsValid := pointsValid s;
     pointsInvalid := pointsInvalid s; pointsDropped := pointsDropped s;
     pointReportErrors := pointReportErrors s; histogramsValid := histogramsValid s;
     histogramsInvalid := histogramsInvalid s; histogramsDropped := histogramsDropped s;
     histogramReportErrors := histogramReportErrors s; spansValid := spansValid s;
     spansInvalid := spansInvalid s; spansDropped := spansDropped s;
     spanReportErrors := spanReportErrors s; spanLogsValid := spanLogsValid s;
     spanLogsInvalid := spanLogsInvalid s; spanLogsDropped := v;
     spanLogReportErrors := spanLogReportErrors s |}.

(** [sender.spanLogReportErrors = v]. *)
Definition set_spanLogReportErrors (v : option internal.DeltaCounterRef) (s : proxySender)
  : proxySender :=
  {| handlers := handlers s; defaultSource := defaultSource s;
     internalRegistry := internalRegistry s; pointsValid := pointsValid s;
     pointsInvalid := pointsInvalid s; pointsDropped := pointsDropped s;
     pointReportErrors := pointReportErrors s; histogramsValid := histogramsValid s;
     histogramsInvalid := histogramsInvalid s; histogramsDropped := histogramsDropped s;
     histogramReportErrors := histogramReportErrors s; spansValid := spansValid s;
     spansInvalid := spansInvalid s; spansDropped := spansDropped s;
     spanReportErrors := spanReportErrors s; spanLogsValid := spanLogsValid s;
     spanLogsInvalid := spanLogsInvalid s; spanLogsDropped := spanLogsDropped s;
     spanLogReportErrors := v |}.
(** The state a method runs in: the receiver, and the calls made on the
    collaborators so far, oldest first. *)
Record World : Type := mkWorld {
  this : proxySender;
  calls : list Call
}.

(** A computation of the sender; [None] is a run-time panic. *)
Definition M (A : Type) : Type := World -> option (A * World).

Definition ret {A : Type} (a : A) : M A := fun w => Some (a, w).

Definition bind {A B : Type} (m : M A) (k : A -> M B) : M B :=
  fun w => match m w with
           | Some (a, w') => k a w'
           | None => None
           end.

Notation "'let*' x ':=' m 'in' k" := (bind m (fun x => k))
  (at level 10, x pattern, m at level 100, k at level 200).

(** The collaborator call [c] is made. *)
Definition record (c : Call) : M unit :=
  fun w => Some (tt, {| this := this w; calls := calls w ++ [c] |}).

(** Reads a field of the receiver. *)
Definition field {A : Type} (f : proxySender -> A) : M A :=
  fun w => Some (f (this w), w).

(** Assigns to a field of the receiver. *)
Definition assign (f : proxySender -> proxySender) : M unit :=
  fun w => Some (tt, {| this := f (this w); calls := calls w |}).

(** [sender.handlers[i]] read: an index out of range panics. *)
Definition handlerAt (i : nat) : M (option H) :=
  fun w => match handlers (this w) !! i with
           | Some h => Some (h, w)
           | None => None
           end.

(** [sender.handlers[i] = h]: an index out of range panics. *)
Definition storeHandler (i : nat) (h : H) : M unit :=
  fun w => if (i <? length (handlers (this w)))%nat
           then Some (tt, {| this := set_handlers (<[i := Some h]> (handlers (this w))) (this w);
                            calls := calls w |})
           else None.

(** A call of a state-changing method [m] on the handler of slot [i]:
    the call is recorded, the method runs on the handler's state and the
    next state is stored in the slot.  A [nil] receiver panics. *)
Definition invoke {A : Type} (i : nat) (c : Call) (m : H -> A * H) : M A :=
  fun w => match handlers (this w) !! i with
           | Some (Some h) =>
               let (a, h') := m h in
               Some (a, {| this := set_handlers (<[i := Some h']> (handlers (this w))) (this w);
                           calls := calls w ++ [c] |})
           | _ => None
           end.

(** A call of a read-only method [q] on the handler of slot [i]. *)
Definition query {A : Type} (i : nat) (q : H -> A) : M A :=
  fun w => match handlers (this w) !! i with
           | Some (Some h) => Some (q h, w)
           | _ => None
           end.

(** A call of a registry method [m] through [sender.internalRegistry];
    a [nil] registry panics. *)
Definition onRegistry {A : Type} (m : internal.MetricRegistry -> A * internal.MetricRegistry)
  : M A :=
  fun w => match internalRegistry (this w) with
           | Some r =>
               let (a, r') := m r in
               Some (a, {| this := set_internalRegistry (Some r') (this w); calls := calls w |})
           | None => None
           end.

(** [sender.internalRegistry.NewDeltaCounter(name)]; the pointer it
    returns is never [nil]. *)
Definition NewDeltaCounter (name : string) : M (option internal.DeltaCounterRef) :=
  let* c := onRegistry (internal.NewDeltaCounter name) in
  ret (Some c).

(** [for i, h := range hs { if h != nil { acc = body(i, acc) } }], with
    [i] counted from [i0]. *)
Fixpoint rangeHandlers {A : Type} (hs : list (option H)) (i0 : nat)
    (body : nat -> A -> M A) (acc : A) : M A :=
  match hs with
  | [] => ret acc
  | h :: hs' =>
      let* acc' := match h with
                   | Some _ => body i0 acc
                   | None => ret acc
                   end in
      rangeHandlers hs' (S i0) body acc'
  end.

(** [makeConnHandler]. *)
Definition makeConnHandler (host : string) (port flushIntervalSeconds : Z) : M H :=
  let addr := host +:+ ":" +:+ Go.FormatInt port in
  let flushInterval := Go.mul64 Go.Second flushIntervalSeconds in
  let* _ := record (CallNewProxyConnectionHandler addr flushInterval) in
  ret (internal.NewProxyConnectionHandler addr flushInterval).

(** [proxySender.Start]. *)
Definition Start : M unit :=
  let* hs := field handlers in
  let* _ := rangeHandlers hs 0
              (fun i _ => invoke i (CallStart i) (fun h => (tt, internal.Start h))) tt in
  let* _ := record CallRegistryStart in
  onRegistry (fun r => (tt, internal.RegistryStart r)).

(** [proxySender.SendMetric]. *)
Definition SendMetric (name : string) (value : Go.float64) (ts : Z) (source : string)
    (tags : gmap string string) : M (option Go.error) :=
  let* handler := handlerAt metricHandler in
  match handler with
  | None => ret (Some "proxy metrics port not provided, cannot send metric data")
  | Some _ =>
      let* connected := query metricHandler internal.Connected in
      let* err := (if negb connected
                   then invoke metricHandler (CallConnect metricHandler) internal.Connect
                   else ret None) in
      match err with
      | Some e => ret (Some e)
      | None =>
          let* src := field defaultSource in
          let* _ := record CallMetricLine in
          let (line, err) := MetricLine name value ts source tags src in
          match err with
          | Some e => ret (Some e)
          | None =>
              invoke metricHandler (CallSendData metricHandler line) (internal.SendData line)
          end
      end
  end.

(** [proxySender.SendDeltaCounter]. *)
Definition SendDeltaCounter (name : string) (value : Go.float64) (ts : Z) (source : string)
    (tags : gmap string string) : M (option Go.error) :=
  if String.eqb name ""
  then ret (Some "empty metric name")
  else
    let name := if negb (HasDeltaPrefix name) then DeltaCounterName name else name in
    if Go.float_gt value Go.float_zero
    then SendMetric name value ts source tags
    else ret None.

(** [proxySender.SendDistribution]. *)
Definition SendDistribution (name : string) (centroids : list Centroid) (hgs : Granularities)
    (ts : Z) (source : string) (tags : gmap string string) : M (option Go.error) :=
  let* handler := handlerAt histoHandler in
  match handler with
  | None => ret (Some "proxy distribution port not provided, cannot send distribution data")
  | Some _ =>
      let* connected := query histoHandler internal.Connected in
      let* err := (if negb connected
                   then invoke histoHandler (CallConnect histoHandler) internal.Connect
                   else ret None) in
      match err with
      | Some e => ret (Some e)
      | None =>
          let* src := field defaultSource in
          let* _ := record CallHistoLine in
          let (line, err) := HistoLine name centroids hgs ts source tags src in
          match err with
          | Some e => ret (Some e)
          | None =>
              invoke histoHandler (CallSendData histoHandler line) (internal.SendData line)
          end
      end
  end.

(** [proxySender.SendSpan]. *)
Definition SendSpan (name : string) (startMillis durationMillis : Z)
    (source traceId spanId : string) (parents followsFrom : list string)
    (tags : list SpanTag) (spanLogs : list SpanLog) : M (option Go.error) :=
  let* handler := handlerAt spanHandler in
  match handler with
  | None => ret (Some "proxy tracing port not provided, cannot send span data")
  | Some _ =>
      let* connected := query spanHandler internal.Connected in
      let* err := (if negb connected
                   then invoke spanHandler (CallConnect spanHandler) internal.Connect
                   else ret None) in
      match err with
      | Some e => ret (Some e)
      | None =>
          let* src := field defaultSource in
          let* _ := record CallSpanLine in
          let (line, err) := SpanLine name startMillis durationMillis source traceId spanId
                               parents followsFrom tags spanLogs src in
          match err with
          | Some e => ret (Some e)
          | None =>
              let* err := invoke spanHandler (CallSendData spanHandler line)
                            (internal.SendData line) in
              match err with
              | Some e => ret (Some e)
              | None =>
                  if (0 <? length spanLogs)%nat
                  then
                    let* _ := record CallSpanLogJSON in
                    let (logs, err) := SpanLogJSON traceId spanId spanLogs in
                    match err with
                    | Some e => ret (Some e)
                    | None =>
                        invoke spanHandler (CallSendData spanHandler logs)
                          (internal.SendData logs)
                    end
                  else ret None
              end
          end
      end
  end.

(** [proxySender.SendEvent]. *)
Definition SendEvent (name : string) (startMillis endMillis : Z) (source : string)
    (tags : gmap string string) (setters : list EventOption) : M (option Go.error) :=
  let* handler := handlerAt eventHandler in
  match handler with
  | None => ret (Some "proxy events port not provided, cannot send events data")
  | Some _ =>
      let* connected := query eventHandler internal.Connected in
      let* err := (if negb connected
                   then invoke eventHandler (CallConnect eventHandler) internal.Connect
                   else ret None) in
      match err with
      | Some e => ret (Some e)
      | None =>
          let* _ := record CallEventLine in
          let (line, err) := EventLine name startMillis endMillis source tags setters in
          match err with
          | Some e => ret (Some e)
          | None =>
              invoke eventHandler (CallSendData eventHandler line) (internal.SendData line)
          end
      end
  end.

(** Modelled from the spec: the registry submits a point as an ordinary
    metric point through the sender it is attached to, a gauge by
    [SendMetric] and a delta counter by [SendDeltaCounter], with its tags.
    The report is best-effort: the error of a point is dropped. *)
Definition reportPoint (p : internal.Point) : M unit :=
  let name := ReportName (internal.pointPrefix p) (internal.pointName p) in
  let tags : gmap string string := list_to_map (internal.pointTags p) in
  let* _ := (if internal.pointDelta p
             then SendDeltaCounter name (internal.pointValue p) ReportTime ReportSource tags
             else SendMetric name (internal.pointValue p) ReportTime ReportSource tags) in
  ret tt.

(** Modelled from the spec: the points of a sample are reported one
    after the other. *)
Fixpoint report (ps : list internal.Point) : M unit :=
  match ps with
  | [] => ret tt
  | p :: ps' => let* _ := reportPoint p in report ps'
  end.

(** [proxySender.Close].  The last line is the call
    [sender.internalRegistry.Stop()]: the registry disarms its timer and
    takes its final sample, and the points of that sample are reported
    through the sender before the call returns. *)
Definition Close : M unit :=
  let* hs := field handlers in
  let* _ := rangeHandlers hs 0
              (fun i _ => invoke i (CallClose i) (fun h => (tt, internal.Close h))) tt in
  let* _ := record CallRegistryStop in
  let* ps := onRegistry internal.RegistryStop in
  report ps.

(** [proxySender.Flush]. *)
Definition Flush : M (option Go.error) :=
  let* hs := field handlers in
  let* errStr := rangeHandlers hs 0
                   (fun i errStr =>
                      let* err := invoke i (CallFlush i) internal.Flush in
                      match err with
                      | Some e => ret (errStr +:+ e +:+ Go.nl)
                      | None => ret errStr
                      end) "" in
  if negb (String.eqb errStr "")
  then ret (Some (Go.Trim errStr Go.newline))
  else ret None.

(** [proxySender.GetFailureCount]. *)
Definition GetFailureCount : M Z :=
  let* hs := field handlers in
  rangeHandlers hs 0
    (fun i failures =>
       let* n := query i internal.GetFailureCount in
       ret (Go.add64 failures n)) 0.

(** The value of [&proxySender{defaultSource: ..., handlers: make(...)}]:
    [handlersCount] nil slots, every other field at its zero value. *)
Definition newSender : proxySender :=
  {| handlers := replicate handlersCount None;
     defaultSource := GetHostname "wavefront_proxy_sender";
     internalRegistry := None;
     pointsValid := None; pointsInvalid := None; pointsDropped := None;
     pointReportErrors := None;
     histogramsValid := None; histogramsInvalid := None; histogramsDropped := None;
     histogramReportErrors := None;
     spansValid := None; spansInvalid := None; spansDropped := None;
     spanReportErrors := None;
     spanLogsValid := None; spanLogsInvalid := None; spanLogsDropped := None;
     spanLogReportErrors := None |}.

(** The last loop of [NewProxySender] over [hs = sender.handlers]: at the
    first handler that is not [nil] the sender is started and returned;
    with none, the constructor returns the error. *)
Fixpoint startAtFirstHandler (hs : list (option H))
  : M (option proxySender * option Go.error) :=
  match hs with
  | [] => ret (None, Some "at least one proxy port should be enabled")
  | h :: hs' =>
      match h with
      | Some _ =>
          let* _ := Start in
          let* sender := field id in
          ret (Some sender, None)
      | None => startAtFirstHandler hs'
      end
  end.

(** Lines 65 to 111 of [NewProxySender], on the sender under
    construction and the configuration after the defaulting of line 62:
    the handlers of the enabled ports, the registry, the version gauge and
    the sixteen counters. *)
Definition buildSender (cfg : ProxyConfiguration) : M unit :=
  let* _ := (if negb (MetricsPort cfg =? 0)
             then let* h := makeConnHandler (Host cfg) (MetricsPort cfg)
                              (FlushIntervalSeconds cfg) in
                  storeHandler metricHandler h
             else ret tt) in
  let* _ := (if negb (DistributionPort cfg =? 0)
             then let* h := makeConnHandler (Host cfg) (DistributionPort cfg)
                              (FlushIntervalSeconds cfg) in
                  storeHandler histoHandler h
             else ret tt) in
  let* _ := (if negb (TracingPort cfg =? 0)
             then let* h := makeConnHandler (Host cfg) (TracingPort cfg)
                              (FlushIntervalSeconds cfg) in
                  storeHandler spanHandler h
             else ret tt) in
  let* _ := (if negb (EventsPort cfg =? 0)
             then let* h := makeConnHandler (Host cfg) (EventsPort cfg)
                              (FlushIntervalSeconds cfg) in
                  storeHandler eventHandler h
             else ret tt) in
  let* _ := assign (set_internalRegistry
                      (Some (internal.NewMetricRegistry "~sdk.go.core.sender.proxy"
                               [("pid", Go.Itoa Getpid)]))) in
  let* _ := (let (sdkVersion, e) := GetSemVer Version in
             match e with
             | None => onRegistry (fun r => (tt, internal.NewGaugeFloat64 "version" sdkVersion r))
             | Some _ => ret tt
             end) in
  let* c := NewDeltaCounter "points.valid" in
  let* _ := assign (set_pointsValid c) in
  let* c := NewDeltaCounter "points.invalid" in
  let* _ := assign (set_pointsInvalid c) in
  let* c := NewDeltaCounter "points.dropped" in
  let* _ := assign (set_pointsInvalid c) in
  let* c := NewDeltaCounter "points.report.errors" in
  let* _ := assign (set_pointsInvalid c) in
  let* c := NewDeltaCounter "histograms.valid" in
  let* _ := assign (set_histogramsValid c) in
  let* c := NewDeltaCounter "histograms.invalid" in
  let* _ := assign (set_histogramsInvalid c) in
  let* c := NewDeltaCounter "histograms.dropped" in
  let* _ := assign (set_histogramsDropped c) in
  let* c := NewDeltaCounter "histograms.report.errors" in
  let* _ := assign (set_histogramReportErrors c) in
  let* c := NewDeltaCounter "spans.valid" in
  let* _ := assign (set_spansValid c) in
  let* c := NewDeltaCounter "spans.invalid" in
  let* _ := assign (set_spansInvalid c) in
  let* c := NewDeltaCounter "spans.dropped" in
  let* _ := assign (set_spansDropped c) in
  let* c := NewDeltaCounter "spans.report.errors" in
  let* _ := assign (set_spanReportErrors c) in
  let* c := NewDeltaCounter "span_logs.valid" in
  let* _ := assign (set_spanLogsValid c) in
  let* c := NewDeltaCounter "span_logs.invalid" in
  let* _ := assign (set_spanLogsInvalid c) in
  let* c := NewDeltaCounter "span_logs.dropped" in
  let* _ := assign (set_spanLogsDropped c) in
  let* c := NewDeltaCounter "span_logs.report.errors" in
  assign (set_spanLogReportErrors c).

(** [NewProxySender].  [cfg] is the struct that the caller's pointer
    refers to (a [nil] pointer is outside the model).  Beside Go's pair
    of a sender and an error, the result gives the contents of that struct
    when the constructor returns, and the calls made on the
    collaborators. *)
Definition NewProxySender (cfg : ProxyConfiguration)
  : option ((option proxySender * option Go.error) * ProxyConfiguration * list Call) :=
  let sender := newSender in
  let cfg := if FlushIntervalSeconds cfg =? 0
             then set_FlushIntervalSeconds defaultProxyFlushInterval cfg
             else cfg in
  let body : M (option proxySender * option Go.error) :=
    let* _ := buildSender cfg in
    let* hs := field handlers in
    startAtFirstHandler hs in
  match body {| this := sender; calls := [] |} with
  | Some (r, w) => Some (r, cfg, calls w)
  | None => None
  end.

(** *** Vocabulary of the statements *)

(** The world [w] once the calls [cs] were made, the sender untouched. *)
Definition logged (w : World) (cs : list Call) : World :=
  {| this := this w; calls := calls w ++ cs |}.

(** The world [w] once the calls [cs] were made and the handler of slot
    [i] has reached the state [h]. *)
Definition after (w : World) (i : nat) (h : H) (cs : list Call) : World :=
  {| this := set_handlers (<[i := Some h]> (handlers (this w))) (this w);
     calls := calls w ++ cs |}.

(** The world [w] once the calls [cs] were made and the slots hold [hs]. *)
Definition withHandlers (w : World) (hs : list (option H)) (cs : list Call) : World :=
  {| this := set_handlers hs (this w); calls := calls w ++ cs |}.

(** The handlers that are configured (not [nil]), in slot order. *)
Definition configured (hs : list (option H)) : list H := omap id hs.

(** One call [c i] per configured slot [i] of [hs], slots counted from [i0]. *)
Fixpoint slotCalls (c : nat -> Call) (i0 : nat) (hs : list (option H)) : list Call :=
  match hs with
  | [] => []
  | Some _ :: hs' => c i0 :: slotCalls c (S i0) hs'
  | None :: hs' => slotCalls c (S i0) hs'
  end.

(** Lines 144 to 148 of a submission method, on the handler alone:
    connect unless connected. *)
Definition ensureConnected (h : H) : option Go.error * H :=
  if internal.Connected h then (None, h) else internal.Connect h.

(** The calls of that step on the handler of slot [i]. *)
Definition connectCalls (i : nat) (h : H) : list Call :=
  if internal.Connected h then [] else [CallConnect i].

(** The transports built among the calls [cs]: address and flush interval. *)
Definition builtHandlers (cs : list Call) : list (string * Z) :=
  omap (fun c => match c with
                 | CallNewProxyConnectionHandler a d => Some (a, d)
                 | _ => None
                 end) cs.

(** The timers armed among the calls [cs]: a handler's [Start] arms the
    flush timer of its transport, the registry's [Start] arms its own. *)
Definition armsTimer (c : Call) : bool :=
  match c with
  | CallStart _ | CallRegistryStart => true
  | _ => false
  end.

(** The error messages that flushing each configured handler of [hs]
    returns, in slot order. *)
Definition flushErrors (hs : list (option H)) : list Go.error :=
  omap (fun h => fst (internal.Flush h)) (configured hs).

(** Every message followed by a line feed, all in one string. *)
Definition joinLines (es : list string) : string :=
  foldr (fun e acc => e +:+ Go.nl +:+ acc) EmptyString es.

(** The messages with one line feed between two of them. *)
Fixpoint joinWith (es : list string) : string :=
  match es with
  | [] => EmptyString
  | e :: es' =>
      match es' with
      | [] => e
      | _ :: _ => e +:+ Go.nl +:+ joinWith es'
      end
  end.

(** The string is not empty and does not start with a line feed. *)
Definition startsPlain (e : string) : bool :=
  match e with
  | EmptyString => false
  | String x _ => negb (Ascii.eqb x Go.newline)
  end.

(** A plain message: not empty, and no line feed at either end. *)
Definition plain (e : string) : bool :=
  startsPlain e && String.eqb (Go.trimRightByte e Go.newline) e.

(** The mathematical sum of the failure counters of the configured
    handlers. *)
Definition failureSum (hs : list (option H)) : Z :=
  foldr (fun h acc => internal.GetFailureCount h + acc) 0 (configured hs).

(** The handler that the constructor builds for the port [port]. *)
Definition builtFor (cfg : ProxyConfiguration) (port : Z) : option H :=
  if port =? 0 then None
  else Some (internal.NewProxyConnectionHandler
               (Host cfg +:+ ":" +:+ Go.FormatInt port)
               (Go.mul64 Go.Second (FlushIntervalSeconds cfg))).

(** The construction call of that handler. *)
Definition buildCall (cfg : ProxyConfiguration) (port : Z) : list Call :=
  if port =? 0 then []
  else [CallNewProxyConnectionHandler
          (Host cfg +:+ ":" +:+ Go.FormatInt port)
          (Go.mul64 Go.Second (FlushIntervalSeconds cfg))].

(** The four ports of a configuration, in slot order. *)
Definition ports (cfg : ProxyConfiguration) : list Z :=
  [MetricsPort cfg; DistributionPort cfg; TracingPort cfg; EventsPort cfg].

(** The configuration once the constructor has defaulted the interval. *)
Definition defaulted (cfg : ProxyConfiguration) : ProxyConfiguration :=
  if FlushIntervalSeconds cfg =? 0
  then set_FlushIntervalSeconds defaultProxyFlushInterval cfg
  else cfg.

(** The names of the sixteen counters, in the order of the calls that
    create them. *)
Definition counterNames : list string :=
  [ "points.valid"; "points.invalid"; "points.dropped"; "points.report.errors";
    "histograms.valid"; "histograms.invalid"; "histograms.dropped";
    "histograms.report.errors";
    "spans.valid"; "spans.invalid"; "spans.dropped"; "spans.report.errors";
    "span_logs.valid"; "span_logs.invalid"; "span_logs.dropped";
    "span_logs.report.errors" ].

(** The registry when the first counter is created: new, with the
    version gauge when the version parses. *)
Definition registryAtCounters : internal.MetricRegistry :=
  let r := internal.NewMetricRegistry "~sdk.go.core.sender.proxy" [("pid", Go.Itoa Getpid)] in
  match GetSemVer Version with
  | (v, None) => internal.NewGaugeFloat64 "version" v r
  | (_, Some _) => r
  end.

(** The registry once the sixteen counters are registered. *)
Definition registryBuilt : internal.MetricRegistry :=
  foldl (fun r name => snd (internal.NewDeltaCounter name r)) registryAtCounters counterNames.

(** The reference that the [k]-th call of [NewDeltaCounter] returns,
    [k] counted from 0. *)
Definition counterRef (k : nat) : option internal.DeltaCounterRef :=
  Some (length (internal.metrics registryAtCounters) + k)%nat.

(** The sender that [NewProxySender] returns for the configuration
    [cfg] (after defaulting) when a port is enabled: the handlers built
    for the four ports and then started, the registry started, and each
    counter field with the reference last assigned to it. *)
Definition startedSender (cfg : ProxyConfiguration) : proxySender :=
  {| handlers := map (fmap internal.Start) (map (builtFor cfg) (ports cfg));
     defaultSource := GetHostname "wavefront_proxy_sender";
     internalRegistry := Some (internal.RegistryStart registryBuilt);
     pointsValid := counterRef 0;
     pointsInvalid := counterRef 3;
     pointsDropped := None;
     pointReportErrors := None;
     histogramsValid := counterRef 4;
     histogramsInvalid := counterRef 5;
     histogramsDropped := counterRef 6;
     histogramReportErrors := counterRef 7;
     spansValid := counterRef 8;
     spansInvalid := counterRef 9;
     spansDropped := counterRef 10;
     spanReportErrors := counterRef 11;
     spanLogsValid := counterRef 12;
     spanLogsInvalid := counterRef 13;
     spanLogsDropped := counterRef 14;
     spanLogReportErrors := counterRef 15 |}.


(** The calls of a successful construction: one handler built per
    enabled port, then [Start]: every handler built, then the registry. *)
Definition constructionCalls (cfg : ProxyConfiguration) : list Call :=
  flat_map (buildCall cfg) (ports cfg)
  ++ slotCalls CallStart 0 (map (builtFor cfg) (ports cfg))
  ++ [CallRegistryStart].

(** The counter fields of a sender, category by category, in the order
    valid, invalid, dropped, report errors. *)
Definition metricCounters (s : proxySender) : list (option internal.DeltaCounterRef) :=
  [pointsValid s; pointsInvalid s; pointsDropped s; pointReportErrors s].
Definition histogramCounters (s : proxySender) : list (option internal.DeltaCounterRef) :=
  [histogramsValid s; histogramsInvalid s; histogramsDropped s; histogramReportErrors s].
Definition spanCounters (s : proxySender) : list (option internal.DeltaCounterRef) :=
  [spansValid s; spansInvalid s; spansDropped s; spanReportErrors s].
Definition spanLogCounters (s : proxySender) : list (option internal.DeltaCounterRef) :=
  [spanLogsValid s; spanLogsInvalid s; spanLogsDropped s; spanLogReportErrors s].

(** The counter fields [l] of one category reference four distinct
    counters: none is [nil] and no two are the same reference. *)
Definition fourDistinct (l : list (option internal.DeltaCounterRef)) : bool :=
  match l with
  | [Some a; Some b; Some c; Some d] => bool_decide (NoDup [a; b; c; d])
  | _ => false
  end.

(** The address and interval of the transport built for a port, when the
    port is enabled. *)
Definition builtPair (cfg : ProxyConfiguration) (port : Z) : list (string * Z) :=
  if port =? 0 then []
  else [(Host cfg +:+ ":" +:+ Go.FormatInt port,
         Go.mul64 Go.Second (FlushIntervalSeconds cfg))].

(** *** The policy shared by the submission methods *)

(** The steps that [SendMetric], [SendDistribution], [SendSpan] and
    [SendEvent] have in common, for the handler of slot [i]: [missing] is
    the error message for a [nil] slot, [c] the call of the encoder and
    [enc] the encoder applied to the arguments of the caller, still to be
    given the default source.  The four methods are proved to be
    instances of it. *)
Definition submit (i : nat) (missing : string) (c : Call)
    (enc : string -> string * option Go.error) : M (option Go.error) :=
  let* handler := handlerAt i in
  match handler with
  | None => ret (Some missing)
  | Some _ =>
      let* connected := query i internal.Connected in
      let* err := (if negb connected
                   then invoke i (CallConnect i) internal.Connect
                   else ret None) in
      match err with
      | Some e => ret (Some e)
      | None =>
          let* src := field defaultSource in
          let* _ := record c in
          let (line, err) := enc src in
          match err with
          | Some e => ret (Some e)
          | None => invoke i (CallSendData i line) (internal.SendData line)
          end
      end
  end.

(** The last step of [SendSpan], reached once the primary line was sent:
    lines 212 to 219. *)
Definition sendSpanLogs (traceId spanId : string) (spanLogs : list SpanLog)
  : M (option Go.error) :=
  if (0 <? length spanLogs)%nat
  then
    let* _ := record CallSpanLogJSON in
    let (logs, err) := SpanLogJSON traceId spanId spanLogs in
    match err with
    | Some e => ret (Some e)
    | None => invoke spanHandler (CallSendData spanHandler logs) (internal.SendData logs)
    end
  else ret None.

(** The result and the world of [submit] on the configured handler [h]
    of slot [i], case by case. *)
Definition submitted (w : World) (i : nat) (h : H) (c : Call)
    (enc : string -> string * option Go.error) : option Go.error * World :=
  match ensureConnected h with
  | (Some e, h1) => (Some e, after w i h1 (connectCalls i h))
  | (None, h1) =>
      match enc (defaultSource (this w)) with
      | (_, Some e) => (Some e, after w i h1 (connectCalls i h ++ [c]))
      | (line, None) =>
          (fst (internal.SendData line h1),
           after w i (snd (internal.SendData line h1))
             (connectCalls i h ++ [c; CallSendData i line]))
      end
  end.

(** *** Vocabulary of the further statements *)

(** Which slots hold a handler. *)
Definition shape (hs : list (option H)) : list bool :=
  map (fun o => match o with Some _ => true | None => false end) hs.

(** The sender has its [handlersCount] slots and its registry. *)
Definition wellFormed (s : proxySender) : bool :=
  Nat.eqb (length (handlers s)) handlersCount
  && match internalRegistry s with Some _ => true | None => false end.

(** From [w] to [w'] nothing of the sender changed but the state of
    the handler of slot [i]: the other fields are the same, the same slots
    hold a handler, and the other slots hold the same handler state. *)
Definition untouchedBut (i : nat) (w w' : World) : Prop :=
  set_handlers (handlers (this w)) (this w') = this w /\
  shape (handlers (this w')) = shape (handlers (this w)) /\
  forall j, j <> i -> handlers (this w') !! j = handlers (this w) !! j.

(** The world of [Close] when the registry's [Stop] has disarmed the
    timer and taken its final sample, before the points of that sample
    are reported: every configured handler was closed, in slot order. *)
Definition closing (w : World) (r : internal.MetricRegistry) : World :=
  {| this := set_internalRegistry (Some (snd (internal.RegistryStop r)))
               (set_handlers (map (fmap internal.Close) (handlers (this w))) (this w));
     calls := calls w ++ slotCalls CallClose 0 (handlers (this w)) ++ [CallRegistryStop] |}.

(** A call that a submission method may make: a connect, an encoding or
    a send. *)
Definition submissionCall (c : Call) : bool :=
  match c with
  | CallConnect _ | CallSendData _ _
  | CallMetricLine | CallHistoLine | CallSpanLine | CallSpanLogJSON | CallEventLine => true
  | _ => false
  end.

(** The lines handed to a transport among the calls [cs], oldest first,
    each with the slot of the transport. *)
Definition handedOver (cs : list Call) : list (nat * string) :=
  omap (fun c => match c with CallSendData i line => Some (i, line) | _ => None end) cs.

(** A call of a method of the sender, with its arguments. *)
Inductive APICall : Type :=
| DoSendMetric (name : string) (value : Go.float64) (ts : Z) (source : string)
    (tags : gmap string string)
| DoSendDeltaCounter (name : string) (value : Go.float64) (ts : Z) (source : string)
    (tags : gmap string string)
| DoSendDistribution (name : string) (centroids : list Centroid) (hgs : Granularities)
    (ts : Z) (source : string) (tags : gmap string string)
| DoSendSpan (name : string) (startMillis durationMillis : Z)
    (source traceId spanId : string) (parents followsFrom : list string)
    (tags : list SpanTag) (spanLogs : list SpanLog)
| DoSendEvent (name : string) (startMillis endMillis : Z) (source : string)
    (tags : gmap string string) (setters : list EventOption)
| DoStart
| DoFlush
| DoGetFailureCount
| DoClose.

(** The call is made and its result dropped. *)
Definition perform (c : APICall) : M unit :=
  match c with
  | DoSendMetric name value ts source tags =>
      let* _ := SendMetric name value ts source tags in ret tt
  | DoSendDeltaCounter name value ts source tags =>
      let* _ := SendDeltaCounter name value ts source tags in ret tt
  | DoSendDistribution name centroids hgs ts source tags =>
      let* _ := SendDistribution name centroids hgs ts source tags in ret tt
  | DoSendSpan name startMillis durationMillis source traceId spanId parents followsFrom
      tags spanLogs =>
      let* _ := SendSpan name startMillis durationMillis source traceId spanId parents
                  followsFrom tags spanLogs in ret tt
  | DoSendEvent name startMillis endMillis source tags setters =>
      let* _ := SendEvent name startMillis endMillis source tags setters in ret tt
  | DoStart => Start
  | DoFlush => let* _ := Flush in ret tt
  | DoGetFailureCount => let* _ := GetFailureCount in ret tt
  | DoClose => Close
  end.

(** The submissions among the calls, each with the slot of its category
    and the computation it runs. *)
Definition submission (c : APICall) : option (nat * M (option Go.error)) :=
  match c with
  | DoSendMetric name value ts source tags =>
      Some (metricHandler, SendMetric name value ts source tags)
  | DoSendDeltaCounter name value ts source tags =>
      Some (metricHandler, SendDeltaCounter name value ts source tags)
  | DoSendDistribution name centroids hgs ts source tags =>
      Some (histoHandler, SendDistribution name centroids hgs ts source tags)
  | DoSendSpan name startMillis durationMillis source traceId spanId parents followsFrom
      tags spanLogs =>
      Some (spanHandler,
            SendSpan name startMillis durationMillis source traceId spanId parents
              followsFrom tags spanLogs)
  | DoSendEvent name startMillis endMillis source tags setters =>
      Some (eventHandler, SendEvent name startMillis endMillis source tags setters)
  | DoStart | DoFlush | DoGetFailureCount | DoClose => None
  end.

(** The worlds [w] and [v] hold the same handler state in slot [i] and
    have the same default source. *)
Definition agree (i : nat) (w v : World) : Prop :=
  handlers (this v) !! i = handlers (this w) !! i /\
  defaultSource (this v) = defaultSource (this w).

(** The computation [m] is local to slot [i]: it changes nothing but the
    handler of that slot, and in two worlds that agree on the slot it
    returns the same result and leaves the same handler state. *)
Definition localAt {A : Type} (i : nat) (m : M A) : Prop :=
  forall w v r w',
    agree i w v -> m w = Some (r, w') ->
    untouchedBut i w w' /\
    exists v', m v = Some (r, v') /\
               handlers (this v') !! i = handlers (this w') !! i /\
               untouchedBut i v v'.

(** The calls are made one after the other. *)
Fixpoint performAll (cs : list APICall) : M unit :=
  match cs with
  | [] => ret tt
  | c :: cs' => let* _ := perform c in performAll cs'
  end.

End Sender.

Arguments proxySender H : clear implicits.
Arguments World H : clear implicits.

End senders.

(** ** A concrete collector side, to run the sender on inputs *)

Module sample.

(** Modelled from the spec: the per-category transport that implements
    [internal.ConnectionHandler] is not part of the sources.  The spec
    gives it a target address, a flush interval, a connection state, a
    buffer of pending lines, a flush timer and a cumulative failure
    counter; [wire] lists the lines transmitted so far, and [closed]
    says that the transport was closed, which the spec makes
    irreversible. *)
Record ProxyConnectionHandler : Type := mkHandler {
  addr : string;
  flushInterval : Z;
  connected : bool;
  timerArmed : bool;
  buffer : list string;
  wire : list string;
  failures : Z;
  closed : bool
}.

(** The network of the sample: a collector listens on [localhost] only. *)
Definition reachable (a : string) : bool := String.prefix "localhost:" a.

(** Modelled from the spec: created disconnected, timer not armed, with
    an empty buffer and no failure. *)
Definition newHandler (a : string) (d : Z) : ProxyConnectionHandler :=
  {| addr := a; flushInterval := d; connected := false; timerArmed := false;
     buffer := []; wire := []; failures := 0; closed := false |}.

(** Modelled from the spec: [connect] is a no-op when connected; on
    failure it returns an error and leaves the state unconnected.  Closing
    is irreversible: a closed transport refuses to connect. *)
Definition connect (h : ProxyConnectionHandler) : option Go.error * ProxyConnectionHandler :=
  if closed h then (Some "connection handler is closed", h)
  else if connected h then (None, h)
  else if reachable (addr h)
       then (None, {| addr := addr h; flushInterval := flushInterval h; connected := true;
                      timerArmed := timerArmed h; buffer := buffer h; wire := wire h;
                      failures := failures h; closed := closed h |})
       else (Some "dial tcp: connection refused", h).

(** Modelled from the spec: [send] appends the line to the pending
    buffer of a connected transport and does no network I/O. *)
Definition sendData (line : string) (h : ProxyConnectionHandler)
  : option Go.error * ProxyConnectionHandler :=
  if connected h
  then (None, {| addr := addr h; flushInterval := flushInterval h; connected := connected h;
                 timerArmed := timerArmed h; buffer := buffer h ++ [line]; wire := wire h;
                 failures := failures h; closed := closed h |})
  else (Some "not connected to the proxy", h).

(** Modelled from the spec: [flush] transmits the buffered lines in
    order; on a transmission error the lines stay buffered, the failure
    counter goes up by one and the error is returned. *)
Definition flush (h : ProxyConnectionHandler) : option Go.error * ProxyConnectionHandler :=
  match buffer h with
  | [] => (None, h)
  | _ :: _ =>
      if connected h && reachable (addr h)
      then (None, {| addr := addr h; flushInterval := flushInterval h; connected := connected h;
                     timerArmed := timerArmed h; buffer := []; wire := wire h ++ buffer h;
                     failures := failures h; closed := closed h |})
      else (Some ("error flushing data to " +:+ addr h),
            {| addr := addr h; flushInterval := flushInterval h; connected := connected h;
               timerArmed := timerArmed h; buffer := buffer h; wire := wire h;
               failures := Go.add64 (failures h) 1; closed := closed h |})
  end.

(** Modelled from the spec: [start] arms the flush timer.  There is no
    restart: on a closed transport it does nothing. *)
Definition start (h : ProxyConnectionHandler) : ProxyConnectionHandler :=
  if closed h then h
  else {| addr := addr h; flushInterval := flushInterval h; connected := connected h;
          timerArmed := true; buffer := buffer h; wire := wire h; failures := failures h;
          closed := closed h |}.

(** Modelled from the spec: [close] flushes best-effort, then releases
    the socket and halts the timer.  It is idempotent: on a closed
    transport it does nothing. *)
Definition close (h : ProxyConnectionHandler) : ProxyConnectionHandler :=
  if closed h then h
  else
    let h' := snd (flush h) in
    {| addr := addr h'; flushInterval := flushInterval h'; connected := false;
       timerArmed := false; buffer := buffer h'; wire := wire h'; failures := failures h';
       closed := true |}.

#[export] Instance proxyConnectionHandler : internal.ConnectionHandler ProxyConnectionHandler :=
  {| internal.NewProxyConnectionHandler := newHandler;
     internal.Connect := connect;
     internal.Connected := connected;
     internal.Close := close;
     internal.SendData := sendData;
     internal.Start := start;
     internal.Flush := flush;
     internal.GetFailureCount := failures |}.

(** The bytes of U+2206 and of U+0394, the two delta markers. *)
Definition deltaPrefix : string :=
  String (ascii_of_nat 226) (String (ascii_of_nat 136) (String (ascii_of_nat 134) EmptyString)).
Definition altDeltaPrefix : string :=
  String (ascii_of_nat 206) (String (ascii_of_nat 148) EmptyString).

(** Sample delta-name helpers: a name bears the marker when it starts
    with one of the two prefixes. *)
Definition hasDeltaPrefix (name : string) : bool :=
  String.prefix deltaPrefix name || String.prefix altDeltaPrefix name.
Definition deltaCounterName (name : string) : string :=
  if hasDeltaPrefix name then name else deltaPrefix +:+ name.

(** Sample encoders: each refuses one kind of malformed input and writes
    a short line otherwise. *)
Definition metricLine (name : string) (value : Go.float64) (ts : Z) (source : string)
    (tags : gmap string string) (defaultSource : string) : string * option Go.error :=
  if String.eqb name "" then (EmptyString, Some "empty metric name")
  else (name +:+ " source=" +:+ (if String.eqb source "" then defaultSource else source) +:+ Go.nl,
        None).
Definition histoLine (name : string) (centroids : list (Go.float64 * Z)) (hgs : list nat)
    (ts : Z) (source : string) (tags : gmap string string) (defaultSource : string)
  : string * option Go.error :=
  match centroids with
  | [] => (EmptyString, Some "distribution should have at least one centroid")
  | _ :: _ => ("!M " +:+ name +:+ Go.nl, None)
  end.
Definition spanLine (name : string) (startMillis durationMillis : Z)
    (source traceId spanId : string) (parents followsFrom : list string)
    (tags : list (string * string)) (spanLogs : list string) (defaultSource : string)
  : string * option Go.error :=
  if String.eqb name "" then (EmptyString, Some "empty span name")
  else (name +:+ " traceId=" +:+ traceId +:+ " spanId=" +:+ spanId +:+ Go.nl, None).
Definition spanLogJSON (traceId spanId : string) (spanLogs : list string)
  : string * option Go.error :=
  if existsb (String.eqb EmptyString) spanLogs
  then (EmptyString, Some "malformed span log")
  else ("{traceId:" +:+ traceId +:+ ",spanId:" +:+ spanId +:+ "}" +:+ Go.nl, None).
Definition eventLine (name : string) (startMillis endMillis : Z) (source : string)
    (tags : gmap string string) (setters : list unit) : string * option Go.error :=
  if String.eqb name "" then (EmptyString, Some "empty event name")
  else ("@Event " +:+ name +:+ Go.nl, None).

(** The [float64] value 1. *)
Definition one : Go.float64 := S754_finite false 4503599627370496 (-52).

#[export] Instance externals : senders.Externals :=
  {| senders.Centroid := (Go.float64 * Z)%type;
     senders.Granularities := list nat;
     senders.SpanTag := (string * string)%type;
     senders.SpanLog := string;
     senders.EventOption := unit;
     senders.MetricLine := metricLine;
     senders.HistoLine := histoLine;
     senders.SpanLine := spanLine;
     senders.SpanLogJSON := spanLogJSON;
     senders.EventLine := eventLine;
     senders.HasDeltaPrefix := hasDeltaPrefix;
     senders.DeltaCounterName := deltaCounterName;
     senders.GetHostname := fun _ => "collector-client";
     senders.GetSemVer := fun _ => (one, None);
     senders.Version := "0.9.2";
     senders.Getpid := 4242;
     senders.defaultProxyFlushInterval := 5;
     senders.ReportName := fun pfx name => pfx +:+ "." +:+ name;
     senders.ReportTime := 0;
     senders.ReportSource := "" |}.

(** A configuration with only the metric port enabled. *)
Definition metricsOnly : senders.ProxyConfiguration :=
  {| senders.Host := "localhost"; senders.MetricsPort := 2878;
     senders.DistributionPort := 0; senders.TracingPort := 0; senders.EventsPort := 0;
     senders.FlushIntervalSeconds := 0 |}.

(** A configuration with only the tracing port enabled. *)
Definition tracingOnly : senders.ProxyConfiguration :=
  {| senders.Host := "localhost"; senders.MetricsPort := 0;
     senders.DistributionPort := 0; senders.TracingPort := 30001; senders.EventsPort := 0;
     senders.FlushIntervalSeconds := 1 |}.

(** A configuration with no port enabled. *)
Definition noPort : senders.ProxyConfiguration :=
  {| senders.Host := "localhost"; senders.MetricsPort := 0;
     senders.DistributionPort := 0; senders.TracingPort := 0; senders.EventsPort := 0;
     senders.FlushIntervalSeconds := 1 |}.

(** The world in which [NewProxySender cfg] returns its sender (the
    sender under construction when it returns none). *)
Definition worldOf (cfg : senders.ProxyConfiguration) : senders.World ProxyConnectionHandler :=
  match senders.NewProxySender cfg with
  | Some ((Some s, _), _, cs) => {| senders.this := s; senders.calls := cs |}
  | _ => {| senders.this := senders.newSender; senders.calls := [] |}
  end.

(** A connected transport to [a] that holds one pending line, which it
    cannot transmit, and has counted [n] failures. *)
Definition stuck (a : string) (n : Z) : ProxyConnectionHandler :=
  {| addr := a; flushInterval := 5000000000; connected := true; timerArmed := true;
     buffer := ["pending" +:+ Go.nl]; wire := []; failures := n; closed := false |}.

(** A world whose metric and histogram transports have counted [m] and
    [n] failures; the two other categories are not configured. *)
Definition failing (m n : Z) : senders.World ProxyConnectionHandler :=
  {| senders.this :=
       senders.set_handlers
         [Some (stuck "metrics.invalid:2878" m); Some (stuck "histograms.invalid:2878" n);
          None; None]
         senders.newSender;
     senders.calls := [] |}.

(** The [float64] value -1. *)
Definition minusOne : Go.float64 := S754_finite true 4503599627370496 (-52).

(** The transport of [tracingOnly] once started, by connection state and
    pending lines. *)
Definition tracer (isConnected : bool) (pending : list string) : ProxyConnectionHandler :=
  {| addr := "localhost:30001"; flushInterval := 1000000000; connected := isConnected;
     timerArmed := true; buffer := pending; wire := []; failures := 0; closed := false |}.

(** The line that [spanLine] writes for the span "op" of trace "t1". *)
Definition primaryLine : string := "op traceId=t1 spanId=s1" +:+ Go.nl.

(** A started transport to the address [a] with the flush interval [d],
    by connection state and pending lines. *)
Definition transport (a : string) (d : Z) (isConnected : bool) (pending : list string)
  : ProxyConnectionHandler :=
  {| addr := a; flushInterval := d; connected := isConnected; timerArmed := true;
     buffer := pending; wire := []; failures := 0; closed := false |}.

(** A configuration for a host where no collector listens, with the
    metric and the tracing port enabled. *)
Definition offline : senders.ProxyConfiguration :=
  {| senders.Host := "collector.invalid"; senders.MetricsPort := 2878;
     senders.DistributionPort := 0; senders.TracingPort := 30001; senders.EventsPort := 0;
     senders.FlushIntervalSeconds := 1 |}.

(** Modelled from the spec: a transport whose buffer has no room left.
    The spec lets [send] fail on a local buffering failure; here every
    [send] does, the other methods are those of the sample transport. *)
Definition fullBuffer : internal.ConnectionHandler ProxyConnectionHandler :=
  {| internal.NewProxyConnectionHandler := newHandler;
     internal.Connect := connect;
     internal.Connected := connected;
     internal.Close := close;
     internal.SendData := fun _ h => (Some "buffer is full", h);
     internal.Start := start;
     internal.Flush := flush;
     internal.GetFailureCount := failures |}.

(** The line that [metricLine] writes for "cpu.load" with no source. *)
Definition cpuLine : string := "cpu.load source=collector-client" +:+ Go.nl.

(** The world of the sender of [metricsOnly] once "cpu.load" was sent. *)
Definition afterCpu : senders.World ProxyConnectionHandler :=
  senders.after (worldOf metricsOnly) senders.metricHandler
    (transport "localhost:2878" 5000000000 true [cpuLine])
    [senders.CallConnect senders.metricHandler; senders.CallMetricLine;
     senders.CallSendData senders.metricHandler cpuLine].

(** A configuration with the metric and the tracing port enabled. *)
Definition twoPorts : senders.ProxyConfiguration :=
  {| senders.Host := "localhost"; senders.MetricsPort := 2878;
     senders.DistributionPort := 0; senders.TracingPort := 30001; senders.EventsPort := 0;
     senders.FlushIntervalSeconds := 1 |}.

End sample.


(** * Properties of the sender *)

(** Closes a goal with the run [R] of a theorem, both sides evaluated. *)
Ltac by_run R := vm_compute in R; vm_compute; exact R.

Import senders.

Section Properties.

Context {H : Type} `{!internal.ConnectionHandler H} `{!Externals}.

Implicit Types (w : World H) (h : H) (hs : list (option H)) (cs : list Call).

(** ** Arithmetic and floats *)

Lemma wrap64_small (z : Z) : - 2 ^ 63 <= z < 2 ^ 63 -> Go.wrap64 z = z.
Proof.
  intros Hz. unfold Go.wrap64.
  rewrite Z.mod_small by lia. lia.
Qed.

Lemma add64_wrap64_l (a b : Z) : Go.add64 (Go.wrap64 a) b = Go.wrap64 (a + b).
Proof.
  unfold Go.add64, Go.wrap64.
  replace ((a + 2 ^ 63) mod 2 ^ 64 - 2 ^ 63 + b + 2 ^ 63)
    with ((a + 2 ^ 63) mod 2 ^ 64 + b) by ring.
  rewrite Zplus_mod_idemp_l.
  do 2 f_equal. ring.
Qed.

Lemma float_le_zero_not_gt (v : Go.float64) :
  Go.float_le v Go.float_zero = true -> Go.float_gt v Go.float_zero = false.
Proof.
  unfold Go.float_le, Go.float_gt, Go.float_zero, SFleb, SFltb.
  destruct v as [s | s | | s m e]; simpl; try destruct s; simpl; congruence.
Qed.

(** ** One step of the monad *)

Lemma handlerAt_run w i (o : option H) :
  handlers (this w) !! i = Some o -> handlerAt i w = Some (o, w).
Proof. intros Hi. unfold handlerAt. now rewrite Hi. Qed.

Lemma record_run w (c : Call) : record c w = Some (tt, logged w [c]).
Proof. reflexivity. Qed.

(** ** Submissions *)

(** C1 (amended).  When the slot of a category holds no handler (the
    [nil] interface value), [SendMetric], [SendDistribution], [SendSpan]
    and [SendEvent] return the "port not provided" error of the category
    and leave the world as it was: the sender and every handler are
    unchanged and no call was made on a handler or an encoder, so there
    was no connection attempt, no encoding and no send.
    [SendDeltaCounter] checks the slot last: with no metric handler it
    returns "empty metric name" for an empty name, the "port not provided"
    error for a value above zero, and no error at all for any other
    value; the world is as it was in the three cases. *)
Theorem submission_not_configured w :
  (handlers (this w) !! metricHandler = Some None ->
   forall name value ts source tags,
     SendMetric name value ts source tags w
     = Some (Some "proxy metrics port not provided, cannot send metric data", w)) /\
  (handlers (this w) !! histoHandler = Some None ->
   forall name centroids hgs ts source tags,
     SendDistribution name centroids hgs ts source tags w
     = Some (Some "proxy distribution port not provided, cannot send distribution data", w)) /\
  (handlers (this w) !! spanHandler = Some None ->
   forall name startMillis durationMillis source traceId spanId parents followsFrom
          tags spanLogs,
     SendSpan name startMillis durationMillis source traceId spanId parents followsFrom
       tags spanLogs w
     = Some (Some "proxy tracing port not provided, cannot send span data", w)) /\
  (handlers (this w) !! eventHandler = Some None ->
   forall name startMillis endMillis source tags setters,
     SendEvent name startMillis endMillis source tags setters w
     = Some (Some "proxy events port not provided, cannot send events data", w)) /\
  (handlers (this w) !! metricHandler = Some None ->
   forall name value ts source tags,
     SendDeltaCounter name value ts source tags w
     = Some (if String.eqb name ""
             then Some "empty metric name"
             else if Go.float_gt value Go.float_zero
                  then Some "proxy metrics port not provided, cannot send metric data"
                  else None,
             w)).
Proof.
  assert (Hmetric : handlers (this w) !! metricHandler = Some None ->
                    forall name value ts source tags,
                      SendMetric name value ts source tags w
                      = Some (Some "proxy metrics port not provided, cannot send metric data", w)).
  { intros Hnil name value ts source tags.
    unfold SendMetric, bind. now rewrite (handlerAt_run _ _ _ Hnil). }
  split; [exact Hmetric|].
  split.
  { intros Hnil name centroids hgs ts source tags.
    unfold SendDistribution, bind. now rewrite (handlerAt_run _ _ _ Hnil). }
  split.
  { intros Hnil name startMillis durationMillis source traceId spanId parents followsFrom
      tags spanLogs.
    unfold SendSpan, bind. now rewrite (handlerAt_run _ _ _ Hnil). }
  split.
  { intros Hnil name startMillis endMillis source tags setters.
    unfold SendEvent, bind. now rewrite (handlerAt_run _ _ _ Hnil). }
  intros Hnil name value ts source tags.
  unfold SendDeltaCounter.
  destruct (String.eqb name ""); [reflexivity|].
  destruct (Go.float_gt value Go.float_zero); [|reflexivity].
  apply Hmetric, Hnil.
Qed.

(** C2.  A delta counter with a name that is not empty and a value at
    most zero returns no error and leaves the world as it was: no call on
    a handler (no connect, no line handed over) and none on an encoder. *)
Theorem SendDeltaCounter_non_positive w name value ts source tags :
  name <> EmptyString ->
  Go.float_le value Go.float_zero = true ->
  SendDeltaCounter name value ts source tags w = Some (None, w).
Proof.
  intros Hname Hle.
  unfold SendDeltaCounter.
  apply String.eqb_neq in Hname. rewrite Hname.
  now rewrite (float_le_zero_not_gt _ Hle).
Qed.

(** C3.  [SendDeltaCounter] refuses the empty name with an error and
    changes nothing.  For a name that is not empty, whenever it submits
    (the value is above zero) the call is the metric submission of
    [DeltaCounterName name] when the name lacks the delta marker, and of
    the name as given when it bears the marker. *)
Theorem SendDeltaCounter_name w name value ts source tags :
  (name = EmptyString ->
   SendDeltaCounter name value ts source tags w = Some (Some "empty metric name", w)) /\
  (name <> EmptyString -> HasDeltaPrefix name = false ->
   Go.float_gt value Go.float_zero = true ->
   SendDeltaCounter name value ts source tags w
   = SendMetric (DeltaCounterName name) value ts source tags w) /\
  (name <> EmptyString -> HasDeltaPrefix name = true ->
   Go.float_gt value Go.float_zero = true ->
   SendDeltaCounter name value ts source tags w
   = SendMetric name value ts source tags w).
Proof.
  unfold SendDeltaCounter.
  split; [|split].
  - intros ->. reflexivity.
  - intros Hname Hpre Hpos.
    apply String.eqb_neq in Hname. now rewrite Hname, Hpre, Hpos.
  - intros Hname Hpre Hpos.
    apply String.eqb_neq in Hname. now rewrite Hname, Hpre, Hpos.
Qed.

Lemma field_run w (A : Type) (f : proxySender H -> A) : field f w = Some (f (this w), w).
Proof. reflexivity. Qed.

Lemma query_run w i h (A : Type) (q : H -> A) :
  handlers (this w) !! i = Some (Some h) -> query i q w = Some (q h, w).
Proof. intros Hi. unfold query. now rewrite Hi. Qed.

Lemma invoke_run w i h (A : Type) (c : Call) (m : H -> A * H) :
  handlers (this w) !! i = Some (Some h) ->
  invoke i c m w = Some (fst (m h), after w i (snd (m h)) [c]).
Proof.
  intros Hi. unfold invoke. rewrite Hi.
  now destruct (m h) as [a h'].
Qed.

Lemma set_handlers_id (s : proxySender H) : set_handlers (handlers s) s = s.
Proof. now destruct s. Qed.

Lemma after_id w i h :
  handlers (this w) !! i = Some (Some h) -> after w i h [] = w.
Proof.
  intros Hi. destruct w as [s cs]. unfold after. simpl in *.
  now rewrite (list_insert_id _ _ _ Hi), set_handlers_id, app_nil_r.
Qed.

Lemma after_lookup w i h cs (o : option H) :
  handlers (this w) !! i = Some o ->
  handlers (this (after w i h cs)) !! i = Some (Some h).
Proof.
  intros Hi. simpl.
  apply list_lookup_insert_eq. now apply lookup_lt_Some in Hi.
Qed.

Lemma after_after w i h h' cs cs' :
  after (after w i h cs) i h' cs' = after w i h' (cs ++ cs').
Proof.
  unfold after. simpl.
  now rewrite list_insert_insert_eq, app_assoc.
Qed.

Lemma logged_after w i h cs cs' :
  logged (after w i h cs) cs' = after w i h (cs ++ cs').
Proof. unfold logged, after. simpl. now rewrite app_assoc. Qed.

(** The connection step shared by the submission methods, followed by
    the rest [k] of the method. *)
Lemma connect_step w i h (A : Type) (k : option Go.error -> M (H:=H) A) :
  handlers (this w) !! i = Some (Some h) ->
  bind (query i internal.Connected)
    (fun connected =>
       bind (if negb connected
             then invoke i (CallConnect i) internal.Connect
             else ret None) k) w
  = k (fst (ensureConnected h)) (after w i (snd (ensureConnected h)) (connectCalls i h)).
Proof.
  intros Hi. unfold bind at 1. rewrite (query_run _ _ _ _ _ Hi).
  unfold ensureConnected, connectCalls.
  destruct (internal.Connected h); simpl; unfold bind.
  - unfold ret. now rewrite (after_id _ _ _ Hi).
  - now rewrite (invoke_run _ _ _ _ _ _ Hi).
Qed.

(** C4.  A span whose handler is configured, whose connection step and
    primary encoding succeed and whose primary line the transport takes:
    with no span log, the call returns no error and that line is the only
    one handed over; with span logs, they are encoded by
    [SpanLogJSON traceId spanId spanLogs] after the primary line was
    handed over; when that encoding fails its error is returned, and
    otherwise the encoded logs are handed over as a second line and the
    result of that second send is returned.  In both failures the primary
    line stays among the calls and the handler stays in the state [h2]
    that took it. *)
Theorem SendSpan_with_logs w h h1 h2 line name startMillis durationMillis source traceId
    spanId parents followsFrom tags spanLogs :
  handlers (this w) !! spanHandler = Some (Some h) ->
  ensureConnected h = (None, h1) ->
  SpanLine name startMillis durationMillis source traceId spanId parents followsFrom
    tags spanLogs (defaultSource (this w)) = (line, None) ->
  internal.SendData line h1 = (None, h2) ->
  let primary := connectCalls spanHandler h ++ [CallSpanLine; CallSendData spanHandler line] in
  SendSpan name startMillis durationMillis source traceId spanId parents followsFrom
    tags spanLogs w
  = match spanLogs with
    | [] => Some (None, after w spanHandler h2 primary)
    | _ :: _ =>
        match SpanLogJSON traceId spanId spanLogs with
        | (_, Some e) => Some (Some e, after w spanHandler h2 (primary ++ [CallSpanLogJSON]))
        | (logs, None) =>
            Some (fst (internal.SendData logs h2),
                  after w spanHandler (snd (internal.SendData logs h2))
                    (primary ++ [CallSpanLogJSON; CallSendData spanHandler logs]))
        end
    end.
Proof.
  intros Hslot Hconn Hline Hsend primary.
  unfold SendSpan.
  unfold bind at 1. rewrite (handlerAt_run _ _ _ Hslot).
  rewrite (connect_step _ _ _ _ _ Hslot), Hconn. cbn [fst snd].
  set (w1 := after w spanHandler h1 (connectCalls spanHandler h)).
  assert (Hslot1 : handlers (this w1) !! spanHandler = Some (Some h1))
    by (apply (after_lookup _ _ _ _ _ Hslot)).
  unfold bind at 1. rewrite field_run.
  unfold bind at 1. rewrite record_run.
  replace (defaultSource (this w1)) with (defaultSource (this w)) by reflexivity.
  rewrite Hline.
  set (w2 := logged w1 [CallSpanLine]).
  assert (Hslot2 : handlers (this w2) !! spanHandler = Some (Some h1)) by exact Hslot1.
  unfold bind at 1. rewrite (invoke_run _ _ _ _ _ _ Hslot2), Hsend. cbn [fst snd].
  assert (Hw3 : after w2 spanHandler h2 [CallSendData spanHandler line]
                = after w spanHandler h2 primary).
  { subst w2 w1 primary.
    rewrite logged_after, after_after. now rewrite <- app_assoc. }
  rewrite Hw3.
  destruct spanLogs as [|l ls]; [reflexivity|].
  change (0 <? length (l :: ls))%nat with true. cbv iota.
  unfold bind at 1. rewrite record_run, logged_after.
  destruct (SpanLogJSON traceId spanId (l :: ls)) as [logs [e|]]; [reflexivity|].
  assert (Hslot3 : handlers (this (after w spanHandler h2 (primary ++ [CallSpanLogJSON])))
                   !! spanHandler = Some (Some h2))
    by (apply (after_lookup _ _ _ _ _ Hslot)).
  rewrite (invoke_run _ _ _ _ _ _ Hslot3), after_after.
  now rewrite <- app_assoc.
Qed.

(** ** The loops over [sender.handlers] *)

Lemma insert_middle (A : Type) (l1 l2 : list A) (x y : A) :
  <[length l1 := y]> (l1 ++ x :: l2) = l1 ++ y :: l2.
Proof.
  rewrite <- (Nat.add_0_r (length l1)) at 1.
  now rewrite insert_app_r.
Qed.

Lemma withHandlers_id w : withHandlers w (handlers (this w)) [] = w.
Proof.
  destruct w as [s cs]. unfold withHandlers. simpl.
  now rewrite set_handlers_id, app_nil_r.
Qed.

Lemma withHandlers_after w i h cs hs cs' :
  withHandlers (after w i h cs) hs cs' = withHandlers w hs (cs ++ cs').
Proof. unfold withHandlers, after. simpl. now rewrite app_assoc. Qed.

(** A loop whose body calls one state-changing method [m] on the handler
    of its slot: every configured handler is called once, in slot order,
    whatever the calls return. *)
Lemma rangeHandlers_invoke (A R : Type) (c : nat -> Call) (m : H -> R * H)
    (g : A -> R -> A) (body : nat -> A -> M (H:=H) A) :
  (forall i acc w h,
     handlers (this w) !! i = Some (Some h) ->
     body i acc w = Some (g acc (fst (m h)), after w i (snd (m h)) [c i])) ->
  forall hs done w acc,
    handlers (this w) = done ++ hs ->
    rangeHandlers hs (length done) body acc w
    = Some (foldl (fun a h => g a (fst (m h))) acc (configured hs),
            withHandlers w (done ++ map (fmap (fun h => snd (m h))) hs)
              (slotCalls c (length done) hs)).
Proof.
  intros Hbody hs.
  induction hs as [|o hs IH]; intros done w acc Hw.
  - simpl. unfold ret.
    now rewrite <- Hw, withHandlers_id.
  - simpl rangeHandlers. unfold bind.
    destruct o as [h|].
    + rewrite (Hbody _ _ _ h)
        by (rewrite Hw; now apply list_lookup_middle).
      set (w1 := after w (length done) (snd (m h)) [c (length done)]).
      assert (Hw1 : handlers (this w1) = (done ++ [Some (snd (m h))]) ++ hs).
      { subst w1. simpl. rewrite Hw, insert_middle. now rewrite <- app_assoc. }
      specialize (IH (done ++ [Some (snd (m h))]) w1 (g acc (fst (m h))) Hw1).
      rewrite length_app, Nat.add_1_r in IH.
      rewrite IH. subst w1.
      rewrite withHandlers_after. simpl.
      now rewrite <- app_assoc.
    + unfold ret.
      assert (Hw1 : handlers (this w) = (done ++ [None]) ++ hs)
        by (rewrite Hw; now rewrite <- app_assoc).
      specialize (IH (done ++ [None]) w acc Hw1).
      rewrite length_app, Nat.add_1_r in IH.
      rewrite IH. simpl.
      now rewrite <- app_assoc.
Qed.

(** A loop whose body only reads the handler of its slot leaves the
    world as it was. *)
Lemma rangeHandlers_query (A : Type) (g : A -> H -> A) (body : nat -> A -> M (H:=H) A) :
  (forall i acc w h,
     handlers (this w) !! i = Some (Some h) -> body i acc w = Some (g acc h, w)) ->
  forall hs done w acc,
    handlers (this w) = done ++ hs ->
    rangeHandlers hs (length done) body acc w
    = Some (foldl g acc (configured hs), w).
Proof.
  intros Hbody hs.
  induction hs as [|o hs IH]; intros done w acc Hw; [reflexivity|].
  simpl rangeHandlers. unfold bind.
  assert (Hw1 : handlers (this w) = (done ++ [o]) ++ hs)
    by (rewrite Hw; now rewrite <- app_assoc).
  specialize (IH (done ++ [o]) w).
  rewrite length_app, Nat.add_1_r in IH.
  destruct o as [h|].
  - rewrite (Hbody _ _ _ h) by (rewrite Hw; now apply list_lookup_middle).
    now rewrite IH.
  - unfold ret. now rewrite IH.
Qed.

(** [Start] on a sender whose registry is set: every configured handler
    is started, then the registry. *)
Lemma Start_run w r :
  internalRegistry (this w) = Some r ->
  Start w
  = Some (tt,
          {| this := set_internalRegistry (Some (internal.RegistryStart r))
                       (set_handlers (map (fmap internal.Start) (handlers (this w))) (this w));
             calls := calls w ++ slotCalls CallStart 0 (handlers (this w))
                              ++ [CallRegistryStart] |}).
Proof.
  intros Hr. unfold Start.
  unfold bind at 1. rewrite field_run.
  unfold bind at 1.
  rewrite (rangeHandlers_invoke unit unit CallStart (fun h => (tt, internal.Start h))
             (fun _ _ => tt) _) with (done := []) by
    first [ reflexivity
          | intros i acc w' h' Hi; now rewrite (invoke_run _ _ _ _ _ _ Hi) ].
  unfold bind, record, onRegistry. simpl.
  rewrite Hr. simpl.
  now rewrite <- app_assoc.
Qed.

(** ** Flush *)

Lemma append_nil_l (a : string) : EmptyString +:+ a = a.
Proof. reflexivity. Qed.

Lemma append_cons (x : ascii) (a b : string) : String x a +:+ b = String x (a +:+ b).
Proof. reflexivity. Qed.

Lemma append_assoc (a b c : string) : (a +:+ b) +:+ c = a +:+ (b +:+ c).
Proof.
  induction a as [|x a IH]; [reflexivity|].
  now rewrite !append_cons, IH.
Qed.

Lemma append_nil_r (a : string) : a +:+ EmptyString = a.
Proof.
  induction a as [|x a IH]; [reflexivity|].
  now rewrite append_cons, IH.
Qed.

(** The error string that the loop of [Flush] builds. *)
Lemma flush_fold (l : list H) (acc : string) :
  foldl (fun a h => match fst (internal.Flush h) with
                    | Some e => a +:+ e +:+ Go.nl
                    | None => a
                    end) acc l
  = acc +:+ joinLines (omap (fun h => fst (internal.Flush h)) l).
Proof.
  revert acc. induction l as [|h l IH]; intros acc; simpl.
  - now rewrite append_nil_r.
  - rewrite IH. destruct (fst (internal.Flush h)) as [e|]; simpl; [|reflexivity].
    now rewrite !append_assoc.
Qed.

Lemma joinLines_cons_eqb (e : string) (es : list string) :
  String.eqb (joinLines (e :: es)) EmptyString = false.
Proof.
  apply String.eqb_neq. simpl. unfold Go.nl.
  destruct e; rewrite ?append_nil_l, ?append_cons; discriminate.
Qed.

Lemma flushErrors_nil hs :
  flushErrors hs = [] <-> Forall (fun h => fst (internal.Flush h) = None) (configured hs).
Proof.
  unfold flushErrors.
  induction (configured hs) as [|h l IH]; simpl.
  - split; [constructor | reflexivity].
  - destruct (fst (internal.Flush h)) as [e|] eqn:He.
    + split; [discriminate|]. intros Hall. inversion Hall; congruence.
    + rewrite IH. split.
      * intros Hl. now constructor.
      * intros Hall. now inversion Hall.
Qed.

(** *** Trimming the error string *)

Lemma trimRightByte_snoc (s : string) (c : ascii) :
  Go.trimRightByte (s +:+ String c EmptyString) c = Go.trimRightByte s c.
Proof.
  induction s as [|x s IH].
  - rewrite append_nil_l. simpl. now rewrite Ascii.eqb_refl.
  - rewrite append_cons. simpl. now rewrite IH.
Qed.

Lemma append_not_nil (a b : string) : b <> EmptyString -> a +:+ b <> EmptyString.
Proof.
  intros Hb. destruct a as [|x a]; [now rewrite append_nil_l|].
  rewrite append_cons. discriminate.
Qed.

Lemma trimRightByte_app_fixed (a b : string) (c : ascii) :
  b <> EmptyString -> Go.trimRightByte b c = b ->
  Go.trimRightByte (a +:+ b) c = a +:+ b.
Proof.
  intros Hb Hfix. induction a as [|x a IH]; [now rewrite append_nil_l|].
  rewrite append_cons. simpl. rewrite IH.
  pose proof (append_not_nil a b Hb) as Hne.
  now destruct (a +:+ b).
Qed.

Lemma trimLeftByte_startsPlain (s : string) :
  startsPlain s = true -> Go.trimLeftByte s Go.newline = s.
Proof.
  destruct s as [|x s]; [reflexivity|].
  simpl. now destruct (Ascii.eqb x Go.newline).
Qed.

Lemma startsPlain_app (a b : string) :
  startsPlain a = true -> startsPlain (a +:+ b) = true.
Proof. destruct a as [|x a]; [discriminate|]. now rewrite append_cons. Qed.

Lemma plain_parts (e : string) :
  plain e = true ->
  startsPlain e = true /\ e <> EmptyString /\ Go.trimRightByte e Go.newline = e.
Proof.
  unfold plain. intros Hp. apply andb_prop in Hp as [Hs Ht].
  apply String.eqb_eq in Ht.
  repeat split; try assumption.
  intros ->. discriminate.
Qed.

Lemma joinWith_plain (es : list string) :
  forallb plain es = true -> es <> [] ->
  startsPlain (joinWith es) = true /\ joinWith es <> EmptyString /\
  Go.trimRightByte (joinWith es) Go.newline = joinWith es.
Proof.
  induction es as [|e es IH]; [congruence|].
  intros Hall _. simpl in Hall. apply andb_prop in Hall as [He Hes].
  destruct (plain_parts e He) as (Hs & Hne & Ht).
  destruct es as [|e' es']; [simpl; auto|].
  destruct (IH Hes) as (_ & Hne' & Ht'); [discriminate|].
  change (joinWith (e :: e' :: es')) with (e +:+ Go.nl +:+ joinWith (e' :: es')).
  split; [now apply startsPlain_app|].
  split; [now apply append_not_nil, append_not_nil|].
  rewrite <- append_assoc.
  apply trimRightByte_app_fixed; assumption.
Qed.

Lemma joinLines_joinWith (es : list string) :
  es <> [] -> joinLines es = joinWith es +:+ Go.nl.
Proof.
  induction es as [|e es IH]; [congruence|]. intros _.
  destruct es as [|e' es']; [simpl; now rewrite append_nil_r|].
  change (joinLines (e :: e' :: es')) with (e +:+ Go.nl +:+ joinLines (e' :: es')).
  change (joinWith (e :: e' :: es')) with (e +:+ Go.nl +:+ joinWith (e' :: es')).
  rewrite IH by discriminate.
  now rewrite !append_assoc.
Qed.

(** For plain messages the trimmed string is the messages with a line
    feed between them. *)
Lemma Trim_joinLines (es : list string) :
  forallb plain es = true -> es <> [] ->
  Go.Trim (joinLines es) Go.newline = joinWith es.
Proof.
  intros Hall Hne.
  destruct (joinWith_plain es Hall Hne) as (Hs & _ & Ht).
  unfold Go.Trim. rewrite (joinLines_joinWith es Hne).
  unfold Go.nl. rewrite trimRightByte_snoc, Ht.
  now apply trimLeftByte_startsPlain.
Qed.

(** C8.  [Flush] calls [Flush] once on every configured handler, in slot
    order and whatever the earlier calls returned: each handler ends in
    the state its own flush leaves it in, and the calls made are one
    [CallFlush] per configured slot.  The error messages of the handlers
    that failed, each followed by a line feed, are put together in slot
    order and the line feeds at both ends are trimmed: that string is the
    message of the error returned; when no message is empty or has a
    line feed at one of its ends, it is the messages with one line feed
    between two of them.  The result is [nil] exactly when no configured
    handler returned an error. *)
Theorem Flush_all w :
  let hs := handlers (this w) in
  Flush w
  = Some (match flushErrors hs with
          | [] => None
          | _ :: _ => Some (Go.Trim (joinLines (flushErrors hs)) Go.newline)
          end,
          withHandlers w (map (fmap (fun h => snd (internal.Flush h))) hs)
            (slotCalls CallFlush 0 hs))
  /\ (fst <$> Flush w = Some None
      <-> Forall (fun h => fst (internal.Flush h) = None) (configured hs))
  /\ (forallb plain (flushErrors hs) = true -> flushErrors hs <> [] ->
      fst <$> Flush w = Some (Some (joinWith (flushErrors hs)))).
Proof.
  intros hs.
  assert (Hrun : Flush w
                 = Some (match flushErrors hs with
                         | [] => None
                         | _ :: _ => Some (Go.Trim (joinLines (flushErrors hs)) Go.newline)
                         end,
                         withHandlers w (map (fmap (fun h => snd (internal.Flush h))) hs)
                           (slotCalls CallFlush 0 hs))).
  { unfold Flush.
    unfold bind at 1. rewrite field_run.
    unfold bind at 1.
    rewrite (rangeHandlers_invoke string (option Go.error) CallFlush internal.Flush
               (fun a r => match r with
                           | Some e => a +:+ e +:+ Go.nl
                           | None => a
                           end) _) with (done := []) by
      first [ reflexivity
            | intros i acc w' h' Hi; unfold bind;
              rewrite (invoke_run _ _ _ _ _ _ Hi);
              now destruct (fst (internal.Flush h')) ].
    rewrite flush_fold, append_nil_l.
    fold (flushErrors (handlers (this w))). fold hs.
    destruct (flushErrors hs) as [|e es] eqn:Hes.
    - reflexivity.
    - now rewrite joinLines_cons_eqb. }
  split; [exact Hrun|].
  rewrite Hrun. simpl.
  split.
  - rewrite <- flushErrors_nil.
    destruct (flushErrors hs) as [|e es]; split; intros Heq;
      first [ reflexivity | discriminate ].
  - intros Hplain Hne.
    rewrite <- (Trim_joinLines _ Hplain Hne).
    now destruct (flushErrors hs).
Qed.

(** ** GetFailureCount *)

Lemma failure_fold (l : list H) (a : Z) :
  foldl (fun acc h => Go.add64 acc (internal.GetFailureCount h)) (Go.wrap64 a) l
  = Go.wrap64 (a + foldr (fun h acc => internal.GetFailureCount h + acc) 0 l).
Proof.
  revert a. induction l as [|h l IH]; intros a; simpl.
  - now rewrite Z.add_0_r.
  - rewrite add64_wrap64_l, IH. f_equal. ring.
Qed.

(** [GetFailureCount] on any world. *)
Lemma GetFailureCount_run w :
  GetFailureCount w = Some (Go.wrap64 (failureSum (handlers (this w))), w).
Proof.
  unfold GetFailureCount.
  unfold bind at 1. rewrite field_run.
  rewrite (rangeHandlers_query Z (fun acc h => Go.add64 acc (internal.GetFailureCount h)) _)
    with (done := []) by
    first [ reflexivity
          | intros i acc w' h' Hi; unfold bind; now rewrite (query_run _ _ _ _ _ Hi) ].
  change 0 with (Go.wrap64 0) at 1.
  now rewrite failure_fold.
Qed.

(** C9 (amended).  [GetFailureCount] returns the sum of the failure
    counters of the configured handlers, reduced to the range of [int64]
    as Go's addition does, and leaves the world as it was: no handler
    changes state and no call is recorded.  Whenever the sum fits in
    [int64] the result is that sum. *)
Theorem GetFailureCount_sum w :
  GetFailureCount w = Some (Go.wrap64 (failureSum (handlers (this w))), w) /\
  (- 2 ^ 63 <= failureSum (handlers (this w)) < 2 ^ 63 ->
   GetFailureCount w = Some (failureSum (handlers (this w)), w)).
Proof.
  split.
  - apply GetFailureCount_run.
  - intros Hfit. rewrite GetFailureCount_run.
    now rewrite (wrap64_small _ Hfit).
Qed.

(** ** Construction *)

(** What [NewProxySender] returns, for every configuration. *)
Lemma NewProxySender_run (cfg : ProxyConfiguration) :
  NewProxySender cfg
  = Some (if forallb (fun p => p =? 0) (ports (defaulted cfg))
          then ((None, Some "at least one proxy port should be enabled"),
                defaulted cfg, [])
          else ((Some (startedSender (defaulted cfg)), None),
                defaulted cfg, constructionCalls (defaulted cfg))).
Proof.
  unfold NewProxySender. fold (defaulted cfg).
  generalize (defaulted cfg) as c. intros c.
  unfold buildSender, startedSender, constructionCalls, counterRef, registryBuilt, builtFor,
    buildCall, ports, makeConnHandler, newSender.
  unfold registryAtCounters.
  cbn [map forallb flat_map].
  generalize (Go.mul64 Go.Second (FlushIntervalSeconds c)) as d.
  generalize (Host c +:+ ":" +:+ Go.FormatInt (MetricsPort c)) as a0.
  generalize (Host c +:+ ":" +:+ Go.FormatInt (DistributionPort c)) as a1.
  generalize (Host c +:+ ":" +:+ Go.FormatInt (TracingPort c)) as a2.
  generalize (Host c +:+ ":" +:+ Go.FormatInt (EventsPort c)) as a3.
  generalize (Go.Itoa Getpid) as pid.
  generalize (GetHostname "wavefront_proxy_sender") as host.
  intros host pid a3 a2 a1 a0 d.
  destruct (GetSemVer Version) as [v [e|]];
    destruct (MetricsPort c =? 0); destruct (DistributionPort c =? 0);
    destruct (TracingPort c =? 0); destruct (EventsPort c =? 0);
    vm_compute; reflexivity.
Qed.



Lemma ports_defaulted (cfg : ProxyConfiguration) : ports (defaulted cfg) = ports cfg.
Proof. unfold defaulted. now destruct (FlushIntervalSeconds cfg =? 0). Qed.

Lemma Host_defaulted (cfg : ProxyConfiguration) : Host (defaulted cfg) = Host cfg.
Proof. unfold defaulted. now destruct (FlushIntervalSeconds cfg =? 0). Qed.

Lemma all_zero_forallb (l : list Z) :
  Forall (fun p => p = 0) l -> forallb (fun p => p =? 0) l = true.
Proof.
  induction 1 as [|p l Hp _ IH]; [reflexivity|].
  simpl. subst p. now rewrite IH.
Qed.

Lemma some_nonzero_forallb (l : list Z) :
  Exists (fun p => p <> 0) l -> forallb (fun p => p =? 0) l = false.
Proof.
  induction 1 as [p l Hp | p l _ IH]; simpl.
  - apply Z.eqb_neq in Hp. now rewrite Hp.
  - rewrite IH. apply andb_false_r.
Qed.

(** The calls of a construction, sorted: the transports built, and the
    timers armed. *)
Lemma constructionCalls_built (c : ProxyConfiguration) :
  builtHandlers (constructionCalls c) = flat_map (builtPair c) (ports c).
Proof.
  unfold constructionCalls, ports, buildCall, builtFor, builtPair.
  cbn [map flat_map].
  destruct (MetricsPort c =? 0); destruct (DistributionPort c =? 0);
    destruct (TracingPort c =? 0); destruct (EventsPort c =? 0); reflexivity.
Qed.

Lemma constructionCalls_arming (c : ProxyConfiguration) :
  filter (fun x => armsTimer x = true) (constructionCalls c)
  = slotCalls CallStart 0 (map (builtFor c) (ports c)) ++ [CallRegistryStart].
Proof.
  unfold constructionCalls, ports, buildCall, builtFor.
  cbn [map flat_map].
  destruct (MetricsPort c =? 0); destruct (DistributionPort c =? 0);
    destruct (TracingPort c =? 0); destruct (EventsPort c =? 0); reflexivity.
Qed.

(** C5.  With the four ports at zero the constructor returns the
    configuration error and no sender, and builds no transport.  With a
    port that is not zero it returns a sender and no error; the four slots
    of that sender hold, port by port, no handler for a zero port and the
    handler built for the address of a port that is not zero, and the
    transports built during the call are those, one per such port. *)
Theorem NewProxySender_ports (cfg : ProxyConfiguration) :
  (Forall (fun p => p = 0) (ports cfg) ->
   exists cfg',
     NewProxySender cfg
     = Some ((None, Some "at least one proxy port should be enabled"), cfg', [])) /\
  (Exists (fun p => p <> 0) (ports cfg) ->
   exists s cfg' cs,
     NewProxySender cfg = Some ((Some s, None), cfg', cs) /\
     handlers s = map (fmap internal.Start) (map (builtFor cfg') (ports cfg)) /\
     builtHandlers cs = flat_map (builtPair cfg') (ports cfg)).
Proof.
  rewrite NewProxySender_run, ports_defaulted.
  split.
  - intros Hzero. exists (defaulted cfg).
    now rewrite (all_zero_forallb _ Hzero).
  - intros Hport. exists (startedSender (defaulted cfg)), (defaulted cfg),
      (constructionCalls (defaulted cfg)).
    rewrite (some_nonzero_forallb _ Hport).
    split; [reflexivity|].
    rewrite constructionCalls_built, ports_defaulted.
    split; [|reflexivity].
    unfold startedSender. cbn [handlers]. now rewrite ports_defaulted.
Qed.

Lemma NewProxySender_sender (cfg cfg' : ProxyConfiguration) (s : proxySender H)
    (e : option Go.error) (cs : list Call) :
  NewProxySender cfg = Some ((Some s, e), cfg', cs) ->
  s = startedSender (defaulted cfg) /\ cfg' = defaulted cfg
  /\ cs = constructionCalls (defaulted cfg).
Proof.
  rewrite NewProxySender_run.
  destruct (forallb _ _); intros Heq; inversion Heq; auto.
Qed.

Lemma counterRefs_distinct (a b c d : nat) :
  a <> b -> a <> c -> a <> d -> b <> c -> b <> d -> c <> d ->
  fourDistinct [counterRef a; counterRef b; counterRef c; counterRef d] = true.
Proof.
  intros Hab Hac Had Hbc Hbd Hcd.
  unfold fourDistinct, counterRef.
  apply bool_decide_eq_true.
  repeat (apply NoDup_cons; split;
          [rewrite ?not_elem_of_cons; repeat split; try apply not_elem_of_nil; lia|]).
  apply NoDup_nil. exact I.
Qed.

(** C6, on the code.  In every sender that the constructor returns, the
    fields [pointsDropped] and [pointReportErrors] are [nil] and
    [pointsInvalid] holds the counter created fourth, the one registered
    as "points.report.errors": the three assignments after "points.valid"
    all go to [pointsInvalid].  The metric category so has no four
    distinct counters, while each of the other three categories has. *)
Theorem NewProxySender_counters (cfg cfg' : ProxyConfiguration) (s : proxySender H)
    (e : option Go.error) (cs : list Call) :
  NewProxySender cfg = Some ((Some s, e), cfg', cs) ->
  pointsDropped s = None /\ pointReportErrors s = None /\
  pointsValid s = counterRef 0 /\ pointsInvalid s = counterRef 3 /\
  fourDistinct (metricCounters s) = false /\
  fourDistinct (histogramCounters s) = true /\
  fourDistinct (spanCounters s) = true /\
  fourDistinct (spanLogCounters s) = true.
Proof.
  intros Hnew. apply NewProxySender_sender in Hnew as (-> & _ & _).
  unfold metricCounters, histogramCounters, spanCounters, spanLogCounters, startedSender.
  simpl.
  repeat split; try reflexivity; apply counterRefs_distinct; lia.
Qed.


(** C10.  The constructor writes to the caller's configuration: when it
    returns, [FlushIntervalSeconds] holds the default interval if it was
    0 and its old value otherwise, and the host and the four ports are as
    they were.  Every transport built during the call got its flush
    interval from the field as it is after that write. *)
Theorem NewProxySender_config (cfg : ProxyConfiguration) :
  exists r cfg' cs,
    NewProxySender cfg = Some (r, cfg', cs) /\
    FlushIntervalSeconds cfg'
    = (if FlushIntervalSeconds cfg =? 0
       then defaultProxyFlushInterval
       else FlushIntervalSeconds cfg) /\
    Host cfg' = Host cfg /\
    MetricsPort cfg' = MetricsPort cfg /\
    DistributionPort cfg' = DistributionPort cfg /\
    TracingPort cfg' = TracingPort cfg /\
    EventsPort cfg' = EventsPort cfg /\
    Forall (fun b => snd b = Go.mul64 Go.Second (FlushIntervalSeconds cfg'))
      (builtHandlers cs).
Proof.
  rewrite NewProxySender_run.
  assert (Hfields :
    FlushIntervalSeconds (defaulted cfg)
    = (if FlushIntervalSeconds cfg =? 0
       then defaultProxyFlushInterval
       else FlushIntervalSeconds cfg) /\
    Host (defaulted cfg) = Host cfg /\
    MetricsPort (defaulted cfg) = MetricsPort cfg /\
    DistributionPort (defaulted cfg) = DistributionPort cfg /\
    TracingPort (defaulted cfg) = TracingPort cfg /\
    EventsPort (defaulted cfg) = EventsPort cfg).
  { unfold defaulted. destruct (FlushIntervalSeconds cfg =? 0); repeat split. }
  destruct (forallb _ _).
  - eexists _, _, _. split; [reflexivity|].
    repeat (split; [apply Hfields|]). constructor.
  - eexists _, _, _. split; [reflexivity|].
    repeat (split; [apply Hfields|]).
    rewrite constructionCalls_built.
    unfold ports, builtPair. cbn [flat_map].
    destruct (MetricsPort (defaulted cfg) =? 0);
      destruct (DistributionPort (defaulted cfg) =? 0);
      destruct (TracingPort (defaulted cfg) =? 0);
      destruct (EventsPort (defaulted cfg) =? 0);
      repeat constructor.
Qed.

End Properties.

(** * Further properties of the sender *)

Section FurtherProperties.

Context {H : Type} `{!internal.ConnectionHandler H} `{!Externals}.

Implicit Types (w : World H) (h : H) (hs : list (option H)) (cs : list Call).

(** ** The submission methods as instances of [submit] *)

Lemma SendMetric_submit w name value ts source tags :
  SendMetric name value ts source tags w
  = submit metricHandler "proxy metrics port not provided, cannot send metric data"
      CallMetricLine (MetricLine name value ts source tags) w.
Proof. reflexivity. Qed.

Lemma SendDistribution_submit w name centroids hgs ts source tags :
  SendDistribution name centroids hgs ts source tags w
  = submit histoHandler
      "proxy distribution port not provided, cannot send distribution data"
      CallHistoLine (HistoLine name centroids hgs ts source tags) w.
Proof. reflexivity. Qed.

Lemma submit_nil w i missing c enc :
  handlers (this w) !! i = Some None ->
  submit i missing c enc w = Some (Some missing, w).
Proof.
  intros Hnil. unfold submit, bind. now rewrite (handlerAt_run _ _ _ Hnil).
Qed.

Lemma submit_run w i h missing c enc :
  handlers (this w) !! i = Some (Some h) ->
  submit i missing c enc w = Some (submitted w i h c enc).
Proof.
  intros Hslot. unfold submit, submitted.
  unfold bind at 1. rewrite (handlerAt_run _ _ _ Hslot).
  rewrite (connect_step _ _ _ _ _ Hslot).
  destruct (ensureConnected h) as [[e|] h1]; cbn [fst snd]; [reflexivity|].
  set (w1 := after w i h1 (connectCalls i h)).
  assert (Hslot1 : handlers (this w1) !! i = Some (Some h1))
    by (apply (after_lookup _ _ _ _ _ Hslot)).
  unfold bind at 1. rewrite field_run.
  unfold bind at 1. rewrite record_run.
  replace (defaultSource (this w1)) with (defaultSource (this w)) by reflexivity.
  destruct (enc (defaultSource (this w))) as [line [e|]].
  - unfold ret. subst w1. now rewrite logged_after.
  - assert (Hslot2 : handlers (this (logged w1 [c])) !! i = Some (Some h1))
      by exact Hslot1.
    rewrite (invoke_run _ _ _ _ _ _ Hslot2).
    subst w1. rewrite logged_after, after_after.
    now rewrite <- app_assoc.
Qed.

Lemma SendEvent_run w h name startMillis endMillis source tags setters :
  handlers (this w) !! eventHandler = Some (Some h) ->
  SendEvent name startMillis endMillis source tags setters w
  = Some (submitted w eventHandler h CallEventLine
            (fun _ => EventLine name startMillis endMillis source tags setters)).
Proof.
  intros Hslot. unfold SendEvent, submitted.
  unfold bind at 1. rewrite (handlerAt_run _ _ _ Hslot).
  rewrite (connect_step _ _ _ _ _ Hslot).
  destruct (ensureConnected h) as [[e|] h1]; cbn [fst snd]; [reflexivity|].
  set (w1 := after w eventHandler h1 (connectCalls eventHandler h)).
  assert (Hslot1 : handlers (this w1) !! eventHandler = Some (Some h1))
    by (apply (after_lookup _ _ _ _ _ Hslot)).
  unfold bind at 1. rewrite record_run.
  destruct (EventLine name startMillis endMillis source tags setters) as [line [e|]].
  - unfold ret. subst w1. now rewrite logged_after.
  - assert (Hslot2 : handlers (this (logged w1 [CallEventLine])) !! eventHandler
                     = Some (Some h1))
      by exact Hslot1.
    rewrite (invoke_run _ _ _ _ _ _ Hslot2).
    subst w1. rewrite logged_after, after_after.
    now rewrite <- app_assoc.
Qed.

Lemma SendEvent_nil w name startMillis endMillis source tags setters :
  handlers (this w) !! eventHandler = Some None ->
  SendEvent name startMillis endMillis source tags setters w
  = Some (Some "proxy events port not provided, cannot send events data", w).
Proof.
  intros Hnil. unfold SendEvent, bind. now rewrite (handlerAt_run _ _ _ Hnil).
Qed.

(** [SendSpan] is the shared policy on the primary line, followed by the
    span-log step when, and only when, the policy returned no error. *)
Lemma SendSpan_submit w name startMillis durationMillis source traceId spanId parents
    followsFrom tags spanLogs :
  SendSpan name startMillis durationMillis source traceId spanId parents followsFrom
    tags spanLogs w
  = bind (submit spanHandler "proxy tracing port not provided, cannot send span data"
            CallSpanLine
            (SpanLine name startMillis durationMillis source traceId spanId parents
               followsFrom tags spanLogs))
      (fun r => match r with
                | Some e => ret (Some e)
                | None => sendSpanLogs traceId spanId spanLogs
                end) w.
Proof.
  unfold SendSpan, submit, sendSpanLogs, bind.
  destruct (handlerAt spanHandler w) as [[[h|] w1]|]; [|reflexivity|reflexivity].
  destruct (query spanHandler internal.Connected w1) as [[connected w2]|]; [|reflexivity].
  destruct (_ w2) as [[[e|] w3]|]; [reflexivity| |reflexivity].
  unfold field, record.
  destruct (SpanLine _ _ _ _ _ _ _ _ _ _ _) as [line [e|]]; [reflexivity|].
  destruct (invoke _ _ _ _) as [[[e|] w4]|]; reflexivity.
Qed.


Lemma sendSpanLogs_run w h traceId spanId spanLogs :
  handlers (this w) !! spanHandler = Some (Some h) ->
  sendSpanLogs traceId spanId spanLogs w
  = Some (match spanLogs with
          | [] => (None, w)
          | _ :: _ =>
              match SpanLogJSON traceId spanId spanLogs with
              | (_, Some e) => (Some e, after w spanHandler h [CallSpanLogJSON])
              | (logs, None) =>
                  (fst (internal.SendData logs h),
                   after w spanHandler (snd (internal.SendData logs h))
                     [CallSpanLogJSON; CallSendData spanHandler logs])
              end
          end).
Proof.
  intros Hslot. unfold sendSpanLogs.
  destruct spanLogs as [|l ls]; [reflexivity|].
  change (0 <? length (l :: ls))%nat with true. cbv iota.
  unfold bind at 1. rewrite record_run.
  assert (Hlog : logged w [CallSpanLogJSON] = after w spanHandler h [CallSpanLogJSON]).
  { rewrite <- (after_id _ _ _ Hslot) at 1. now rewrite logged_after. }
  rewrite Hlog.
  destruct (SpanLogJSON traceId spanId (l :: ls)) as [logs [e|]]; [reflexivity|].
  assert (Hslot1 : handlers (this (after w spanHandler h [CallSpanLogJSON])) !! spanHandler
                   = Some (Some h))
    by (apply (after_lookup _ _ _ _ _ Hslot)).
  rewrite (invoke_run _ _ _ _ _ _ Hslot1).
  now rewrite after_after.
Qed.

(** ** What a submission leaves alone *)

Lemma shape_insert hs i h h' :
  hs !! i = Some (Some h) -> shape (<[i := Some h']> hs) = shape hs.
Proof.
  revert i. induction hs as [|o hs IH]; intros [|i] Hi; try discriminate.
  - simpl in Hi. inversion Hi; subst o. reflexivity.
  - simpl. f_equal. now apply IH.
Qed.

Lemma shape_fmap hs (f : H -> H) : shape (map (fmap f) hs) = shape hs.
Proof.
  induction hs as [|o hs IH]; [reflexivity|].
  simpl. rewrite IH. now destruct o.
Qed.

Lemma shape_length hs hs' : shape hs = shape hs' -> length hs = length hs'.
Proof.
  intros Hs. apply (f_equal length) in Hs.
  unfold shape in Hs. now rewrite !length_map in Hs.
Qed.

Lemma untouchedBut_refl i w : untouchedBut i w w.
Proof.
  split; [apply set_handlers_id|]. split; reflexivity.
Qed.

Lemma untouchedBut_after i w h h' cs :
  handlers (this w) !! i = Some (Some h) -> untouchedBut i w (after w i h' cs).
Proof.
  intros Hslot. split; [|split].
  - transitivity (set_handlers (handlers (this w)) (this w));
      [reflexivity | apply set_handlers_id].
  - simpl. now apply (shape_insert _ _ h).
  - intros j Hj. simpl. now apply list_lookup_insert_ne.
Qed.

Lemma untouchedBut_trans i w w1 w2 :
  untouchedBut i w w1 -> untouchedBut i w1 w2 -> untouchedBut i w w2.
Proof.
  intros (Hf1 & Hs1 & Ho1) (Hf2 & Hs2 & Ho2).
  split; [|split].
  - rewrite <- Hf1 at 2. rewrite <- Hf2. reflexivity.
  - congruence.
  - intros j Hj. rewrite (Ho2 j Hj). now apply Ho1.
Qed.

(** The two ways a run of [submit] ends. *)
Lemma submit_cases w i missing c enc r w' :
  submit i missing c enc w = Some (r, w') ->
  (handlers (this w) !! i = Some None /\ r = Some missing /\ w' = w) \/
  (exists h, handlers (this w) !! i = Some (Some h) /\ (r, w') = submitted w i h c enc).
Proof.
  intros Hrun.
  destruct (handlers (this w) !! i) as [[h|]|] eqn:Hslot.
  - right. exists h. split; [reflexivity|].
    rewrite (submit_run _ _ _ _ _ _ Hslot) in Hrun. now inversion Hrun.
  - left. rewrite (submit_nil _ _ _ _ _ Hslot) in Hrun. now inversion Hrun.
  - unfold submit, bind, handlerAt in Hrun. rewrite Hslot in Hrun. discriminate.
Qed.

(** The world and the calls of a run of [submit] on a configured slot. *)
Lemma submitted_effect w i h c enc :
  submissionCall c = true -> handedOver [c] = [] ->
  exists h' cs,
    snd (submitted w i h c enc) = after w i h' cs /\
    forallb submissionCall cs = true /\
    (length (handedOver cs) <= 1)%nat /\
    Forall (fun p => fst p = i) (handedOver cs) /\
    (fst (submitted w i h c enc) = None -> length (handedOver cs) = 1%nat).
Proof.
  intros Hc Hnot.
  assert (Hconn : forallb submissionCall (connectCalls i h) = true
                  /\ handedOver (connectCalls i h) = []).
  { unfold connectCalls. now destruct (internal.Connected h). }
  destruct Hconn as [Hcs Hho].
  unfold submitted.
  destruct (ensureConnected h) as [[e|] h1].
  - exists h1, (connectCalls i h). simpl. rewrite Hho.
    repeat split; auto; try constructor. discriminate.
  - destruct (enc (defaultSource (this w))) as [line [e|]].
    + exists h1, (connectCalls i h ++ [c]). simpl.
      unfold handedOver in *. rewrite omap_app, Hho, Hnot.
      rewrite forallb_app, Hcs. simpl. rewrite Hc.
      repeat split; auto; try constructor. discriminate.
    + exists (snd (internal.SendData line h1)),
        (connectCalls i h ++ [c; CallSendData i line]).
      simpl.
      assert (Hho' : handedOver (connectCalls i h ++ [c; CallSendData i line])
                     = [(i, line)]).
      { unfold handedOver in *. rewrite omap_app, Hho.
        change [c; CallSendData i line] with ([c] ++ [CallSendData i line]).
        now rewrite omap_app, Hnot. }
      rewrite Hho'.
      rewrite forallb_app, Hcs. simpl. rewrite Hc.
      repeat split; auto; repeat constructor.
Qed.


Lemma SendEvent_submit w name startMillis endMillis source tags setters :
  SendEvent name startMillis endMillis source tags setters w
  = submit eventHandler "proxy events port not provided, cannot send events data"
      CallEventLine (fun _ => EventLine name startMillis endMillis source tags setters) w.
Proof.
  destruct (handlers (this w) !! eventHandler) as [[h|]|] eqn:Hslot.
  - now rewrite (SendEvent_run _ _ _ _ _ _ _ _ Hslot), (submit_run _ _ _ _ _ _ Hslot).
  - now rewrite (SendEvent_nil _ _ _ _ _ _ _ Hslot), (submit_nil _ _ _ _ _ Hslot).
  - unfold SendEvent, submit, bind, handlerAt. now rewrite Hslot.
Qed.

Lemma SendSpan_run w h name startMillis durationMillis source traceId spanId parents
    followsFrom tags spanLogs :
  handlers (this w) !! spanHandler = Some (Some h) ->
  SendSpan name startMillis durationMillis source traceId spanId parents followsFrom
    tags spanLogs w
  = match submitted w spanHandler h CallSpanLine
            (SpanLine name startMillis durationMillis source traceId spanId parents
               followsFrom tags spanLogs) with
    | (Some e, w1) => Some (Some e, w1)
    | (None, w1) => sendSpanLogs traceId spanId spanLogs w1
    end.
Proof.
  intros Hslot. rewrite SendSpan_submit. unfold bind.
  rewrite (submit_run _ _ _ _ _ _ Hslot).
  now destruct (submitted _ _ _ _ _) as [[e|] w1].
Qed.

(** What one run of [submit] changes and which calls it makes. *)
Lemma submit_effect w i missing c enc r w' :
  submit i missing c enc w = Some (r, w') ->
  submissionCall c = true -> handedOver [c] = [] ->
  untouchedBut i w w' /\
  (r = None -> exists h', handlers (this w') !! i = Some (Some h')) /\
  exists cs,
    calls w' = calls w ++ cs /\ forallb submissionCall cs = true /\
    (length (handedOver cs) <= 1)%nat /\ Forall (fun p => fst p = i) (handedOver cs).
Proof.
  intros Hrun Hc Hnot.
  destruct (submit_cases _ _ _ _ _ _ _ Hrun) as [(Hslot & -> & ->) | (h & Hslot & Heq)].
  - split; [apply untouchedBut_refl|].
    split; [discriminate|].
    exists []. rewrite app_nil_r. repeat split; auto; try constructor.
  - destruct (submitted_effect w i h c enc Hc Hnot) as (h' & cs & Hw & Hall & Hlen & Hslots & _).
    rewrite <- Heq in Hw. simpl in Hw. subst w'.
    split; [now apply (untouchedBut_after _ _ h)|].
    split.
    + intros _. exists h'. apply (after_lookup _ _ _ _ _ Hslot).
    + exists cs. repeat split; auto.
Qed.

Lemma sendSpanLogs_effect w h traceId spanId spanLogs r w' :
  handlers (this w) !! spanHandler = Some (Some h) ->
  sendSpanLogs traceId spanId spanLogs w = Some (r, w') ->
  untouchedBut spanHandler w w' /\
  exists cs,
    calls w' = calls w ++ cs /\ forallb submissionCall cs = true /\
    (length (handedOver cs) <= 1)%nat /\
    Forall (fun p => fst p = spanHandler) (handedOver cs).
Proof.
  intros Hslot Hrun.
  rewrite (sendSpanLogs_run _ _ _ _ _ Hslot) in Hrun.
  destruct spanLogs as [|l ls].
  - inversion Hrun; subst. split; [apply untouchedBut_refl|].
    exists []. rewrite app_nil_r. repeat split; auto; try constructor.
  - destruct (SpanLogJSON traceId spanId (l :: ls)) as [logs [e|]];
      inversion Hrun; subst.
    + split; [now apply (untouchedBut_after _ _ h)|].
      exists [CallSpanLogJSON]. repeat split; auto; try constructor.
    + split; [now apply (untouchedBut_after _ _ h)|].
      exists [CallSpanLogJSON; CallSendData spanHandler logs].
      repeat split; auto; repeat constructor.
Qed.

Lemma SendSpan_effect w name startMillis durationMillis source traceId spanId parents
    followsFrom tags spanLogs r w' :
  SendSpan name startMillis durationMillis source traceId spanId parents followsFrom
    tags spanLogs w = Some (r, w') ->
  untouchedBut spanHandler w w' /\
  exists cs,
    calls w' = calls w ++ cs /\ forallb submissionCall cs = true /\
    (length (handedOver cs) <= 2)%nat /\
    Forall (fun p => fst p = spanHandler) (handedOver cs).
Proof.
  rewrite SendSpan_submit. unfold bind.
  destruct (submit _ _ _ _ w) as [[r1 w1]|] eqn:Hsub; [|discriminate].
  destruct (submit_effect _ _ _ _ _ _ _ Hsub eq_refl eq_refl)
    as (Hu1 & Hconf & cs1 & Hcs1 & Hall1 & Hlen1 & Hslots1).
  destruct r1 as [e|].
  - intros Hrun. inversion Hrun; subst.
    split; [exact Hu1|]. exists cs1. repeat split; auto.
  - intros Hrun. destruct (Hconf eq_refl) as [h' Hslot'].
    destruct (sendSpanLogs_effect _ _ _ _ _ _ _ Hslot' Hrun)
      as (Hu2 & cs2 & Hcs2 & Hall2 & Hlen2 & Hslots2).
    split; [now apply (untouchedBut_trans _ _ w1)|].
    exists (cs1 ++ cs2).
    split; [rewrite Hcs2, Hcs1; now rewrite app_assoc|].
    split; [rewrite forallb_app, Hall1, Hall2; reflexivity|].
    unfold handedOver in *. rewrite omap_app.
    split; [rewrite length_app; lia|].
    now apply Forall_app.
Qed.

(** X1.  A connection failure is returned as it is, and the method stops
    there.  For a configured handler that says it is not connected and
    whose [Connect] fails with [e], each of the four submission methods
    returns [e]; the only call made is that [Connect]: nothing is encoded
    and no line is handed over. *)
Theorem submission_connect_failure w h h1 e :
  internal.Connected h = false ->
  internal.Connect h = (Some e, h1) ->
  (handlers (this w) !! metricHandler = Some (Some h) ->
   forall name value ts source tags,
     SendMetric name value ts source tags w
     = Some (Some e, after w metricHandler h1 [CallConnect metricHandler])) /\
  (handlers (this w) !! histoHandler = Some (Some h) ->
   forall name centroids hgs ts source tags,
     SendDistribution name centroids hgs ts source tags w
     = Some (Some e, after w histoHandler h1 [CallConnect histoHandler])) /\
  (handlers (this w) !! spanHandler = Some (Some h) ->
   forall name startMillis durationMillis source traceId spanId parents followsFrom
          tags spanLogs,
     SendSpan name startMillis durationMillis source traceId spanId parents followsFrom
       tags spanLogs w
     = Some (Some e, after w spanHandler h1 [CallConnect spanHandler])) /\
  (handlers (this w) !! eventHandler = Some (Some h) ->
   forall name startMillis endMillis source tags setters,
     SendEvent name startMillis endMillis source tags setters w
     = Some (Some e, after w eventHandler h1 [CallConnect eventHandler])).
Proof.
  intros Hoff Hfail.
  assert (Hsub : forall i c enc,
            submitted w i h c enc = (Some e, after w i h1 [CallConnect i])).
  { intros i c enc. unfold submitted, ensureConnected, connectCalls.
    now rewrite Hoff, Hfail. }
  split; [|split; [|split]].
  - intros Hslot name value ts source tags.
    now rewrite SendMetric_submit, (submit_run _ _ _ _ _ _ Hslot), Hsub.
  - intros Hslot name centroids hgs ts source tags.
    now rewrite SendDistribution_submit, (submit_run _ _ _ _ _ _ Hslot), Hsub.
  - intros Hslot name startMillis durationMillis source traceId spanId parents
      followsFrom tags spanLogs.
    now rewrite (SendSpan_run _ _ _ _ _ _ _ _ _ _ _ _ Hslot), Hsub.
  - intros Hslot name startMillis endMillis source tags setters.
    now rewrite SendEvent_submit, (submit_run _ _ _ _ _ _ Hslot), Hsub.
Qed.

(** X2.  An encoding failure is returned and its input is never sent.
    Once the connection step went through on a configured handler, the
    error of the encoder is the result of the method and the calls end
    with the encoder's: no line is handed to the transport, which stays
    in the state the connection step left it in. *)
Theorem submission_encoding_failure w h h1 e :
  ensureConnected h = (None, h1) ->
  (handlers (this w) !! metricHandler = Some (Some h) ->
   forall name value ts source tags line,
     MetricLine name value ts source tags (defaultSource (this w)) = (line, Some e) ->
     SendMetric name value ts source tags w
     = Some (Some e, after w metricHandler h1
                       (connectCalls metricHandler h ++ [CallMetricLine]))) /\
  (handlers (this w) !! histoHandler = Some (Some h) ->
   forall name centroids hgs ts source tags line,
     HistoLine name centroids hgs ts source tags (defaultSource (this w)) = (line, Some e) ->
     SendDistribution name centroids hgs ts source tags w
     = Some (Some e, after w histoHandler h1
                       (connectCalls histoHandler h ++ [CallHistoLine]))) /\
  (handlers (this w) !! spanHandler = Some (Some h) ->
   forall name startMillis durationMillis source traceId spanId parents followsFrom
          tags spanLogs line,
     SpanLine name startMillis durationMillis source traceId spanId parents followsFrom
       tags spanLogs (defaultSource (this w)) = (line, Some e) ->
     SendSpan name startMillis durationMillis source traceId spanId parents followsFrom
       tags spanLogs w
     = Some (Some e, after w spanHandler h1
                       (connectCalls spanHandler h ++ [CallSpanLine]))) /\
  (handlers (this w) !! eventHandler = Some (Some h) ->
   forall name startMillis endMillis source tags setters line,
     EventLine name startMillis endMillis source tags setters = (line, Some e) ->
     SendEvent name startMillis endMillis source tags setters w
     = Some (Some e, after w eventHandler h1
                       (connectCalls eventHandler h ++ [CallEventLine]))).
Proof.
  intros Hconn.
  assert (Hsub : forall i c enc line,
            enc (defaultSource (this w)) = (line, Some e) ->
            submitted w i h c enc = (Some e, after w i h1 (connectCalls i h ++ [c]))).
  { intros i c enc line Henc. unfold submitted. now rewrite Hconn, Henc. }
  split; [|split; [|split]].
  - intros Hslot name value ts source tags line Henc.
    now rewrite SendMetric_submit, (submit_run _ _ _ _ _ _ Hslot), (Hsub _ _ _ _ Henc).
  - intros Hslot name centroids hgs ts source tags line Henc.
    now rewrite SendDistribution_submit, (submit_run _ _ _ _ _ _ Hslot),
      (Hsub _ _ _ _ Henc).
  - intros Hslot name startMillis durationMillis source traceId spanId parents
      followsFrom tags spanLogs line Henc.
    now rewrite (SendSpan_run _ _ _ _ _ _ _ _ _ _ _ _ Hslot), (Hsub _ _ _ _ Henc).
  - intros Hslot name startMillis endMillis source tags setters line Henc.
    rewrite SendEvent_submit, (submit_run _ _ _ _ _ _ Hslot).
    now rewrite (Hsub _ _ (fun _ => EventLine name startMillis endMillis source tags setters)
                   line Henc).
Qed.

(** X3.  A metric, a distribution or an event that encodes is handed to
    the transport of its category as one line, and the result of that
    [SendData] is the result of the method.  [Connect] is called before,
    and only when the handler says it is not connected. *)
Theorem submission_sends_one_line w h h1 :
  ensureConnected h = (None, h1) ->
  (handlers (this w) !! metricHandler = Some (Some h) ->
   forall name value ts source tags line,
     MetricLine name value ts source tags (defaultSource (this w)) = (line, None) ->
     SendMetric name value ts source tags w
     = Some (fst (internal.SendData line h1),
             after w metricHandler (snd (internal.SendData line h1))
               (connectCalls metricHandler h
                ++ [CallMetricLine; CallSendData metricHandler line]))) /\
  (handlers (this w) !! histoHandler = Some (Some h) ->
   forall name centroids hgs ts source tags line,
     HistoLine name centroids hgs ts source tags (defaultSource (this w)) = (line, None) ->
     SendDistribution name centroids hgs ts source tags w
     = Some (fst (internal.SendData line h1),
             after w histoHandler (snd (internal.SendData line h1))
               (connectCalls histoHandler h
                ++ [CallHistoLine; CallSendData histoHandler line]))) /\
  (handlers (this w) !! eventHandler = Some (Some h) ->
   forall name startMillis endMillis source tags setters line,
     EventLine name startMillis endMillis source tags setters = (line, None) ->
     SendEvent name startMillis endMillis source tags setters w
     = Some (fst (internal.SendData line h1),
             after w eventHandler (snd (internal.SendData line h1))
               (connectCalls eventHandler h
                ++ [CallEventLine; CallSendData eventHandler line]))).
Proof.
  intros Hconn.
  assert (Hsub : forall i c enc line,
            enc (defaultSource (this w)) = (line, None) ->
            submitted w i h c enc
            = (fst (internal.SendData line h1),
               after w i (snd (internal.SendData line h1))
                 (connectCalls i h ++ [c; CallSendData i line]))).
  { intros i c enc line Henc. unfold submitted. now rewrite Hconn, Henc. }
  split; [|split].
  - intros Hslot name value ts source tags line Henc.
    now rewrite SendMetric_submit, (submit_run _ _ _ _ _ _ Hslot), (Hsub _ _ _ _ Henc).
  - intros Hslot name centroids hgs ts source tags line Henc.
    now rewrite SendDistribution_submit, (submit_run _ _ _ _ _ _ Hslot),
      (Hsub _ _ _ _ Henc).
  - intros Hslot name startMillis endMillis source tags setters line Henc.
    rewrite SendEvent_submit, (submit_run _ _ _ _ _ _ Hslot).
    now rewrite (Hsub _ _ (fun _ => EventLine name startMillis endMillis source tags setters)
                   line Henc).
Qed.

(** X4.  When the transport refuses the primary line of a span, [SendSpan]
    returns that error and stops: the span logs are neither encoded nor
    sent, whatever their number. *)
Theorem SendSpan_primary_send_failure w h h1 h2 e line name startMillis durationMillis
    source traceId spanId parents followsFrom tags spanLogs :
  handlers (this w) !! spanHandler = Some (Some h) ->
  ensureConnected h = (None, h1) ->
  SpanLine name startMillis durationMillis source traceId spanId parents followsFrom
    tags spanLogs (defaultSource (this w)) = (line, None) ->
  internal.SendData line h1 = (Some e, h2) ->
  SendSpan name startMillis durationMillis source traceId spanId parents followsFrom
    tags spanLogs w
  = Some (Some e,
          after w spanHandler h2
            (connectCalls spanHandler h ++ [CallSpanLine; CallSendData spanHandler line])).
Proof.
  intros Hslot Hconn Hline Hsend.
  rewrite (SendSpan_run _ _ _ _ _ _ _ _ _ _ _ _ Hslot).
  unfold submitted. now rewrite Hconn, Hline, Hsend.
Qed.

(** X5.  A delta counter is submitted only for a value above zero.  For a
    name that is not empty, every value that is not above zero is dropped
    with no error and no effect; a NaN is such a value, although it is not
    at most zero either. *)
Theorem SendDeltaCounter_not_above_zero w name value ts source tags :
  name <> EmptyString ->
  Go.float_gt value Go.float_zero = false ->
  SendDeltaCounter name value ts source tags w = Some (None, w).
Proof.
  intros Hname Hnot.
  unfold SendDeltaCounter. apply String.eqb_neq in Hname.
  now rewrite Hname, Hnot.
Qed.

(** X6.  A submission changes nothing of the sender but the state of the
    handler of its own category.  Whatever the outcome, the registry, the
    counter fields and the default source are the same after the call, the
    same slots hold a handler, and the handlers of the other categories
    are in the state they had. *)
Theorem submission_untouched w w' r :
  (forall name value ts source tags,
     SendMetric name value ts source tags w = Some (r, w') ->
     untouchedBut metricHandler w w') /\
  (forall name value ts source tags,
     SendDeltaCounter name value ts source tags w = Some (r, w') ->
     untouchedBut metricHandler w w') /\
  (forall name centroids hgs ts source tags,
     SendDistribution name centroids hgs ts source tags w = Some (r, w') ->
     untouchedBut histoHandler w w') /\
  (forall name startMillis durationMillis source traceId spanId parents followsFrom
          tags spanLogs,
     SendSpan name startMillis durationMillis source traceId spanId parents followsFrom
       tags spanLogs w = Some (r, w') ->
     untouchedBut spanHandler w w') /\
  (forall name startMillis endMillis source tags setters,
     SendEvent name startMillis endMillis source tags setters w = Some (r, w') ->
     untouchedBut eventHandler w w').
Proof.
  assert (Hmetric : forall name value ts source tags,
            SendMetric name value ts source tags w = Some (r, w') ->
            untouchedBut metricHandler w w').
  { intros name value ts source tags Hrun. rewrite SendMetric_submit in Hrun.
    apply (submit_effect _ _ _ _ _ _ _ Hrun eq_refl eq_refl). }
  split; [exact Hmetric|].
  split.
  { intros name value ts source tags. unfold SendDeltaCounter.
    destruct (String.eqb name ""); [intros Hrun; inversion Hrun; apply untouchedBut_refl|].
    destruct (Go.float_gt value Go.float_zero); [apply Hmetric|].
    intros Hrun; inversion Hrun; apply untouchedBut_refl. }
  split.
  { intros name centroids hgs ts source tags Hrun. rewrite SendDistribution_submit in Hrun.
    apply (submit_effect _ _ _ _ _ _ _ Hrun eq_refl eq_refl). }
  split.
  { intros name startMillis durationMillis source traceId spanId parents followsFrom
      tags spanLogs Hrun.
    apply (SendSpan_effect _ _ _ _ _ _ _ _ _ _ _ _ _ Hrun). }
  intros name startMillis endMillis source tags setters Hrun.
  rewrite SendEvent_submit in Hrun.
  apply (submit_effect _ _ _ _ _ _ _ Hrun eq_refl eq_refl).
Qed.

(** X7.  A submission only connects, encodes and sends.  The calls it adds
    are calls of [Connect], of an encoder and of [SendData]: it never
    flushes, starts or closes a transport and never calls the registry.
    It hands at most one line to a transport, [SendSpan] at most two, and
    only to the transport of its own category. *)
Theorem submission_calls w w' r :
  (forall name value ts source tags,
     SendMetric name value ts source tags w = Some (r, w') ->
     exists cs, calls w' = calls w ++ cs /\ forallb submissionCall cs = true /\
                (length (handedOver cs) <= 1)%nat /\
                Forall (fun p => fst p = metricHandler) (handedOver cs)) /\
  (forall name value ts source tags,
     SendDeltaCounter name value ts source tags w = Some (r, w') ->
     exists cs, calls w' = calls w ++ cs /\ forallb submissionCall cs = true /\
                (length (handedOver cs) <= 1)%nat /\
                Forall (fun p => fst p = metricHandler) (handedOver cs)) /\
  (forall name centroids hgs ts source tags,
     SendDistribution name centroids hgs ts source tags w = Some (r, w') ->
     exists cs, calls w' = calls w ++ cs /\ forallb submissionCall cs = true /\
                (length (handedOver cs) <= 1)%nat /\
                Forall (fun p => fst p = histoHandler) (handedOver cs)) /\
  (forall name startMillis durationMillis source traceId spanId parents followsFrom
          tags spanLogs,
     SendSpan name startMillis durationMillis source traceId spanId parents followsFrom
       tags spanLogs w = Some (r, w') ->
     exists cs, calls w' = calls w ++ cs /\ forallb submissionCall cs = true /\
                (length (handedOver cs) <= 2)%nat /\
                Forall (fun p => fst p = spanHandler) (handedOver cs)) /\
  (forall name startMillis endMillis source tags setters,
     SendEvent name startMillis endMillis source tags setters w = Some (r, w') ->
     exists cs, calls w' = calls w ++ cs /\ forallb submissionCall cs = true /\
                (length (handedOver cs) <= 1)%nat /\
                Forall (fun p => fst p = eventHandler) (handedOver cs)).
Proof.
  assert (Hnone : exists cs, calls w = calls w ++ cs /\ forallb submissionCall cs = true /\
                             (length (handedOver cs) <= 1)%nat /\
                             Forall (fun p => fst p = metricHandler) (handedOver cs)).
  { exists []. rewrite app_nil_r. repeat split; auto; try constructor. }
  assert (Hmetric : forall name value ts source tags,
            SendMetric name value ts source tags w = Some (r, w') ->
            exists cs, calls w' = calls w ++ cs /\ forallb submissionCall cs = true /\
                       (length (handedOver cs) <= 1)%nat /\
                       Forall (fun p => fst p = metricHandler) (handedOver cs)).
  { intros name value ts source tags Hrun. rewrite SendMetric_submit in Hrun.
    apply (submit_effect _ _ _ _ _ _ _ Hrun eq_refl eq_refl). }
  split; [exact Hmetric|].
  split.
  { intros name value ts source tags. unfold SendDeltaCounter.
    destruct (String.eqb name ""); [intros Hrun; inversion Hrun; subst; exact Hnone|].
    destruct (Go.float_gt value Go.float_zero); [apply Hmetric|].
    intros Hrun; inversion Hrun; subst; exact Hnone. }
  split.
  { intros name centroids hgs ts source tags Hrun. rewrite SendDistribution_submit in Hrun.
    apply (submit_effect _ _ _ _ _ _ _ Hrun eq_refl eq_refl). }
  split.
  { intros name startMillis durationMillis source traceId spanId parents followsFrom
      tags spanLogs Hrun.
    apply (SendSpan_effect _ _ _ _ _ _ _ _ _ _ _ _ _ Hrun). }
  intros name startMillis endMillis source tags setters Hrun.
  rewrite SendEvent_submit in Hrun.
  apply (submit_effect _ _ _ _ _ _ _ Hrun eq_refl eq_refl).
Qed.


(** ** Lifecycle *)

Lemma Close_run w r :
  internalRegistry (this w) = Some r ->
  Close w = report (fst (internal.RegistryStop r)) (closing w r).
Proof.
  intros Hr. unfold Close.
  unfold bind at 1. rewrite field_run.
  unfold bind at 1.
  rewrite (rangeHandlers_invoke unit unit CallClose (fun h => (tt, internal.Close h))
             (fun _ _ => tt) _) with (done := []) by
    first [ reflexivity
          | intros i acc w' h' Hi; now rewrite (invoke_run _ _ _ _ _ _ Hi) ].
  unfold bind at 1. rewrite record_run.
  unfold bind, onRegistry, closing, logged, withHandlers.
  cbn [this calls internalRegistry set_handlers].
  rewrite Hr.
  destruct (internal.RegistryStop r) as [ps r'].
  cbn [fst snd]. now rewrite <- app_assoc.
Qed.

Lemma untouchedBut_slot i j w w' :
  untouchedBut i w w' ->
  is_Some (handlers (this w) !! j) -> is_Some (handlers (this w') !! j).
Proof.
  intros (_ & Hs & _) Hj.
  apply lookup_lt_is_Some. apply lookup_lt_is_Some in Hj.
  now rewrite (shape_length _ _ Hs).
Qed.

Lemma shape_lookup hs hs' i h :
  shape hs' = shape hs -> hs !! i = Some (Some h) ->
  exists h', hs' !! i = Some (Some h').
Proof.
  revert hs' i. induction hs as [|o hs IH]; intros [|o' hs'] [|i] Hs Hi;
    try discriminate.
  - simpl in Hi. inversion Hi; subst o. simpl in Hs.
    destruct o' as [h'|]; [now exists h' | discriminate].
  - simpl in Hs. inversion Hs. now apply (IH hs' i).
Qed.

(** One metric submission, on a sender that has its metric slot. *)
Lemma SendMetric_effect w name value ts source tags :
  is_Some (handlers (this w) !! metricHandler) ->
  exists r w',
    SendMetric name value ts source tags w = Some (r, w') /\
    untouchedBut metricHandler w w' /\
    (handlers (this w) !! metricHandler = Some None -> w' = w) /\
    exists cs, calls w' = calls w ++ cs /\ forallb submissionCall cs = true /\
               Forall (fun q => fst q = metricHandler) (handedOver cs).
Proof.
  intros [[h|] Hslot]; rewrite SendMetric_submit.
  - destruct (submitted w metricHandler h CallMetricLine
                (MetricLine name value ts source tags)) as [r w'] eqn:Hsub.
    assert (Hrun : submit metricHandler
                     "proxy metrics port not provided, cannot send metric data"
                     CallMetricLine (MetricLine name value ts source tags) w
                   = Some (r, w'))
      by (now rewrite (submit_run _ _ _ _ _ _ Hslot), Hsub).
    exists r, w'. split; [exact Hrun|].
    destruct (submit_effect _ _ _ _ _ _ _ Hrun eq_refl eq_refl)
      as (Hu & _ & cs & Hcs & Hall & _ & Hslots).
    split; [exact Hu|].
    split; [intros Hnil; rewrite Hslot in Hnil; discriminate|].
    now exists cs.
  - rewrite (submit_nil _ _ _ _ _ Hslot). eexists _, w.
    split; [reflexivity|].
    split; [apply untouchedBut_refl|].
    split; [reflexivity|].
    exists []. rewrite app_nil_r. repeat split; auto; constructor.
Qed.

(** One point of a report. *)
Lemma reportPoint_effect w (p : internal.Point) :
  is_Some (handlers (this w) !! metricHandler) ->
  exists w',
    reportPoint p w = Some (tt, w') /\
    untouchedBut metricHandler w w' /\
    (handlers (this w) !! metricHandler = Some None -> w' = w) /\
    exists cs, calls w' = calls w ++ cs /\ forallb submissionCall cs = true /\
               Forall (fun q => fst q = metricHandler) (handedOver cs).
Proof.
  intros Hslot.
  assert (Hsame : exists w',
            Some (tt, w) = Some (tt, w') /\
            untouchedBut metricHandler w w' /\
            (handlers (this w) !! metricHandler = Some None -> w' = w) /\
            exists cs, calls w' = calls w ++ cs /\ forallb submissionCall cs = true /\
                       Forall (fun q => fst q = metricHandler) (handedOver cs)).
  { exists w. split; [reflexivity|].
    split; [apply untouchedBut_refl|].
    split; [reflexivity|].
    exists []. rewrite app_nil_r. repeat split; auto; constructor. }
  assert (Hmetric : forall name,
            exists w',
              bind (SendMetric name (internal.pointValue p) ReportTime ReportSource
                      (list_to_map (internal.pointTags p)))
                (fun _ => ret tt) w = Some (tt, w') /\
              untouchedBut metricHandler w w' /\
              (handlers (this w) !! metricHandler = Some None -> w' = w) /\
              exists cs, calls w' = calls w ++ cs /\ forallb submissionCall cs = true /\
                         Forall (fun q => fst q = metricHandler) (handedOver cs)).
  { intros name.
    destruct (SendMetric_effect w name (internal.pointValue p) ReportTime ReportSource
                (list_to_map (internal.pointTags p)) Hslot)
      as (r & w' & Hrun & Hrest).
    exists w'. unfold bind. rewrite Hrun. split; [reflexivity | exact Hrest]. }
  unfold reportPoint.
  destruct (internal.pointDelta p); [|apply Hmetric].
  unfold bind at 1, SendDeltaCounter.
  destruct (String.eqb _ ""); [exact Hsame|].
  destruct (Go.float_gt _ Go.float_zero); [apply Hmetric | exact Hsame].
Qed.

(** A whole report: it runs to its end whatever the points do, changes
    the metric handler alone and makes submission calls alone; with no
    metric handler every point fails and nothing changes. *)
Lemma report_effect (ps : list internal.Point) w :
  is_Some (handlers (this w) !! metricHandler) ->
  exists w',
    report ps w = Some (tt, w') /\
    untouchedBut metricHandler w w' /\
    (handlers (this w) !! metricHandler = Some None -> w' = w) /\
    exists cs, calls w' = calls w ++ cs /\ forallb submissionCall cs = true /\
               Forall (fun q => fst q = metricHandler) (handedOver cs).
Proof.
  revert w. induction ps as [|p ps IH]; intros w Hslot.
  - exists w. split; [reflexivity|].
    split; [apply untouchedBut_refl|].
    split; [reflexivity|].
    exists []. rewrite app_nil_r. repeat split; auto; constructor.
  - destruct (reportPoint_effect w p Hslot)
      as (w1 & Hrun1 & Hu1 & Hnil1 & cs1 & Hcs1 & Hall1 & Hslots1).
    destruct (IH w1 (untouchedBut_slot _ _ _ _ Hu1 Hslot))
      as (w' & Hrun & Hu & Hnil & cs & Hcs & Hall & Hslots).
    exists w'. cbn [report]. unfold bind at 1. rewrite Hrun1.
    split; [exact Hrun|].
    split; [now apply (untouchedBut_trans _ _ w1)|].
    split.
    + intros Hnone. rewrite <- (Hnil1 Hnone). apply Hnil.
      now rewrite (Hnil1 Hnone).
    + exists (cs1 ++ cs).
      split; [rewrite Hcs, Hcs1; now rewrite app_assoc|].
      split; [rewrite forallb_app, Hall1, Hall; reflexivity|].
      unfold handedOver in *. rewrite omap_app. now apply Forall_app.
Qed.

(** What [Close] does, on a sender that has its slots and its registry. *)
Lemma Close_effect w r :
  wellFormed (this w) = true ->
  internalRegistry (this w) = Some r ->
  exists w',
    Close w = Some (tt, w') /\
    report (fst (internal.RegistryStop r)) (closing w r) = Some (tt, w') /\
    untouchedBut metricHandler (closing w r) w' /\
    (handlers (this w) !! metricHandler = Some None -> w' = closing w r) /\
    exists cs,
      calls w' = calls w ++ slotCalls CallClose 0 (handlers (this w))
                         ++ [CallRegistryStop] ++ cs /\
      forallb submissionCall cs = true /\
      Forall (fun q => fst q = metricHandler) (handedOver cs).
Proof.
  intros Hwf Hr.
  assert (Hlen : length (handlers (this w)) = handlersCount)
    by (now apply andb_prop in Hwf as [Hlen%Nat.eqb_eq _]).
  assert (Hslot : is_Some (handlers (this (closing w r)) !! metricHandler)).
  { apply lookup_lt_is_Some. unfold closing. cbn [this handlers set_internalRegistry
      set_handlers]. rewrite length_map, Hlen. unfold metricHandler, handlersCount. lia. }
  destruct (report_effect (fst (internal.RegistryStop r)) (closing w r) Hslot)
    as (w' & Hrun & Hu & Hnil & cs & Hcs & Hall & Hslots).
  exists w'. rewrite (Close_run _ _ Hr).
  split; [exact Hrun|]. split; [exact Hrun|]. split; [exact Hu|].
  split.
  - intros Hnone. apply Hnil. unfold closing.
    cbn [this handlers set_internalRegistry set_handlers].
    now rewrite list_lookup_fmap, Hnone.
  - exists cs. split; [|split; assumption].
    rewrite Hcs. unfold closing. cbn [calls]. now rewrite <- !app_assoc.
Qed.

(** X8.  [Close] closes every configured handler once, in slot order,
    and then stops the registry, whose final report comes last, through
    the sender and after the handlers were closed.  That report runs to
    its end and consists of metric submissions: the calls after the
    registry's [Stop] are connects, encodings and sends, and lines go to
    the metric handler alone.  So every other slot holds its handler as
    [Close] left it, and no slot is reset to [nil].  With no metric
    handler the report fails point by point and changes nothing. *)
Theorem Close_all w r :
  wellFormed (this w) = true ->
  internalRegistry (this w) = Some r ->
  exists w',
    Close w = Some (tt, w') /\
    report (fst (internal.RegistryStop r)) (closing w r) = Some (tt, w') /\
    untouchedBut metricHandler (closing w r) w' /\
    (handlers (this w) !! metricHandler = Some None -> w' = closing w r) /\
    exists cs,
      calls w' = calls w ++ slotCalls CallClose 0 (handlers (this w))
                         ++ [CallRegistryStop] ++ cs /\
      forallb submissionCall cs = true /\
      Forall (fun q => fst q = metricHandler) (handedOver cs).
Proof. intros Hwf Hr. exact (Close_effect w r Hwf Hr). Qed.

Lemma Flush_run w :
  exists r,
    Flush w
    = Some (r, withHandlers w
                 (map (fmap (fun h => snd (internal.Flush h))) (handlers (this w)))
                 (slotCalls CallFlush 0 (handlers (this w)))).
Proof.
  unfold Flush.
  unfold bind at 1. rewrite field_run.
  unfold bind at 1.
  rewrite (rangeHandlers_invoke string (option Go.error) CallFlush internal.Flush
             (fun a r => match r with
                         | Some e => a +:+ e +:+ Go.nl
                         | None => a
                         end) _) with (done := []) by
    first [ reflexivity
          | intros i acc w' h' Hi; unfold bind;
            rewrite (invoke_run _ _ _ _ _ _ Hi);
            now destruct (fst (internal.Flush h')) ].
  destruct (negb _); eexists; reflexivity.
Qed.

(** ** The invariant of a constructed sender *)

Lemma wellFormed_parts (s : proxySender H) :
  wellFormed s = true ->
  length (handlers s) = handlersCount /\ exists r, internalRegistry s = Some r.
Proof.
  unfold wellFormed. intros Hwf. apply andb_prop in Hwf as [Hlen Hreg].
  apply Nat.eqb_eq in Hlen. split; [exact Hlen|].
  destruct (internalRegistry s) as [r|]; [now exists r | discriminate].
Qed.

Lemma wellFormed_slot (s : proxySender H) (i : nat) :
  wellFormed s = true -> (i < handlersCount)%nat ->
  exists o, handlers s !! i = Some o.
Proof.
  intros Hwf Hi. destruct (wellFormed_parts s Hwf) as [Hlen _].
  apply lookup_lt_is_Some. now rewrite Hlen.
Qed.

Lemma wellFormed_untouched i w w' :
  wellFormed (this w) = true -> untouchedBut i w w' ->
  wellFormed (this w') = true /\ shape (handlers (this w')) = shape (handlers (this w)).
Proof.
  intros Hwf (Hf & Hs & _). split; [|exact Hs].
  unfold wellFormed in *.
  rewrite (shape_length _ _ Hs).
  replace (internalRegistry (this w')) with (internalRegistry (this w)); [exact Hwf|].
  rewrite <- Hf. reflexivity.
Qed.

Lemma wellFormed_mapped w (f : H -> H) (reg : internal.MetricRegistry) cs :
  wellFormed (this w) = true ->
  let w' := {| this := set_internalRegistry (Some reg)
                         (set_handlers (map (fmap f) (handlers (this w))) (this w));
               calls := cs |} in
  wellFormed (this w') = true /\ shape (handlers (this w')) = shape (handlers (this w)).
Proof.
  intros Hwf w'. destruct (wellFormed_parts _ Hwf) as [Hlen _].
  split; [|apply shape_fmap].
  unfold wellFormed. simpl. now rewrite length_map, Hlen.
Qed.

Lemma submit_total w i missing c enc :
  wellFormed (this w) = true -> (i < handlersCount)%nat ->
  exists r w', submit i missing c enc w = Some (r, w').
Proof.
  intros Hwf Hi. destruct (wellFormed_slot _ _ Hwf Hi) as [[h|] Hslot].
  - rewrite (submit_run _ _ _ _ _ _ Hslot).
    destruct (submitted w i h c enc) as [r w']. now exists r, w'.
  - rewrite (submit_nil _ _ _ _ _ Hslot). now eexists _, _.
Qed.

Lemma SendSpan_total w name startMillis durationMillis source traceId spanId parents
    followsFrom tags spanLogs :
  wellFormed (this w) = true ->
  exists r w',
    SendSpan name startMillis durationMillis source traceId spanId parents followsFrom
      tags spanLogs w = Some (r, w').
Proof.
  intros Hwf. rewrite SendSpan_submit. unfold bind.
  destruct (submit_total w spanHandler
              "proxy tracing port not provided, cannot send span data" CallSpanLine
              (SpanLine name startMillis durationMillis source traceId spanId parents
                 followsFrom tags spanLogs) Hwf)
    as (r1 & w1 & Hsub); [unfold spanHandler, handlersCount; lia|].
  rewrite Hsub.
  destruct (submit_effect _ _ _ _ _ _ _ Hsub eq_refl eq_refl) as (_ & Hconf & _).
  destruct r1 as [e|]; [now eexists _, _|].
  destruct (Hconf eq_refl) as [h' Hslot'].
  rewrite (sendSpanLogs_run _ _ _ _ _ Hslot').
  match goal with
  | |- exists r w', Some ?x = Some (r, w') => exists (fst x), (snd x); now destruct x
  end.
Qed.

(** One call on a well-formed sender. *)
Lemma perform_wellFormed w (a : APICall) :
  wellFormed (this w) = true ->
  exists w', perform a w = Some (tt, w') /\
             wellFormed (this w') = true /\
             shape (handlers (this w')) = shape (handlers (this w)).
Proof.
  intros Hwf.
  destruct (wellFormed_parts _ Hwf) as [Hlen [reg Hreg]].
  assert (Hsame : wellFormed (this w) = true
                  /\ shape (handlers (this w)) = shape (handlers (this w)))
    by (split; [exact Hwf | reflexivity]).
  assert (Hmetric : forall name value ts source tags,
            exists w', bind (SendMetric name value ts source tags) (fun _ => ret tt) w
                       = Some (tt, w') /\
                       wellFormed (this w') = true /\
                       shape (handlers (this w')) = shape (handlers (this w))).
  { intros name value ts source tags. unfold bind. rewrite SendMetric_submit.
    destruct (submit_total w metricHandler
                "proxy metrics port not provided, cannot send metric data" CallMetricLine
                (MetricLine name value ts source tags) Hwf)
      as (r & w' & Hsub); [unfold metricHandler, handlersCount; lia|].
    rewrite Hsub. exists w'. split; [reflexivity|].
    apply (wellFormed_untouched metricHandler w w' Hwf).
    apply (submit_effect _ _ _ _ _ _ _ Hsub eq_refl eq_refl). }
  destruct a as [name value ts source tags | name value ts source tags
                | name centroids hgs ts source tags
                | name startMillis durationMillis source traceId spanId parents followsFrom
                    tags spanLogs
                | name startMillis endMillis source tags setters | | | | ];
    simpl perform.
  - apply Hmetric.
  - unfold bind, SendDeltaCounter.
    destruct (String.eqb name ""); [now exists w|].
    destruct (Go.float_gt value Go.float_zero); [apply Hmetric | now exists w].
  - unfold bind. rewrite SendDistribution_submit.
    destruct (submit_total w histoHandler
                "proxy distribution port not provided, cannot send distribution data"
                CallHistoLine (HistoLine name centroids hgs ts source tags) Hwf)
      as (r & w' & Hsub); [unfold histoHandler, handlersCount; lia|].
    rewrite Hsub. exists w'. split; [reflexivity|].
    apply (wellFormed_untouched histoHandler w w' Hwf).
    apply (submit_effect _ _ _ _ _ _ _ Hsub eq_refl eq_refl).
  - unfold bind.
    destruct (SendSpan_total w name startMillis durationMillis source traceId spanId
                parents followsFrom tags spanLogs Hwf) as (r & w' & Hrun).
    rewrite Hrun. exists w'. split; [reflexivity|].
    apply (wellFormed_untouched spanHandler w w' Hwf).
    apply (SendSpan_effect _ _ _ _ _ _ _ _ _ _ _ _ _ Hrun).
  - unfold bind. rewrite SendEvent_submit.
    destruct (submit_total w eventHandler
                "proxy events port not provided, cannot send events data" CallEventLine
                (fun _ => EventLine name startMillis endMillis source tags setters) Hwf)
      as (r & w' & Hsub); [unfold eventHandler, handlersCount; lia|].
    rewrite Hsub. exists w'. split; [reflexivity|].
    apply (wellFormed_untouched eventHandler w w' Hwf).
    apply (submit_effect _ _ _ _ _ _ _ Hsub eq_refl eq_refl).
  - rewrite (Start_run _ _ Hreg). eexists. split; [reflexivity|].
    apply (wellFormed_mapped w internal.Start _ _ Hwf).
  - unfold bind. destruct (Flush_run w) as [r Hrun]. rewrite Hrun.
    eexists. split; [reflexivity|].
    unfold withHandlers. simpl. split; [|apply shape_fmap].
    unfold wellFormed. simpl. now rewrite length_map, Hlen, Hreg.
  - unfold bind. rewrite GetFailureCount_run. now exists w.
  - destruct (Close_effect w reg Hwf Hreg) as (w' & Hrun & _ & Hu & _).
    exists w'. split; [exact Hrun|].
    destruct (wellFormed_mapped w internal.Close (snd (internal.RegistryStop reg))
                (calls (closing w reg)) Hwf) as [Hwf1 Hs1].
    destruct (wellFormed_untouched metricHandler (closing w reg) w' Hwf1 Hu) as [Hwf' Hs'].
    split; [exact Hwf'|]. rewrite Hs'. exact Hs1.
Qed.

(** X9.  The invariant of the sender and what it buys.  On a sender that
    has its four slots and its registry, any sequence of calls of its
    methods runs to the end with no run-time panic (no index out of
    range, no [nil] receiver); after it the sender still has its four
    slots and its registry, and the same slots hold a handler: a category
    that was configured stays configured, also after [Close], and one that
    was not is never given a handler. *)
Theorem calls_keep_wellFormed w (acts : list APICall) :
  wellFormed (this w) = true ->
  exists w', performAll acts w = Some (tt, w') /\
             wellFormed (this w') = true /\
             shape (handlers (this w')) = shape (handlers (this w)).
Proof.
  revert w. induction acts as [|a acts IH]; intros w Hwf.
  - exists w. repeat split; auto.
  - destruct (perform_wellFormed w a Hwf) as (w1 & Hrun & Hwf1 & Hs1).
    destruct (IH w1 Hwf1) as (w' & Hrest & Hwf' & Hs').
    exists w'. simpl. unfold bind. rewrite Hrun.
    split; [exact Hrest|]. split; [exact Hwf'|]. congruence.
Qed.

(** X10.  The constructor establishes that invariant.  The sender it
    returns has [handlersCount] slots and a registry, and a slot holds a
    handler exactly when its port is not zero. *)
Theorem NewProxySender_wellFormed (cfg cfg' : ProxyConfiguration) (s : proxySender H)
    (e : option Go.error) cs :
  NewProxySender cfg = Some ((Some s, e), cfg', cs) ->
  wellFormed s = true /\
  shape (handlers s) = map (fun p => negb (p =? 0)) (ports cfg).
Proof.
  intros Hnew. apply NewProxySender_sender in Hnew as (-> & _ & _).
  rewrite <- (ports_defaulted cfg).
  generalize (defaulted cfg) as c. intros c.
  unfold startedSender, wellFormed, builtFor, ports. simpl.
  split; [reflexivity|].
  destruct (MetricsPort c =? 0); destruct (DistributionPort c =? 0);
    destruct (TracingPort c =? 0); destruct (EventsPort c =? 0); reflexivity.
Qed.

(** X11.  [Close] leaves the handlers in their slots.  After [Close] the
    slot of a configured category still holds a handler, so the sender
    itself does not refuse a later [SendMetric], [SendDistribution] or
    [SendEvent] with the "port not provided" error: the call runs its
    ordinary steps on that handler (connect if the handler says it is not
    connected, encode, send), and whether it fails is left to the closed
    handler.  For a distribution and an event the handler is the one
    [Close] closed; the metric handler may also have served the
    registry's final report. *)
Theorem submission_after_Close w :
  wellFormed (this w) = true ->
  exists w1,
    Close w = Some (tt, w1) /\
    shape (handlers (this w1)) = shape (handlers (this w)) /\
    (forall h name value ts source tags,
       handlers (this w) !! metricHandler = Some (Some h) ->
       exists h1,
         handlers (this w1) !! metricHandler = Some (Some h1) /\
         SendMetric name value ts source tags w1
         = Some (submitted w1 metricHandler h1 CallMetricLine
                   (MetricLine name value ts source tags))) /\
    (forall h name centroids hgs ts source tags,
       handlers (this w) !! histoHandler = Some (Some h) ->
       SendDistribution name centroids hgs ts source tags w1
       = Some (submitted w1 histoHandler (internal.Close h) CallHistoLine
                 (HistoLine name centroids hgs ts source tags))) /\
    (forall h name startMillis endMillis source tags setters,
       handlers (this w) !! eventHandler = Some (Some h) ->
       SendEvent name startMillis endMillis source tags setters w1
       = Some (submitted w1 eventHandler (internal.Close h) CallEventLine
                 (fun _ => EventLine name startMillis endMillis source tags setters))).
Proof.
  intros Hwf.
  destruct (wellFormed_parts _ Hwf) as [_ [r Hr]].
  destruct (Close_effect w r Hwf Hr) as (w1 & Hrun & _ & Hu & _).
  destruct (wellFormed_mapped w internal.Close (snd (internal.RegistryStop r))
              (calls (closing w r)) Hwf) as [_ Hs0].
  destruct Hu as (_ & Hs1 & Hother).
  assert (Hshape : shape (handlers (this w1)) = shape (handlers (this w)))
    by (rewrite Hs1; exact Hs0).
  assert (Hclosed : forall i h,
            i <> metricHandler ->
            handlers (this w) !! i = Some (Some h) ->
            handlers (this w1) !! i = Some (Some (internal.Close h))).
  { intros i h Hi Hslot. rewrite (Hother i Hi). unfold closing.
    cbn [this handlers set_internalRegistry set_handlers].
    now rewrite list_lookup_fmap, Hslot. }
  exists w1. split; [exact Hrun|]. split; [exact Hshape|].
  split; [|split].
  - intros h name value ts source tags Hslot.
    destruct (shape_lookup _ _ _ _ Hshape Hslot) as [h1 Hslot1].
    exists h1. split; [exact Hslot1|].
    rewrite SendMetric_submit. now apply submit_run.
  - intros h name centroids hgs ts source tags Hslot.
    rewrite SendDistribution_submit. apply submit_run.
    apply Hclosed; [discriminate | exact Hslot].
  - intros h name startMillis endMillis source tags setters Hslot.
    rewrite SendEvent_submit. apply submit_run.
    apply Hclosed; [discriminate | exact Hslot].
Qed.

(** X12.  An explicit [Start] after the construction starts everything a
    second time.  The constructor has already called [Start]; [Start] has
    no guard of its own, so on the sender just returned it calls [Start]
    again on every handler built and on the registry. *)
Theorem Start_after_construction (cfg cfg' : ProxyConfiguration) (s : proxySender H)
    (e : option Go.error) cs :
  NewProxySender cfg = Some ((Some s, e), cfg', cs) ->
  exists w',
    Start {| this := s; calls := cs |} = Some (tt, w') /\
    handlers (this w')
    = map (fmap (fun h => internal.Start (internal.Start h)))
        (map (builtFor cfg') (ports cfg)) /\
    calls w' = cs ++ slotCalls CallStart 0 (map (builtFor cfg') (ports cfg))
                  ++ [CallRegistryStart] /\
    filter (fun x => armsTimer x = true) cs
    = slotCalls CallStart 0 (map (builtFor cfg') (ports cfg)) ++ [CallRegistryStart].
Proof.
  intros Hnew. apply NewProxySender_sender in Hnew as (-> & -> & ->).
  rewrite <- (ports_defaulted cfg).
  generalize (defaulted cfg) as c. intros c.
  rewrite (Start_run _ (internal.RegistryStart registryBuilt)) by reflexivity.
  eexists. split; [reflexivity|].
  rewrite constructionCalls_arming.
  unfold startedSender, builtFor, ports. simpl.
  destruct (MetricsPort c =? 0); destruct (DistributionPort c =? 0);
    destruct (TracingPort c =? 0); destruct (EventsPort c =? 0);
    repeat split; reflexivity.
Qed.

(** ** Independence of the categories *)

Lemma submitted_agree w v i h c enc :
  defaultSource (this v) = defaultSource (this w) ->
  exists r h' cs,
    submitted w i h c enc = (r, after w i h' cs) /\
    submitted v i h c enc = (r, after v i h' cs).
Proof.
  intros Hsrc. unfold submitted. rewrite Hsrc.
  destruct (ensureConnected h) as [[e|] h1]; [now eexists _, _, _|].
  destruct (enc (defaultSource (this w))) as [line [e|]]; now eexists _, _, _.
Qed.

Lemma submit_local i missing c enc :
  submissionCall c = true -> handedOver [c] = [] ->
  localAt i (submit i missing c enc).
Proof.
  intros Hc Hnot w v r w' [Hslots Hsrc] Hrun.
  split; [apply (submit_effect _ _ _ _ _ _ _ Hrun Hc Hnot)|].
  destruct (submit_cases _ _ _ _ _ _ _ Hrun) as [(Hslot & -> & ->) | (h & Hslot & Heq)].
  - rewrite <- Hslots in Hslot. exists v.
    split; [apply (submit_nil _ _ _ _ _ Hslot)|].
    split; [exact Hslots | apply untouchedBut_refl].
  - pose proof Hslot as Hslotv. rewrite <- Hslots in Hslotv.
    destruct (submitted_agree w v i h c enc Hsrc) as (r0 & h' & cs & Hw & Hv).
    rewrite Hw in Heq. inversion Heq; subst r w'.
    exists (after v i h' cs).
    split; [now rewrite (submit_run _ _ _ _ _ _ Hslotv), Hv|].
    split.
    + rewrite (after_lookup _ _ _ _ _ Hslot). apply (after_lookup _ _ _ _ _ Hslotv).
    + now apply (untouchedBut_after _ _ h).
Qed.

Lemma sendSpanLogs_local traceId spanId spanLogs w v r w' h :
  handlers (this w) !! spanHandler = Some (Some h) ->
  handlers (this v) !! spanHandler = Some (Some h) ->
  sendSpanLogs traceId spanId spanLogs w = Some (r, w') ->
  exists v', sendSpanLogs traceId spanId spanLogs v = Some (r, v') /\
             handlers (this v') !! spanHandler = handlers (this w') !! spanHandler /\
             untouchedBut spanHandler v v'.
Proof.
  intros Hw Hv Hrun.
  rewrite (sendSpanLogs_run _ _ _ _ _ Hw) in Hrun.
  rewrite (sendSpanLogs_run _ _ _ _ _ Hv).
  destruct spanLogs as [|l ls].
  - inversion Hrun; subst. exists v.
    split; [reflexivity|]. split; [congruence | apply untouchedBut_refl].
  - destruct (SpanLogJSON traceId spanId (l :: ls)) as [logs [e|]];
      inversion Hrun; subst; eexists; (split; [reflexivity|]);
      (split; [rewrite (after_lookup _ _ _ _ _ Hw); apply (after_lookup _ _ _ _ _ Hv)
              | now apply (untouchedBut_after _ _ h)]).
Qed.

Lemma untouchedBut_source i w w' :
  untouchedBut i w w' -> defaultSource (this w') = defaultSource (this w).
Proof. intros (Hf & _ & _). rewrite <- Hf. reflexivity. Qed.

Lemma SendSpan_local name startMillis durationMillis source traceId spanId parents
    followsFrom tags spanLogs :
  localAt spanHandler
    (SendSpan name startMillis durationMillis source traceId spanId parents followsFrom
       tags spanLogs).
Proof.
  intros w v r w' Hagree Hrun.
  split; [apply (SendSpan_effect _ _ _ _ _ _ _ _ _ _ _ _ _ Hrun)|].
  rewrite SendSpan_submit in Hrun. rewrite SendSpan_submit.
  unfold bind in *.
  destruct (submit _ _ _ _ w) as [[r1 w1]|] eqn:Hsub; [|discriminate].
  destruct (submit_local spanHandler
              "proxy tracing port not provided, cannot send span data" CallSpanLine
              (SpanLine name startMillis durationMillis source traceId spanId parents
                 followsFrom tags spanLogs) eq_refl eq_refl w v r1 w1 Hagree Hsub)
    as (_ & v1 & Hsubv & Hsame1 & Hu1).
  rewrite Hsubv.
  destruct (submit_effect _ _ _ _ _ _ _ Hsub eq_refl eq_refl) as (_ & Hconf & _).
  destruct r1 as [e|].
  - inversion Hrun; subst. exists v1.
    split; [reflexivity|]. split; assumption.
  - destruct (Hconf eq_refl) as [h' Hslot'].
    assert (Hslotv : handlers (this v1) !! spanHandler = Some (Some h')) by congruence.
    destruct (sendSpanLogs_local _ _ _ _ _ _ _ _ Hslot' Hslotv Hrun)
      as (v' & Hrunv & Hsame2 & Hu2).
    exists v'. split; [exact Hrunv|]. split; [exact Hsame2|].
    now apply (untouchedBut_trans _ _ v1).
Qed.

Lemma ret_local (A : Type) (i : nat) (a : A) : localAt i (ret (H:=H) a).
Proof.
  intros w v r w' [Hslots _] Hrun. inversion Hrun; subst.
  split; [apply untouchedBut_refl|].
  exists v. split; [reflexivity|]. split; [exact Hslots | apply untouchedBut_refl].
Qed.

Lemma localAt_ext (A : Type) (i : nat) (m m' : M (H:=H) A) :
  (forall w, m w = m' w) -> localAt i m' -> localAt i m.
Proof.
  intros Hext Hloc w v r w' Hagree Hrun. rewrite Hext in Hrun.
  destruct (Hloc w v r w' Hagree Hrun) as (Hu & v' & Hv & Hrest).
  split; [exact Hu|]. exists v'. now rewrite Hext.
Qed.

(** Every submission is local to the slot of its category. *)
Lemma submission_local (a : APICall) i m :
  submission a = Some (i, m) -> localAt i m.
Proof.
  destruct a; simpl; intros Heq; inversion Heq; subst; clear Heq.
  - apply (localAt_ext _ _ _ _ (fun w => SendMetric_submit w _ _ _ _ _)).
    now apply submit_local.
  - unfold SendDeltaCounter.
    destruct (String.eqb name ""); [apply ret_local|].
    destruct (Go.float_gt value Go.float_zero); [|apply ret_local].
    apply (localAt_ext _ _ _ _ (fun w => SendMetric_submit w _ _ _ _ _)).
    now apply submit_local.
  - apply (localAt_ext _ _ _ _ (fun w => SendDistribution_submit w _ _ _ _ _ _)).
    now apply submit_local.
  - apply SendSpan_local.
  - apply (localAt_ext _ _ _ _ (fun w => SendEvent_submit w _ _ _ _ _ _)).
    now apply submit_local.
Qed.

Lemma submission_total w (a : APICall) i m :
  submission a = Some (i, m) -> wellFormed (this w) = true ->
  exists r w', m w = Some (r, w').
Proof.
  intros Hsub Hwf.
  destruct a; simpl in Hsub; inversion Hsub; subst; clear Hsub.
  - rewrite SendMetric_submit.
    apply submit_total; [exact Hwf | unfold metricHandler, handlersCount; lia].
  - unfold SendDeltaCounter.
    destruct (String.eqb name ""); [now eexists _, _|].
    destruct (Go.float_gt value Go.float_zero); [|now eexists _, _].
    rewrite SendMetric_submit.
    apply submit_total; [exact Hwf | unfold metricHandler, handlersCount; lia].
  - rewrite SendDistribution_submit.
    apply submit_total; [exact Hwf | unfold histoHandler, handlersCount; lia].
  - now apply SendSpan_total.
  - rewrite SendEvent_submit.
    apply submit_total; [exact Hwf | unfold eventHandler, handlersCount; lia].
Qed.

Lemma untouchedBut_this i w w' :
  untouchedBut i w w' -> this w' = set_handlers (handlers (this w')) (this w).
Proof.
  intros (Hf & _ & _). rewrite <- Hf.
  now destruct (this w').
Qed.

Lemma untouchedBut_agree i j w w' :
  i <> j -> untouchedBut i w w' -> agree j w w'.
Proof.
  intros Hij Hu. split; [|now apply (untouchedBut_source i)].
  destruct Hu as (_ & _ & Hothers). apply Hothers. congruence.
Qed.

Lemma untouchedBut_twice i j w w1 w2 :
  untouchedBut i w w1 -> untouchedBut j w1 w2 ->
  this w2 = set_handlers (handlers (this w2)) (this w).
Proof.
  intros Hu1 Hu2.
  pose proof (untouchedBut_this _ _ _ Hu1) as E1.
  pose proof (untouchedBut_this _ _ _ Hu2) as E2.
  rewrite E2, E1. reflexivity.
Qed.

(** X15.  Submissions of different categories do not interfere.  On a
    well-formed sender, two submissions whose categories differ return the
    same two results in either order, and the sender ends in the same
    state: only the order of the recorded calls differs. *)
Theorem submissions_commute w (a b : APICall) i j ma mb :
  submission a = Some (i, ma) -> submission b = Some (j, mb) -> i <> j ->
  wellFormed (this w) = true ->
  exists ra rb wab wba,
    bind ma (fun x => bind mb (fun y => ret (x, y))) w = Some ((ra, rb), wab) /\
    bind mb (fun y => bind ma (fun x => ret (x, y))) w = Some ((ra, rb), wba) /\
    this wab = this wba.
Proof.
  intros Ha Hb Hij Hwf.
  pose proof (submission_local a i ma Ha) as Hla.
  pose proof (submission_local b j mb Hb) as Hlb.
  destruct (submission_total w a i ma Ha Hwf) as (ra & wa & Hra).
  destruct (submission_total w b j mb Hb Hwf) as (rb & wb & Hrb).
  assert (Hw : agree i w w /\ agree j w w) by (repeat split).
  destruct Hw as [Hwi Hwj].
  destruct (Hla w w ra wa Hwi Hra) as (Hua & _).
  destruct (Hlb w w rb wb Hwj Hrb) as (Hub & _).
  destruct (Hlb w wa rb wb (untouchedBut_agree i j w wa Hij Hua) Hrb)
    as (_ & wab & Hrab & Hjab & Huab).
  destruct (Hla w wb ra wa (untouchedBut_agree j i w wb (not_eq_sym Hij) Hub) Hra)
    as (_ & wba & Hrba & Hiba & Huba).
  exists ra, rb, wab, wba.
  split; [unfold bind; now rewrite Hra, Hrab|].
  split; [unfold bind; now rewrite Hrb, Hrba|].
  rewrite (untouchedBut_twice i j w wa wab Hua Huab).
  rewrite (untouchedBut_twice j i w wb wba Hub Huba).
  assert (Hlist : handlers (this wab) = handlers (this wba)).
  { apply list_eq. intros k.
    destruct Hua as (_ & _ & Hoa). destruct Hub as (_ & _ & Hob).
    destruct Huab as (_ & _ & Hoab). destruct Huba as (_ & _ & Hoba).
    destruct (decide (k = j)) as [-> | Hkj].
    - rewrite Hjab. symmetry. now apply Hoba, not_eq_sym.
    - rewrite (Hoab k Hkj).
      destruct (decide (k = i)) as [-> | Hki].
      + now rewrite Hiba.
      + rewrite (Hoa k Hki). symmetry.
        rewrite (Hoba k Hki). now apply Hob. }
  rewrite Hlist. reflexivity.
Qed.

(** ** More on the construction *)


(** X14.  The flush interval reaches the transports in nanoseconds.  For a
    number of seconds of at most 9223372036 in absolute value (292 years),
    every transport built by the constructor gets the interval of the
    configuration after defaulting, times 10^9, with no wrap-around. *)
Theorem NewProxySender_interval (cfg cfg' : ProxyConfiguration)
    (r : option (proxySender H) * option Go.error) cs :
  NewProxySender cfg = Some (r, cfg', cs) ->
  - 9223372036 <= FlushIntervalSeconds cfg' <= 9223372036 ->
  Forall (fun b => snd b = 1000000000 * FlushIntervalSeconds cfg') (builtHandlers cs).
Proof.
  rewrite NewProxySender_run.
  intros Hnew Hfit.
  assert (Hexact : Go.mul64 Go.Second (FlushIntervalSeconds cfg')
                   = 1000000000 * FlushIntervalSeconds cfg').
  { unfold Go.mul64, Go.Second. apply wrap64_small. lia. }
  destruct (forallb _ _); inversion Hnew; subst; [constructor|].
  rewrite constructionCalls_built.
  unfold ports, builtPair. cbn [flat_map].
  destruct (MetricsPort (defaulted cfg) =? 0);
    destruct (DistributionPort (defaulted cfg) =? 0);
    destruct (TracingPort (defaulted cfg) =? 0);
    destruct (EventsPort (defaulted cfg) =? 0);
    repeat constructor; exact Hexact.
Qed.

End FurtherProperties.

(** * Runs on the sample collector *)

Import sample.

(** The sample transport keeps what the spec asks of closing: [close] is
    idempotent, and a closed transport stays closed, it refuses to connect
    and is not started again. *)
Lemma close_idempotent (h : ProxyConnectionHandler) : close (close h) = close h.
Proof.
  unfold close. destruct (closed h) eqn:Hc; cbn [closed]; [now rewrite Hc | reflexivity].
Qed.

Lemma close_final (h : ProxyConnectionHandler) :
  connect (close h) = (Some "connection handler is closed", close h) /\
  start (close h) = close h.
Proof.
  unfold connect, start, close.
  destruct (closed h) eqn:Hc; cbn [closed]; [now rewrite Hc | split; reflexivity].
Qed.

(** C1, the claim as stated fails: on the sender built for the tracing
    port alone, which has no metric handler, a delta counter of -1 returns
    no error at all, and a delta counter with an empty name returns the
    error of the name, not one about the port. *)
Lemma SendDeltaCounter_not_configured :
  handlers (this (worldOf tracingOnly)) !! metricHandler = Some None /\
  SendDeltaCounter "requests" minusOne 0 "" ∅ (worldOf tracingOnly)
  = Some (None, worldOf tracingOnly) /\
  SendDeltaCounter "" one 0 "" ∅ (worldOf tracingOnly)
  = Some (Some "empty metric name", worldOf tracingOnly).
Proof.
  split; [vm_compute; reflexivity|].
  split; vm_compute; reflexivity.
Qed.

(** C1 (amended) at work: the sender built for the metric port alone
    refuses a distribution, a span and an event; the one built for the
    tracing port alone refuses a metric and a delta counter of 1, and
    lets a delta counter of -1 pass with no error. *)
Lemma submission_not_configured_witness :
  (handlers (this (worldOf tracingOnly)) !! metricHandler = Some None /\
   SendMetric "cpu.load" one 0 "" ∅ (worldOf tracingOnly)
   = Some (Some "proxy metrics port not provided, cannot send metric data",
           worldOf tracingOnly)) /\
  (handlers (this (worldOf metricsOnly)) !! histoHandler = Some None /\
   SendDistribution "latency" [(one, 1)] [] 0 "" ∅ (worldOf metricsOnly)
   = Some (Some "proxy distribution port not provided, cannot send distribution data",
           worldOf metricsOnly)) /\
  (handlers (this (worldOf metricsOnly)) !! spanHandler = Some None /\
   SendSpan "op" 0 10 "" "t1" "s1" [] [] [] [] (worldOf metricsOnly)
   = Some (Some "proxy tracing port not provided, cannot send span data",
           worldOf metricsOnly)) /\
  (handlers (this (worldOf metricsOnly)) !! eventHandler = Some None /\
   SendEvent "deploy" 0 1 "" ∅ [] (worldOf metricsOnly)
   = Some (Some "proxy events port not provided, cannot send events data",
           worldOf metricsOnly)) /\
  (SendDeltaCounter "requests" one 0 "" ∅ (worldOf tracingOnly)
   = Some (if String.eqb "requests" ""
           then Some "empty metric name"
           else if Go.float_gt one Go.float_zero
                then Some "proxy metrics port not provided, cannot send metric data"
                else None,
           worldOf tracingOnly) /\
   SendDeltaCounter "requests" minusOne 0 "" ∅ (worldOf tracingOnly)
   = Some (if String.eqb "requests" ""
           then Some "empty metric name"
           else if Go.float_gt minusOne Go.float_zero
                then Some "proxy metrics port not provided, cannot send metric data"
                else None,
           worldOf tracingOnly)).
Proof.
  destruct (submission_not_configured (worldOf tracingOnly)) as (Hm & _ & _ & _ & Hd).
  destruct (submission_not_configured (worldOf metricsOnly)) as (_ & Hh & Hs & He & _).
  assert (Htracing : handlers (this (worldOf tracingOnly)) !! metricHandler = Some None)
    by (vm_compute; reflexivity).
  assert (Hhisto : handlers (this (worldOf metricsOnly)) !! histoHandler = Some None)
    by (vm_compute; reflexivity).
  assert (Hspan : handlers (this (worldOf metricsOnly)) !! spanHandler = Some None)
    by (vm_compute; reflexivity).
  assert (Hevent : handlers (this (worldOf metricsOnly)) !! eventHandler = Some None)
    by (vm_compute; reflexivity).
  split; [split; [exact Htracing | exact (Hm Htracing "cpu.load" one 0 "" ∅)]|].
  split; [split; [exact Hhisto | exact (Hh Hhisto "latency" [(one, 1)] [] 0 "" ∅)]|].
  split; [split; [exact Hspan | exact (Hs Hspan "op" 0 10 "" "t1" "s1" [] [] [] [])]|].
  split; [split; [exact Hevent | exact (He Hevent "deploy" 0 1 "" ∅ [])]|].
  split; [exact (Hd Htracing "requests" one 0 "" ∅)
         | exact (Hd Htracing "requests" minusOne 0 "" ∅)].
Defined.

(** C2 at work: a delta of -1 and a delta of 0 on a configured sender. *)
Lemma SendDeltaCounter_non_positive_witness :
  ("requests" <> EmptyString /\ Go.float_le minusOne Go.float_zero = true /\
   SendDeltaCounter "requests" minusOne 0 "" ∅ (worldOf metricsOnly)
   = Some (None, worldOf metricsOnly)) /\
  (Go.float_le Go.float_zero Go.float_zero = true /\
   SendDeltaCounter "requests" Go.float_zero 0 "" ∅ (worldOf metricsOnly)
   = Some (None, worldOf metricsOnly)).
Proof.
  assert (Hname : "requests" <> EmptyString) by discriminate.
  assert (Hneg : Go.float_le minusOne Go.float_zero = true) by (vm_compute; reflexivity).
  assert (Hzero : Go.float_le Go.float_zero Go.float_zero = true)
    by (vm_compute; reflexivity).
  split.
  - split; [exact Hname|]. split; [exact Hneg|].
    exact (SendDeltaCounter_non_positive (worldOf metricsOnly) "requests" minusOne 0 "" ∅
             Hname Hneg).
  - split; [exact Hzero|].
    exact (SendDeltaCounter_non_positive (worldOf metricsOnly) "requests" Go.float_zero
             0 "" ∅ Hname Hzero).
Defined.

(** C3 at work: the empty name, a name without the marker (it is sent
    with the marker in front), a name with it. *)
Lemma SendDeltaCounter_name_witness :
  SendDeltaCounter EmptyString one 0 "" ∅ (worldOf metricsOnly)
  = Some (Some "empty metric name", worldOf metricsOnly) /\
  (HasDeltaPrefix "requests" = false /\
   DeltaCounterName "requests" = deltaPrefix +:+ "requests" /\
   SendDeltaCounter "requests" one 0 "" ∅ (worldOf metricsOnly)
   = SendMetric (DeltaCounterName "requests") one 0 "" ∅ (worldOf metricsOnly)) /\
  (HasDeltaPrefix (deltaPrefix +:+ "requests") = true /\
   SendDeltaCounter (deltaPrefix +:+ "requests") one 0 "" ∅ (worldOf metricsOnly)
   = SendMetric (deltaPrefix +:+ "requests") one 0 "" ∅ (worldOf metricsOnly)).
Proof.
  assert (Hpos : Go.float_gt one Go.float_zero = true) by (vm_compute; reflexivity).
  assert (Hlacks : HasDeltaPrefix "requests" = false) by (vm_compute; reflexivity).
  assert (Hbears : HasDeltaPrefix (deltaPrefix +:+ "requests") = true)
    by (vm_compute; reflexivity).
  assert (Hname : "requests" <> EmptyString) by discriminate.
  assert (Hmarked : deltaPrefix +:+ "requests" <> EmptyString) by (vm_compute; discriminate).
  split; [|split].
  - exact (proj1 (SendDeltaCounter_name (worldOf metricsOnly) EmptyString one 0 "" ∅)
             eq_refl).
  - split; [exact Hlacks|]. split; [vm_compute; reflexivity|].
    exact (proj1 (proj2 (SendDeltaCounter_name (worldOf metricsOnly) "requests" one 0 "" ∅))
             Hname Hlacks Hpos).
  - split; [exact Hbears|].
    exact (proj2 (proj2 (SendDeltaCounter_name (worldOf metricsOnly)
                           (deltaPrefix +:+ "requests") one 0 "" ∅))
             Hmarked Hbears Hpos).
Defined.

(** C4 at work: trace "t1", span "s1", one malformed log entry.  The call
    returns the encoder's error; the primary line was handed over before
    and sits in the buffer of the transport. *)
Lemma SendSpan_with_logs_witness :
  handlers (this (worldOf tracingOnly)) !! spanHandler = Some (Some (tracer false [])) /\
  ensureConnected (tracer false []) = (None, tracer true []) /\
  SpanLine "op" 0 10 "" "t1" "s1" [] [] [] [EmptyString]
    (defaultSource (this (worldOf tracingOnly))) = (primaryLine, None) /\
  internal.SendData primaryLine (tracer true []) = (None, tracer true [primaryLine]) /\
  SendSpan "op" 0 10 "" "t1" "s1" [] [] [] [EmptyString] (worldOf tracingOnly)
  = Some (Some "malformed span log",
          after (worldOf tracingOnly) spanHandler (tracer true [primaryLine])
            [CallConnect spanHandler; CallSpanLine; CallSendData spanHandler primaryLine;
             CallSpanLogJSON]).
Proof.
  assert (Hslot : handlers (this (worldOf tracingOnly)) !! spanHandler
                  = Some (Some (tracer false [])))
    by (vm_compute; reflexivity).
  assert (Hconn : ensureConnected (tracer false []) = (None, tracer true []))
    by (vm_compute; reflexivity).
  assert (Hline : SpanLine "op" 0 10 "" "t1" "s1" [] [] [] [EmptyString]
                    (defaultSource (this (worldOf tracingOnly))) = (primaryLine, None))
    by (vm_compute; reflexivity).
  assert (Hsend : internal.SendData primaryLine (tracer true [])
                  = (None, tracer true [primaryLine]))
    by (vm_compute; reflexivity).
  pose proof (SendSpan_with_logs (worldOf tracingOnly) (tracer false []) (tracer true [])
                (tracer true [primaryLine]) primaryLine "op" 0 10 "" "t1" "s1" [] [] []
                [EmptyString] Hslot Hconn Hline Hsend) as Hrun.
  split; [exact Hslot|]. split; [exact Hconn|]. split; [exact Hline|].
  split; [exact Hsend|].
  by_run Hrun.
Defined.

(** C5 at work: no port at all, and the metric port alone. *)
Lemma NewProxySender_ports_witness :
  (Forall (fun p => p = 0) (ports noPort) /\
   exists cfg',
     NewProxySender noPort
     = Some ((None, Some "at least one proxy port should be enabled"), cfg', [])) /\
  (Exists (fun p => p <> 0) (ports metricsOnly) /\
   exists s cfg' cs,
     NewProxySender metricsOnly = Some ((Some s, None), cfg', cs) /\
     handlers s = map (fmap internal.Start) (map (builtFor cfg') (ports metricsOnly)) /\
     builtHandlers cs = flat_map (builtPair cfg') (ports metricsOnly)).
Proof.
  assert (Hzero : Forall (fun p => p = 0) (ports noPort))
    by (repeat constructor).
  assert (Hport : Exists (fun p => p <> 0) (ports metricsOnly))
    by (left; discriminate).
  split.
  - split; [exact Hzero|].
    exact (proj1 (NewProxySender_ports noPort) Hzero).
  - split; [exact Hport|].
    exact (proj2 (NewProxySender_ports metricsOnly) Hport).
Defined.

(** C6 at the failing input: the sender built for the metric port alone. *)
Lemma NewProxySender_counters_witness :
  NewProxySender metricsOnly
  = Some ((Some (startedSender (defaulted metricsOnly)), None),
          defaulted metricsOnly, constructionCalls (defaulted metricsOnly)) /\
  pointsDropped (startedSender (defaulted metricsOnly)) = None /\
  pointReportErrors (startedSender (defaulted metricsOnly)) = None /\
  pointsInvalid (startedSender (defaulted metricsOnly)) = Some 4%nat /\
  fourDistinct (metricCounters (startedSender (defaulted metricsOnly))) = false /\
  fourDistinct (histogramCounters (startedSender (defaulted metricsOnly))) = true.
Proof.
  assert (Hnew : NewProxySender metricsOnly
                 = Some ((Some (startedSender (defaulted metricsOnly)), None),
                         defaulted metricsOnly, constructionCalls (defaulted metricsOnly)))
    by (vm_compute; reflexivity).
  destruct (NewProxySender_counters metricsOnly _ _ _ _ Hnew)
    as (Hd & Hr & _ & Hi & Hfm & Hfh & _).
  split; [exact Hnew|].
  split; [exact Hd|].
  split; [exact Hr|].
  split; [by_run Hi|].
  split; [exact Hfm | exact Hfh].
Defined.



(** C8 at work: two transports that cannot transmit.  Both are flushed
    and count the failure, and the error carries both messages, one per
    line. *)
Lemma Flush_all_witness :
  forallb plain (flushErrors (handlers (this (failing 3 2)))) = true /\
  flushErrors (handlers (this (failing 3 2)))
  = ["error flushing data to metrics.invalid:2878";
     "error flushing data to histograms.invalid:2878"] /\
  fst <$> Flush (failing 3 2)
  = Some (Some ("error flushing data to metrics.invalid:2878" +:+ Go.nl
                +:+ "error flushing data to histograms.invalid:2878")) /\
  calls <$> (snd <$> Flush (failing 3 2)) = Some [CallFlush 0%nat; CallFlush 1%nat] /\
  failureSum <$> (handlers <$> (this <$> (snd <$> Flush (failing 3 2)))) = Some 7.
Proof.
  assert (Hplain : forallb plain (flushErrors (handlers (this (failing 3 2)))) = true)
    by (vm_compute; reflexivity).
  assert (Hne : flushErrors (handlers (this (failing 3 2))) <> [])
    by (vm_compute; discriminate).
  destruct (Flush_all (failing 3 2)) as (Hrun & _ & Hjoin).
  specialize (Hjoin Hplain Hne).
  split; [exact Hplain|].
  split; [vm_compute; reflexivity|].
  split; [by_run Hjoin|].
  rewrite Hrun.
  split; vm_compute; reflexivity.
Defined.

(** C9, the claim as stated fails: with 2^63 - 1 failures counted on the
    metric transport and 1 on the histogram transport the sum is 2^63,
    and [GetFailureCount] returns -2^63. *)
Lemma GetFailureCount_wraps :
  failureSum (handlers (this (failing (2 ^ 63 - 1) 1))) = 9223372036854775808 /\
  GetFailureCount (failing (2 ^ 63 - 1) 1)
  = Some (-9223372036854775808, failing (2 ^ 63 - 1) 1).
Proof. split; vm_compute; reflexivity. Qed.

(** C9 (amended) at work: 3 failures on the metric transport and 2 on
    the histogram transport give 5. *)
Lemma GetFailureCount_sum_witness :
  - 2 ^ 63 <= failureSum (handlers (this (failing 3 2))) < 2 ^ 63 /\
  failureSum (handlers (this (failing 3 2))) = 5 /\
  GetFailureCount (failing 3 2) = Some (5, failing 3 2).
Proof.
  assert (Hsum : failureSum (handlers (this (failing 3 2))) = 5)
    by (vm_compute; reflexivity).
  assert (Hfit : - 2 ^ 63 <= failureSum (handlers (this (failing 3 2))) < 2 ^ 63)
    by (rewrite Hsum; lia).
  pose proof (proj2 (GetFailureCount_sum (failing 3 2)) Hfit) as Hrun.
  split; [exact Hfit|].
  split; [exact Hsum|].
  by_run Hrun.
Defined.

(** * Further runs on the sample collector *)

(** A connection failure at work: no collector listens at the host of
    [offline]; a metric and a span both come back with the dial error. *)
Lemma submission_connect_failure_witness :
  (internal.Connected (transport "collector.invalid:2878" 1000000000 false []) = false /\
   internal.Connect (transport "collector.invalid:2878" 1000000000 false [])
   = (Some "dial tcp: connection refused",
      transport "collector.invalid:2878" 1000000000 false []) /\
   handlers (this (worldOf offline)) !! metricHandler
   = Some (Some (transport "collector.invalid:2878" 1000000000 false [])) /\
   SendMetric "cpu.load" one 0 "" ∅ (worldOf offline)
   = Some (Some "dial tcp: connection refused",
           after (worldOf offline) metricHandler
             (transport "collector.invalid:2878" 1000000000 false [])
             [CallConnect metricHandler])) /\
  (handlers (this (worldOf offline)) !! spanHandler
   = Some (Some (transport "collector.invalid:30001" 1000000000 false [])) /\
   SendSpan "op" 0 10 "" "t1" "s1" [] [] [] ["note"] (worldOf offline)
   = Some (Some "dial tcp: connection refused",
           after (worldOf offline) spanHandler
             (transport "collector.invalid:30001" 1000000000 false [])
             [CallConnect spanHandler])).
Proof.
  assert (Hoff : forall a, internal.Connected (transport a 1000000000 false []) = false)
    by reflexivity.
  assert (Hm : internal.Connect (transport "collector.invalid:2878" 1000000000 false [])
               = (Some "dial tcp: connection refused",
                  transport "collector.invalid:2878" 1000000000 false []))
    by (vm_compute; reflexivity).
  assert (Hs : internal.Connect (transport "collector.invalid:30001" 1000000000 false [])
               = (Some "dial tcp: connection refused",
                  transport "collector.invalid:30001" 1000000000 false []))
    by (vm_compute; reflexivity).
  assert (Hslotm : handlers (this (worldOf offline)) !! metricHandler
                   = Some (Some (transport "collector.invalid:2878" 1000000000 false [])))
    by (vm_compute; reflexivity).
  assert (Hslots : handlers (this (worldOf offline)) !! spanHandler
                   = Some (Some (transport "collector.invalid:30001" 1000000000 false [])))
    by (vm_compute; reflexivity).
  split.
  - split; [exact (Hoff _)|]. split; [exact Hm|]. split; [exact Hslotm|].
    exact (proj1 (submission_connect_failure (worldOf offline) _ _ _ (Hoff _) Hm)
             Hslotm "cpu.load" one 0 "" ∅).
  - split; [exact Hslots|].
    exact (proj1 (proj2 (proj2 (submission_connect_failure (worldOf offline) _ _ _
                                  (Hoff _) Hs)))
             Hslots "op" 0 10 "" "t1" "s1" [] [] [] ["note"]).
Defined.

(** An encoding failure at work: a metric with an empty name on the
    sender of [metricsOnly]; the transport is connected and holds no
    line. *)
Lemma submission_encoding_failure_witness :
  ensureConnected (transport "localhost:2878" 5000000000 false [])
  = (None, transport "localhost:2878" 5000000000 true []) /\
  handlers (this (worldOf metricsOnly)) !! metricHandler
  = Some (Some (transport "localhost:2878" 5000000000 false [])) /\
  MetricLine EmptyString one 0 "" ∅ (defaultSource (this (worldOf metricsOnly)))
  = (EmptyString, Some "empty metric name") /\
  SendMetric EmptyString one 0 "" ∅ (worldOf metricsOnly)
  = Some (Some "empty metric name",
          after (worldOf metricsOnly) metricHandler
            (transport "localhost:2878" 5000000000 true [])
            (connectCalls metricHandler (transport "localhost:2878" 5000000000 false [])
             ++ [CallMetricLine])).
Proof.
  assert (Hconn : ensureConnected (transport "localhost:2878" 5000000000 false [])
                  = (None, transport "localhost:2878" 5000000000 true []))
    by (vm_compute; reflexivity).
  assert (Hslot : handlers (this (worldOf metricsOnly)) !! metricHandler
                  = Some (Some (transport "localhost:2878" 5000000000 false [])))
    by (vm_compute; reflexivity).
  assert (Henc : MetricLine EmptyString one 0 "" ∅
                   (defaultSource (this (worldOf metricsOnly)))
                 = (EmptyString, Some "empty metric name"))
    by (vm_compute; reflexivity).
  split; [exact Hconn|]. split; [exact Hslot|]. split; [exact Henc|].
  exact (proj1 (submission_encoding_failure (worldOf metricsOnly) _ _ _ Hconn)
           Hslot EmptyString one 0 "" ∅ EmptyString Henc).
Defined.

(** One line at work: a metric on the sender of [metricsOnly] connects
    the transport and leaves its line in the buffer. *)
Lemma submission_sends_one_line_witness :
  ensureConnected (transport "localhost:2878" 5000000000 false [])
  = (None, transport "localhost:2878" 5000000000 true []) /\
  handlers (this (worldOf metricsOnly)) !! metricHandler
  = Some (Some (transport "localhost:2878" 5000000000 false [])) /\
  MetricLine "cpu.load" one 0 "" ∅ (defaultSource (this (worldOf metricsOnly)))
  = (cpuLine, None) /\
  internal.SendData cpuLine (transport "localhost:2878" 5000000000 true [])
  = (None, transport "localhost:2878" 5000000000 true [cpuLine]) /\
  SendMetric "cpu.load" one 0 "" ∅ (worldOf metricsOnly)
  = Some (fst (internal.SendData cpuLine (transport "localhost:2878" 5000000000 true [])),
          after (worldOf metricsOnly) metricHandler
            (snd (internal.SendData cpuLine
                    (transport "localhost:2878" 5000000000 true [])))
            (connectCalls metricHandler (transport "localhost:2878" 5000000000 false [])
             ++ [CallMetricLine; CallSendData metricHandler cpuLine])).
Proof.
  assert (Hconn : ensureConnected (transport "localhost:2878" 5000000000 false [])
                  = (None, transport "localhost:2878" 5000000000 true []))
    by (vm_compute; reflexivity).
  assert (Hslot : handlers (this (worldOf metricsOnly)) !! metricHandler
                  = Some (Some (transport "localhost:2878" 5000000000 false [])))
    by (vm_compute; reflexivity).
  assert (Henc : MetricLine "cpu.load" one 0 "" ∅
                   (defaultSource (this (worldOf metricsOnly)))
                 = (cpuLine, None))
    by (vm_compute; reflexivity).
  split; [exact Hconn|]. split; [exact Hslot|]. split; [exact Henc|].
  split; [vm_compute; reflexivity|].
  exact (proj1 (submission_sends_one_line (worldOf metricsOnly) _ _ Hconn)
           Hslot "cpu.load" one 0 "" ∅ cpuLine Henc).
Defined.

(** A refused primary line at work: on a transport whose buffer is full
    the span comes back with the buffering error, and its log is not
    encoded. *)
Lemma SendSpan_primary_send_failure_witness :
  handlers (this (worldOf tracingOnly)) !! spanHandler = Some (Some (tracer false [])) /\
  @ensureConnected _ fullBuffer (tracer false []) = (None, tracer true []) /\
  SpanLine "op" 0 10 "" "t1" "s1" [] [] [] ["note"]
    (defaultSource (this (worldOf tracingOnly))) = (primaryLine, None) /\
  @internal.SendData _ fullBuffer primaryLine (tracer true [])
  = (Some "buffer is full", tracer true []) /\
  @SendSpan _ fullBuffer externals "op" 0 10 "" "t1" "s1" [] [] [] ["note"]
    (worldOf tracingOnly)
  = Some (Some "buffer is full",
          after (worldOf tracingOnly) spanHandler (tracer true [])
            (@connectCalls _ fullBuffer spanHandler (tracer false [])
             ++ [CallSpanLine; CallSendData spanHandler primaryLine])).
Proof.
  assert (Hslot : handlers (this (worldOf tracingOnly)) !! spanHandler
                  = Some (Some (tracer false [])))
    by (vm_compute; reflexivity).
  assert (Hconn : @ensureConnected _ fullBuffer (tracer false []) = (None, tracer true []))
    by (vm_compute; reflexivity).
  assert (Hline : SpanLine "op" 0 10 "" "t1" "s1" [] [] [] ["note"]
                    (defaultSource (this (worldOf tracingOnly))) = (primaryLine, None))
    by (vm_compute; reflexivity).
  assert (Hsend : @internal.SendData _ fullBuffer primaryLine (tracer true [])
                  = (Some "buffer is full", tracer true []))
    by (vm_compute; reflexivity).
  split; [exact Hslot|]. split; [exact Hconn|]. split; [exact Hline|].
  split; [exact Hsend|].
  exact (@SendSpan_primary_send_failure _ fullBuffer externals (worldOf tracingOnly)
           _ _ _ _ _ "op" 0 10 "" "t1" "s1" [] [] [] ["note"] Hslot Hconn Hline Hsend).
Defined.

(** A NaN delta at work: it is not above zero, not at most zero either,
    and it is dropped. *)
Lemma SendDeltaCounter_not_above_zero_witness :
  Go.float_gt S754_nan Go.float_zero = false /\
  Go.float_le S754_nan Go.float_zero = false /\
  SendDeltaCounter "requests" S754_nan 0 "" ∅ (worldOf metricsOnly)
  = Some (None, worldOf metricsOnly).
Proof.
  assert (Hname : "requests" <> EmptyString) by discriminate.
  assert (Hnot : Go.float_gt S754_nan Go.float_zero = false) by (vm_compute; reflexivity).
  split; [exact Hnot|]. split; [vm_compute; reflexivity|].
  exact (SendDeltaCounter_not_above_zero (worldOf metricsOnly) "requests" S754_nan 0 "" ∅
           Hname Hnot).
Defined.

(** The frame at work: a metric sent on the sender of [metricsOnly]. *)
Lemma submission_untouched_witness :
  SendMetric "cpu.load" one 0 "" ∅ (worldOf metricsOnly) = Some (None, afterCpu) /\
  untouchedBut metricHandler (worldOf metricsOnly) afterCpu.
Proof.
  assert (Hrun : SendMetric "cpu.load" one 0 "" ∅ (worldOf metricsOnly)
                 = Some (None, afterCpu))
    by (vm_compute; reflexivity).
  split; [exact Hrun|].
  exact (proj1 (submission_untouched (worldOf metricsOnly) afterCpu None)
           "cpu.load" one 0 "" ∅ Hrun).
Defined.

(** The calls of a submission at work: the same metric. *)
Lemma submission_calls_witness :
  SendMetric "cpu.load" one 0 "" ∅ (worldOf metricsOnly) = Some (None, afterCpu) /\
  exists cs,
    calls afterCpu = calls (worldOf metricsOnly) ++ cs /\
    forallb submissionCall cs = true /\
    (length (handedOver cs) <= 1)%nat /\
    Forall (fun p => fst p = metricHandler) (handedOver cs).
Proof.
  assert (Hrun : SendMetric "cpu.load" one 0 "" ∅ (worldOf metricsOnly)
                 = Some (None, afterCpu))
    by (vm_compute; reflexivity).
  split; [exact Hrun|].
  exact (proj1 (submission_calls (worldOf metricsOnly) afterCpu None)
           "cpu.load" one 0 "" ∅ Hrun).
Defined.

(** [Close] at work on the sender of [metricsOnly]: the transport is
    closed, the registry is stopped, and the final report tries to
    connect the closed transport for the version gauge; the sixteen
    counters, all at zero, give no call.  On the sender of [tracingOnly],
    which has no metric handler, the report changes nothing. *)
Lemma Close_all_witness :
  wellFormed (this (worldOf metricsOnly)) = true /\
  internalRegistry (this (worldOf metricsOnly))
  = Some (internal.RegistryStart registryBuilt) /\
  (exists w',
     Close (worldOf metricsOnly) = Some (tt, w') /\
     report (fst (internal.RegistryStop (internal.RegistryStart registryBuilt)))
       (closing (worldOf metricsOnly) (internal.RegistryStart registryBuilt))
     = Some (tt, w') /\
     untouchedBut metricHandler
       (closing (worldOf metricsOnly) (internal.RegistryStart registryBuilt)) w' /\
     (handlers (this (worldOf metricsOnly)) !! metricHandler = Some None ->
      w' = closing (worldOf metricsOnly) (internal.RegistryStart registryBuilt)) /\
     exists cs,
       calls w' = calls (worldOf metricsOnly)
                  ++ slotCalls CallClose 0 (handlers (this (worldOf metricsOnly)))
                  ++ [CallRegistryStop] ++ cs /\
       forallb submissionCall cs = true /\
       Forall (fun q => fst q = metricHandler) (handedOver cs)) /\
  calls <$> (snd <$> Close (worldOf metricsOnly))
  = Some (calls (worldOf metricsOnly)
          ++ [CallClose metricHandler; CallRegistryStop; CallConnect metricHandler]) /\
  Close (worldOf tracingOnly)
  = Some (tt, closing (worldOf tracingOnly) (internal.RegistryStart registryBuilt)).
Proof.
  assert (Hwf : wellFormed (this (worldOf metricsOnly)) = true)
    by (vm_compute; reflexivity).
  assert (Hreg : internalRegistry (this (worldOf metricsOnly))
                 = Some (internal.RegistryStart registryBuilt))
    by (vm_compute; reflexivity).
  split; [exact Hwf|]. split; [exact Hreg|].
  split; [exact (Close_all (worldOf metricsOnly) _ Hwf Hreg)|].
  split; vm_compute; reflexivity.
Defined.

(** The invariant at work: a metric, a flush, a close, a span for the
    category that is not configured, the failure count and a start, one
    after the other on the sender of [metricsOnly]. *)
Lemma calls_keep_wellFormed_witness :
  wellFormed (this (worldOf metricsOnly)) = true /\
  exists w',
    performAll [DoSendMetric "cpu.load" one 0 "" ∅; DoFlush; DoClose;
                DoSendSpan "op" 0 10 "" "t1" "s1" [] [] [] ["note"];
                DoGetFailureCount; DoStart] (worldOf metricsOnly) = Some (tt, w') /\
    wellFormed (this w') = true /\
    shape (handlers (this w')) = shape (handlers (this (worldOf metricsOnly))).
Proof.
  assert (Hwf : wellFormed (this (worldOf metricsOnly)) = true)
    by (vm_compute; reflexivity).
  split; [exact Hwf|].
  exact (calls_keep_wellFormed (worldOf metricsOnly) _ Hwf).
Defined.

(** The constructor's invariant at work. *)
Lemma NewProxySender_wellFormed_witness :
  NewProxySender offline
  = Some ((Some (startedSender (defaulted offline)), None),
          defaulted offline, constructionCalls (defaulted offline)) /\
  wellFormed (startedSender (defaulted offline)) = true /\
  shape (handlers (startedSender (defaulted offline))) = [true; false; true; false].
Proof.
  assert (Hnew : NewProxySender offline
                 = Some ((Some (startedSender (defaulted offline)), None),
                         defaulted offline, constructionCalls (defaulted offline)))
    by (vm_compute; reflexivity).
  destruct (NewProxySender_wellFormed offline _ _ _ _ Hnew) as [Hwf Hshape].
  split; [exact Hnew|]. split; [exact Hwf|].
  by_run Hshape.
Defined.

(** A submission after [Close] at work: on the sender of [metricsOnly]
    a metric sent after [Close] is not refused for a missing port; it
    reaches the closed transport, which refuses to connect. *)
Lemma submission_after_Close_witness :
  wellFormed (this (worldOf metricsOnly)) = true /\
  (exists w1,
     Close (worldOf metricsOnly) = Some (tt, w1) /\
     shape (handlers (this w1)) = shape (handlers (this (worldOf metricsOnly))) /\
     (forall h name value ts source tags,
        handlers (this (worldOf metricsOnly)) !! metricHandler = Some (Some h) ->
        exists h1,
          handlers (this w1) !! metricHandler = Some (Some h1) /\
          SendMetric name value ts source tags w1
          = Some (submitted w1 metricHandler h1 CallMetricLine
                    (MetricLine name value ts source tags))) /\
     (forall h name centroids hgs ts source tags,
        handlers (this (worldOf metricsOnly)) !! histoHandler = Some (Some h) ->
        SendDistribution name centroids hgs ts source tags w1
        = Some (submitted w1 histoHandler (internal.Close h) CallHistoLine
                  (HistoLine name centroids hgs ts source tags))) /\
     (forall h name startMillis endMillis source tags setters,
        handlers (this (worldOf metricsOnly)) !! eventHandler = Some (Some h) ->
        SendEvent name startMillis endMillis source tags setters w1
        = Some (submitted w1 eventHandler (internal.Close h) CallEventLine
                  (fun _ => EventLine name startMillis endMillis source tags setters)))) /\
  fst <$> bind Close (fun _ => SendMetric "cpu.load" one 0 "" ∅) (worldOf metricsOnly)
  = Some (Some "connection handler is closed").
Proof.
  assert (Hwf : wellFormed (this (worldOf metricsOnly)) = true)
    by (vm_compute; reflexivity).
  split; [exact Hwf|].
  split; [exact (submission_after_Close (worldOf metricsOnly) Hwf)|].
  vm_compute; reflexivity.
Defined.

(** A second [Start] at work on the sender of [offline]. *)
Lemma Start_after_construction_witness :
  NewProxySender offline
  = Some ((Some (startedSender (defaulted offline)), None),
          defaulted offline, constructionCalls (defaulted offline)) /\
  exists w',
    Start {| this := startedSender (defaulted offline);
             calls := constructionCalls (defaulted offline) |} = Some (tt, w') /\
    handlers (this w')
    = map (fmap (fun h => internal.Start (internal.Start h)))
        (map (builtFor (defaulted offline)) (ports offline)) /\
    calls w' = constructionCalls (defaulted offline)
               ++ slotCalls CallStart 0 (map (builtFor (defaulted offline)) (ports offline))
               ++ [CallRegistryStart] /\
    filter (fun x => armsTimer x = true) (constructionCalls (defaulted offline))
    = slotCalls CallStart 0 (map (builtFor (defaulted offline)) (ports offline))
      ++ [CallRegistryStart].
Proof.
  assert (Hnew : NewProxySender offline
                 = Some ((Some (startedSender (defaulted offline)), None),
                         defaulted offline, constructionCalls (defaulted offline)))
    by (vm_compute; reflexivity).
  split; [exact Hnew|].
  exact (Start_after_construction offline _ _ _ _ Hnew).
Defined.


(** The interval at work: the default of 5 seconds is 5 * 10^9 ns. *)
Lemma NewProxySender_interval_witness :
  NewProxySender metricsOnly
  = Some ((Some (startedSender (defaulted metricsOnly)), None),
          defaulted metricsOnly, constructionCalls (defaulted metricsOnly)) /\
  - 9223372036 <= FlushIntervalSeconds (defaulted metricsOnly) <= 9223372036 /\
  builtHandlers (constructionCalls (defaulted metricsOnly))
  = [("localhost:2878", 5000000000)] /\
  Forall (fun b => snd b = 1000000000 * FlushIntervalSeconds (defaulted metricsOnly))
    (builtHandlers (constructionCalls (defaulted metricsOnly))).
Proof.
  assert (Hnew : NewProxySender metricsOnly
                 = Some ((Some (startedSender (defaulted metricsOnly)), None),
                         defaulted metricsOnly, constructionCalls (defaulted metricsOnly)))
    by (vm_compute; reflexivity).
  assert (Hsecs : FlushIntervalSeconds (defaulted metricsOnly) = 5)
    by (vm_compute; reflexivity).
  assert (Hfit : - 9223372036 <= FlushIntervalSeconds (defaulted metricsOnly) <= 9223372036)
    by (rewrite Hsecs; lia).
  split; [exact Hnew|]. split; [exact Hfit|].
  split; [vm_compute; reflexivity|].
  exact (NewProxySender_interval metricsOnly _ _ _ Hnew Hfit).
Defined.

(** Independence at work: a metric and a span on the sender of
    [twoPorts], in both orders. *)
Lemma submissions_commute_witness :
  metricHandler <> spanHandler /\
  wellFormed (this (worldOf twoPorts)) = true /\
  exists ra rb wab wba,
    bind (SendMetric "cpu.load" one 0 "" ∅)
      (fun x => bind (SendSpan "op" 0 10 "" "t1" "s1" [] [] [] ["note"])
                  (fun y => ret (x, y))) (worldOf twoPorts)
    = Some ((ra, rb), wab) /\
    bind (SendSpan "op" 0 10 "" "t1" "s1" [] [] [] ["note"])
      (fun y => bind (SendMetric "cpu.load" one 0 "" ∅)
                  (fun x => ret (x, y))) (worldOf twoPorts)
    = Some ((ra, rb), wba) /\
    this wab = this wba.
Proof.
  assert (Hne : metricHandler <> spanHandler) by discriminate.
  assert (Hwf : wellFormed (this (worldOf twoPorts)) = true)
    by (vm_compute; reflexivity).
  split; [exact Hne|]. split; [exact Hwf|].
  exact (submissions_commute (worldOf twoPorts)
           (DoSendMetric "cpu.load" one 0 "" ∅)
           (DoSendSpan "op" 0 10 "" "t1" "s1" [] [] [] ["note"])
           metricHandler spanHandler _ _ eq_refl eq_refl Hne Hwf).
Defined.
